(** * Post extraction and normalisation of the Ninisite scrapers

    A shallow embedding of the two scrapers of the repository,

    - [ninisite_scraper.py]    (module [Scraper]: articles with known
      containers, org-mode output), and
    - [ninisite_scraper_v2.py] (module [ScraperV2]: scan of every [div],
      heuristic cleaning and validation, de-duplication),

    followed by the properties of the extraction pipeline.

    Python values are modelled as follows.  A [str] is the list of its
    Unicode code points ([Z]); [len], slicing and indexing are the list
    operations.  A [dict] with a fixed set of optional keys is a record of
    [option] fields.  A call that may raise returns an [outcome].  The
    parsed HTML of a page is represented by the answers of the
    BeautifulSoup queries the code performs on it. *)

From Stdlib Require Import ZArith String Ascii Lia Bool DecimalString Sorted.
From Stdlib Require Import DecimalN DecimalPos.
From stdpp Require Import base option list gmap sorting.

Local Open Scope Z_scope.

(** ** Python primitives *)

Module Py.

(** A string: the list of its code points. *)
Definition str := list Z.

(** Bytes of a source literal, and their UTF-8 decoding: the literals of
    the two Python files are written below as they appear in the source. *)
Fixpoint bytes_of (s : string) : list Z :=
  match s with
  | EmptyString => []
  | String a s' => Z.of_N (N_of_ascii a) :: bytes_of s'
  end.

Fixpoint utf8_go (need : nat) (acc : Z) (bs : list Z) : str :=
  match bs with
  | [] => []
  | b :: bs' =>
    match need with
    | O =>
      if b <? 128 then b :: utf8_go 0 0 bs'
      else if b <? 224 then utf8_go 1 (Z.land b 31) bs'
      else if b <? 240 then utf8_go 2 (Z.land b 15) bs'
      else utf8_go 3 (Z.land b 7) bs'
    | S O => (acc * 64 + Z.land b 63) :: utf8_go 0 0 bs'
    | S n => utf8_go n (acc * 64 + Z.land b 63) bs'
    end
  end.

Definition u (s : string) : str := utf8_go 0 0 (bytes_of s).

(** Truth value of a string: [if not s]. *)
Definition is_empty (s : str) : bool :=
  match s with [] => true | _ => false end.

(** [Py_UNICODE_ISSPACE]: the characters matched by [\s] in a [str]
    pattern and removed by [str.strip()] / [str.split()]. *)
Definition isspace (c : Z) : bool :=
  ((9 <=? c) && (c <=? 13)) || ((28 <=? c) && (c <=? 32))
  || (c =? 133) || (c =? 160) || (c =? 5760)
  || ((8192 <=? c) && (c <=? 8202))
  || (c =? 8232) || (c =? 8233) || (c =? 8239) || (c =? 8287) || (c =? 12288).

(** First code points of the runs of ten decimal digits (general category
    Nd, Unicode 14.0 as shipped with CPython 3.11); the mathematical digits
    U+1D7CE..U+1D7FF form five consecutive runs. *)
Definition nd_starts : list Z :=
  [ 0x0030; 0x0660; 0x06F0; 0x07C0; 0x0966; 0x09E6; 0x0A66; 0x0AE6; 0x0B66;
    0x0BE6; 0x0C66; 0x0CE6; 0x0D66; 0x0DE6; 0x0E50; 0x0ED0; 0x0F20; 0x1040;
    0x1090; 0x17E0; 0x1810; 0x1946; 0x19D0; 0x1A80; 0x1A90; 0x1B50; 0x1BB0;
    0x1C40; 0x1C50; 0xA620; 0xA8D0; 0xA900; 0xA9D0; 0xA9F0; 0xAA50; 0xABF0;
    0xFF10; 0x104A0; 0x10D30; 0x11066; 0x110F0; 0x11136; 0x111D0; 0x112F0;
    0x11450; 0x114D0; 0x11650; 0x116C0; 0x11730; 0x118E0; 0x11950; 0x11C50;
    0x11D50; 0x11DA0; 0x16A60; 0x16AC0; 0x16B50;
    0x1D7CE; 0x1D7D8; 0x1D7E2; 0x1D7EC; 0x1D7F6;
    0x1E140; 0x1E2F0; 0x1E950; 0x1FBF0 ].

(** Value of a decimal digit ([int] accepts every Nd character). *)
Fixpoint decimal_in (starts : list Z) (c : Z) : option Z :=
  match starts with
  | [] => None
  | lo :: starts' =>
    if (lo <=? c) && (c <=? lo + 9) then Some (c - lo)
    else decimal_in starts' c
  end.

Definition decimal_value (c : Z) : option Z := decimal_in nd_starts c.

(** [Py_UNICODE_ISDECIMAL]: the characters matched by [\d]. *)
Definition isdecimal (c : Z) : bool :=
  match decimal_value c with Some _ => true | None => false end.

(** Length of the longest prefix whose characters satisfy [p]: a greedy
    [x*] over a character class. *)
Fixpoint span (p : Z -> bool) (s : str) : nat :=
  match s with
  | c :: s' => if p c then S (span p s') else O
  | [] => O
  end.

Fixpoint lstrip (s : str) : str :=
  match s with
  | c :: s' => if isspace c then lstrip s' else s
  | [] => []
  end.

Definition rstrip (s : str) : str := reverse (lstrip (reverse s)).

(** [s.strip()] *)
Definition strip (s : str) : str := rstrip (lstrip s).

(** [s.split()]: the maximal runs of non-space characters; [w] is the word
    being read. *)
Fixpoint split_go (w : str) (s : str) : list str :=
  match s with
  | [] => if is_empty w then [] else [w]
  | c :: s' =>
    if isspace c then
      (if is_empty w then split_go [] s' else w :: split_go [] s')
    else split_go (w ++ [c]) s'
  end.

Definition split (s : str) : list str := split_go [] s.

(** [s.startswith(p)] *)
Fixpoint startswith (p s : str) : bool :=
  match p, s with
  | [], _ => true
  | a :: p', b :: s' => (a =? b) && startswith p' s'
  | _ :: _, [] => false
  end.

(** [p in s] *)
Fixpoint contains (p s : str) : bool :=
  startswith p s
  || match s with
     | [] => false
     | _ :: s' => contains p s'
     end.

(** ** Regular expressions

    A pattern is modelled by its matcher at the head of the remaining text.
    The patterns of the two files only concatenate literals, alternatives
    of literals and greedy runs over character classes that are disjoint
    from what follows them, so backtracking into a run never succeeds and
    the greedy choice is the match. *)

(** [re.sub(pattern, repl, s)] for a pattern without anchors that does not
    match the empty string: [m] gives the length of the match at the head
    of the text, the scan resumes after the match; [skip] counts the
    matched characters still to be dropped. *)
Fixpoint re_sub_go (m : str -> option nat) (repl : str)
    (skip : nat) (s : str) : str :=
  match s with
  | [] => []
  | c :: s' =>
    match skip with
    | S k => re_sub_go m repl k s'
    | O =>
      match m s with
      | Some (S n) => repl ++ re_sub_go m repl n s'
      | _ => c :: re_sub_go m repl 0 s'
      end
    end
  end.

Definition re_sub (m : str -> option nat) (repl s : str) : str :=
  re_sub_go m repl 0 s.

(** [re.search(pattern, s)]: the text of the leftmost match. *)
Fixpoint re_search (m : str -> option nat) (s : str) : option str :=
  match m s with
  | Some n => Some (take n s)
  | None =>
    match s with
    | [] => None
    | _ :: s' => re_search m s'
    end
  end.

(** A literal character, [\d{n}], and the end assertion [$] (the end of
    the text, or just before a final newline). *)
Definition m_lit (c : Z) (s : str) : option str :=
  match s with
  | c' :: s' => if c' =? c then Some s' else None
  | [] => None
  end.

Fixpoint m_digits (n : nat) (s : str) : option str :=
  match n with
  | O => Some s
  | S n' =>
    match s with
    | c :: s' => if isdecimal c then m_digits n' s' else None
    | [] => None
    end
  end.

Definition at_dollar (s : str) : bool :=
  match s with
  | [] => true
  | [c] => c =? 10
  | _ => false
  end.

(** [a1|a2|...] followed by [k]: the first alternative after which the
    rest of the pattern matches. *)
Fixpoint m_alt {A} (alts : list str) (k : str -> option A) (s : str)
    : option (nat * A) :=
  match alts with
  | [] => None
  | a :: alts' =>
    match (if startswith a s then k (drop (length a) s) else None) with
    | Some r => Some (length a, r)
    | None => m_alt alts' k s
    end
  end.

(** [str.replace(old, new)] for a non-empty [old]. *)
Definition replace (old new s : str) : str :=
  re_sub (fun t => if startswith old t then Some (length old) else None)
         new s.

(** Decimal rendering with the format specification [0{w}d]: zero padding
    to [w] characters, the sign counted in the width. *)
Definition digits_of (n : Z) : str :=
  bytes_of (NilZero.string_of_uint (N.to_uint (Z.to_N n))).

Definition zfill (w : nat) (ds : str) : str :=
  replicate (w - length ds)%nat 48 ++ ds.

Definition format_0d (w : nat) (n : Z) : str :=
  if n <? 0 then 45 :: zfill (w - 1) (digits_of (- n))
  else zfill w (digits_of n).

(** Exceptions and the result of a call that may raise. *)
Inductive exn :=
| IndexError
| ValueError
| Exception (msg : string).

Inductive outcome (A : Type) :=
| Return (a : A)
| Raise (e : exn).
Arguments Return {A} a.
Arguments Raise {A} e.

#[global] Instance outcome_ret : MRet outcome := fun A a => Return a.
#[global] Instance outcome_bind : MBind outcome := fun A B f x =>
  match x with
  | Return a => f a
  | Raise e => Raise e
  end.

(** [raise e] *)
Definition raise {A} (e : exn) : outcome A := Raise e.

(** [l[i]] *)
Definition getitem {A} (l : list A) (i : nat) : outcome A :=
  match l !! i with
  | Some a => Return a
  | None => Raise IndexError
  end.

(** [s.split(sep)] for a one-character separator. *)
Fixpoint split_on (sep : Z) (s : str) : list str :=
  match s with
  | [] => [[]]
  | c :: s' =>
    if c =? sep then [] :: split_on sep s'
    else match split_on sep s' with
         | w :: ws => (c :: w) :: ws
         | [] => [[c]]
         end
  end.

(** [s.split(sep)] for a separator of one character or more; [w] is the
    part being read, last character first, and [skip] counts the
    characters of a separator that are still to be passed over. *)
Fixpoint split_str_go (sep w : str) (skip : nat) (s : str) : list str :=
  match s with
  | [] => [rev w]
  | c :: s' =>
    match skip with
    | S k => split_str_go sep w k s'
    | O =>
      if startswith sep s then rev w :: split_str_go sep [] (length sep - 1) s'
      else split_str_go sep (c :: w) O s'
    end
  end.

Definition split_str (sep s : str) : list str := split_str_go sep [] O s.

(** [sep.join(parts)] *)
Fixpoint join (sep : str) (parts : list str) : str :=
  match parts with
  | [] => []
  | [w] => w
  | w :: ws => w ++ sep ++ join sep ws
  end.

(** [int(t)] on a run of decimal digits, as [\d+] matches it.  CPython
    refuses to convert more than 4300 digits
    ([sys.int_info.default_max_str_digits]). *)
Definition int_digits (t : str) : outcome Z :=
  if (4300 <? length t)%nat then raise ValueError
  else mret (fold_left (fun acc c => match decimal_value c with
                                     | Some v => acc * 10 + v
                                     | None => acc
                                     end) t 0).

(** [int(s)] for a string.  CPython first turns every character beyond
    ASCII into a blank (white space), an ASCII digit (decimal digits of
    any script) or a character that cannot be read; then it reads optional
    ASCII white space, an optional sign, decimal digits that single
    underscores may separate, and optional ASCII white space up to the
    end.  Anything else, or more than 4300 digits, raises [ValueError]. *)
Definition int_space (c : Z) : bool :=
  ((9 <=? c) && (c <=? 13)) || (c =? 32).

Definition to_ascii (c : Z) : Z :=
  if c <? 127 then c
  else if isspace c then 32
  else match decimal_value c with
       | Some v => 48 + v
       | None => 63
       end.

Definition ascii_digit (c : Z) : option Z :=
  if (48 <=? c) && (c <=? 57) then Some (c - 48) else None.

(** The digits after the first one: the value and the number of digits
    read so far, and what is left of the text after the last digit. *)
Fixpoint int_more (value : Z) (digits : nat) (s : str) : Z * nat * str :=
  match s with
  | c :: s' =>
    match ascii_digit c with
    | Some d => int_more (value * 10 + d) (S digits) s'
    | None =>
      match s' with
      | c' :: s'' =>
        match (if c =? 95 then ascii_digit c' else None) with
        | Some d => int_more (value * 10 + d) (S digits) s''
        | None => (value, digits, s)
        end
      | [] => (value, digits, s)
      end
    end
  | [] => (value, digits, s)
  end.

Definition int_of_str (s : str) : outcome Z :=
  let s := to_ascii <$> s in
  let s := drop (span int_space s) s in
  let '(sign, s) :=
    match s with
    | 43 :: s' => (1, s')
    | 45 :: s' => (-1, s')
    | _ => (1, s)
    end in
  match s with
  | c :: s' =>
    match ascii_digit c with
    | Some d =>
      let '(value, digits, rest) := int_more d 1 s' in
      if forallb int_space rest && (digits <=? 4300)%nat
      then mret (sign * value)
      else raise ValueError
    | None => raise ValueError
    end
  | [] => raise ValueError
  end.

(** [re.search] for a pattern with a group: the first position where the
    matcher yields a value. *)
Fixpoint re_find {A} (m : str -> option A) (s : str) : option A :=
  match m s with
  | Some r => Some r
  | None =>
    match s with
    | [] => None
    | _ :: s' => re_find m s'
    end
  end.

(** [str(n)] for an integer. *)
Definition str_of_int (n : Z) : str :=
  if n <? 0 then 45 :: digits_of (- n) else digits_of n.

End Py.

Import Py.

(** ** [ninisite_scraper_v2.py] *)

Module ScraperV2.

(** [post_data]: the dictionary built by [extract_post_data]
    ([post_number] and [user_info] are never filled in). *)
Record PostData := {
  content : str;
  username : str;
  timestamp : str;
  post_number : str
}.

(** The [div class="...post-content..."] of a block: the text of its
    first [p], if any, and its own text. *)
Record ContentDiv := {
  content_p : option str;
  content_text : str
}.

(** A scanned block, as [extract_post_data] queries it:
    [find('a', class_='username')], [find('a', href=re.compile(r'/user/'))],
    [find('div', class_=... 'post-content' ...)], [get_text()] and
    [find('span', class_='timestamp')]. *)
Record Element := {
  a_username : option str;
  a_user_href : option str;
  post_content : option ContentDiv;
  elem_text : str;
  span_timestamp : option str
}.

(** [\s+] *)
Definition m_spaces (s : str) : option nat :=
  match span isspace s with
  | O => None
  | n => Some n
  end.

(** [\\+] *)
Definition m_backslashes (s : str) : option nat :=
  match span (fun c => c =? 92) s with
  | O => None
  | n => Some n
  end.

(** [\s*[|:]+\s*] *)
Definition is_bar_colon (c : Z) : bool := (c =? 124) || (c =? 58).

Definition m_separators (s : str) : option nat :=
  let a := span isspace s in
  let s1 := drop a s in
  let b := span is_bar_colon s1 in
  match b with
  | O => None
  | _ => Some (a + b + span isspace (drop b s1))%nat
  end.

(** [(تعداد پست|عضویت|امتیاز):\s*[\d/]+] *)
Definition labels : list str := [u "تعداد پست"; u "عضویت"; u "امتیاز"].

Definition is_digit_or_slash (c : Z) : bool := isdecimal c || (c =? 47).

Definition m_label_value (s : str) : option nat :=
  '(n, k) ← m_alt labels (fun s1 =>
     s2 ← m_lit 58 s1;
     let a := span isspace s2 in
     match span is_digit_or_slash (drop a s2) with
     | O => None
     | b => Some (1 + a + b)%nat
     end) s;
  Some (n + k)%nat.

(** [\d{4}/\d{2}/\d{2}]: the text after the date. *)
Definition m_date (s : str) : option str :=
  s1 ← m_digits 4 s;
  s2 ← m_lit 47 s1;
  s3 ← m_digits 2 s2;
  s4 ← m_lit 47 s3;
  m_digits 2 s4.

(** [re.sub(r'^\s*\d{4}/\d{2}/\d{2}\s*$', '', s)]: the pattern is
    anchored at both ends, so it matches the whole text or nothing. *)
Definition is_date_only (s : str) : bool :=
  match m_date (drop (span isspace s) s) with
  | Some rest => forallb isspace rest
  | None => false
  end.

Definition sub_date_only (s : str) : str :=
  if is_date_only s then [] else s.

Definition nav_terms : list str :=
  [u "تبادل نظر"; u "ثبت نام"; u "مجله"; u "فروشگاه"; u "بارداری";
   u "مشاورین"; u "کانون"; u "دسته بندی"].

(** The rules of [clean_content], in the order they are applied. *)

(* Remove excessive whitespace and line breaks *)
Definition collapse_whitespace (content : str) : str :=
  re_sub m_spaces (u " ") content.

(* Remove backslashes used in markdown escaping *)
Definition remove_backslashes (content : str) : str :=
  re_sub m_backslashes [] content.

(* Remove standalone punctuation and symbols *)
Definition remove_separators (content : str) : str :=
  re_sub m_separators (u " ") content.

(* Remove metadata patterns *)
Definition remove_label_values (content : str) : str :=
  re_sub m_label_value [] content.

(* Remove navigation/menu terms *)
Definition remove_nav_terms (content : str) : str :=
  fold_left (fun content term => replace term [] content) nav_terms content.

(* Remove very short content that's likely metadata *)
Definition reject_short (content : str) : str :=
  let content := strip content in
  if (length content <? 30)%nat then [] else content.

Definition clean_content (content : str) : str :=
  if is_empty content then []
  else
    let content := collapse_whitespace content in
    let content := remove_backslashes content in
    let content := remove_separators content in
    let content := remove_label_values content in
    let content := remove_nav_terms content in
    (* Remove standalone dates without context *)
    let content := sub_date_only content in
    reject_short content.

(** [عضویت:\s*\d{4}/\d{2}/\d{2}] *)
Definition m_join_date (s : str) : option nat :=
  let lbl := u "عضویت:" in
  if startswith lbl s then
    let s1 := drop (length lbl) s in
    let a := span isspace s1 in
    _ ← m_date (drop a s1);
    Some (length lbl + a + 10)%nat
  else None.

(** [تعداد پست:\s*\d+] *)
Definition m_post_count (s : str) : option nat :=
  let lbl := u "تعداد پست:" in
  if startswith lbl s then
    let s1 := drop (length lbl) s in
    let a := span isspace s1 in
    match span isdecimal (drop a s1) with
    | O => None
    | b => Some (length lbl + a + b)%nat
    end
  else None.

(** [\d{4}/\d{2}/\d{2}\s*\|?\s*\d{2}:\d{2}] *)
Definition m_timestamp (s : str) : option nat :=
  s1 ← m_date s;
  let a := span isspace s1 in
  let s2 := drop a s1 in
  let bar := if bool_decide (head s2 = Some 124) then 1%nat else 0%nat in
  let s3 := drop bar s2 in
  let b := span isspace s3 in
  s4 ← m_digits 2 (drop b s3);
  s5 ← m_lit 58 s4;
  _ ← m_digits 2 s5;
  Some (10 + a + bar + b + 5)%nat.

Definition or_else {A} (x y : option A) : option A :=
  match x with
  | Some _ => x
  | None => y
  end.

Definition extract_post_data (post_elem : Element) : option PostData :=
  (* Extract username *)
  let username :=
    match or_else (a_username post_elem) (a_user_href post_elem) with
    | Some t => strip t
    | None => []
    end in
  (* Extract post content *)
  let content :=
    match post_content post_elem with
    | Some content_elem =>
      match content_p content_elem with
      | Some p => strip p
      | None => strip (content_text content_elem)
      end
    | None =>
      let content := strip (elem_text post_elem) in
      let content := re_sub m_join_date [] content in
      re_sub m_post_count [] content
    end in
  (* Extract timestamp *)
  let timestamp :=
    match span_timestamp post_elem with
    | Some t => strip t
    | None =>
      match re_search m_timestamp (elem_text post_elem) with
      | Some t => t
      | None => []
      end
    end in
  (* Clean content *)
  let content := clean_content content in
  if is_empty content then None
  else Some {| content := content; username := username;
               timestamp := timestamp; post_number := [] |}.

(** The patterns of [metadata_patterns], tried with [re.match]. *)
Definition pat_label_value (s : str) : bool :=
  match m_alt labels (fun s1 =>
          s2 ← m_lit 58 s1;
          let s3 := drop (span isspace s2) s2 in
          match span is_digit_or_slash s3 with
          | O => None
          | b => if at_dollar (drop b s3) then Some tt else None
          end) s with
  | Some _ => true
  | None => false
  end.

Definition pat_date (s : str) : bool :=
  match m_date s with
  | Some rest => forallb isspace rest
  | None => false
  end.

Definition pat_separators (s : str) : bool :=
  negb (is_empty s) && forallb (fun c => is_bar_colon c || isspace c) s.

Definition pat_role (s : str) : bool :=
  match m_alt [u "مدیر"; u "استارتر"]
          (fun rest => if at_dollar rest then Some tt else None) s with
  | Some _ => true
  | None => false
  end.

Definition metadata_patterns : list (str -> bool) :=
  [pat_label_value; pat_date; pat_separators; pat_role].

Definition has_persian (s : str) : bool :=
  existsb (fun c => (0x0600 <=? c) && (c <=? 0x06FF)) s.

Definition nav_ratio (content : str) : nat :=
  length (filter (fun term => contains term content = true)
            [u "تبادل نظر"; u "ثبت نام"; u "مجله"; u "فروشگاه"]).

Definition is_valid_post (post_data : option PostData) : bool :=
  match post_data with
  | None => false
  | Some pd =>
    let content := content pd in
    if is_empty content then false
    (* Skip if content is too short *)
    else if (length content <? 30)%nat then false
    (* Skip if content is just metadata *)
    else if existsb (fun pattern => pattern (strip content)) metadata_patterns
    then false
    (* Skip navigation-heavy content *)
    else if (2 <? nav_ratio content)%nat then false
    else
      (* Must have Persian text and be conversational *)
      let word_count := length (split content) in
      has_persian content && (5 <=? word_count)%nat
      && (word_count <=? 200)%nat
  end.

(** The de-duplication loop of [scrape_thread]; [hash] is the built-in
    hash of strings, [seen_content] a set of hash values. *)
Section Dedup.
Variable hash : str -> Z.

Definition content_hash (post : PostData) : Z :=
  hash (take 100 (content post)).

Definition dedup_step (st : gset Z * list PostData) (post : PostData)
    : gset Z * list PostData :=
  let '(seen_content, unique_posts) := st in
  if bool_decide (content_hash post ∈ seen_content) then st
  else ({[content_hash post]} ∪ seen_content, unique_posts ++ [post]).

Definition unique_posts (all_posts : list PostData) : list PostData :=
  snd (fold_left dedup_step all_posts (∅, [])).
End Dedup.

(** *** Pages and threads *)

(** A fetched page, as the code queries it: [find_all('div')], the [href]
    of the [a] tags that have one, and [get_text()]. *)
Record Soup := {
  divs : list Element;
  a_hrefs : list str;
  soup_text : str
}.

Record Metadata := {
  thread_id : str;
  thread_title : str;
  source_url : str;
  scraped_at : str;
  total_pages : Z;
  total_posts : Z
}.

(** [page=\d+]: the length of the match; the group [(\d+)] is the match
    without its first five characters. *)
Definition m_page_param (s : str) : option nat :=
  let lit := u "page=" in
  if startswith lit s then
    match span isdecimal (drop (length lit) s) with
    | O => None
    | b => Some (length lit + b)%nat
    end
  else None.

(** [(\d+)\s*صفحه|page\s*(\d+)] with [IGNORECASE]:
    [match.group(1) or match.group(2)]. *)
Definition m_pages_text (s : str) : option str :=
  let d := span isdecimal s in
  let rest := drop d s in
  if negb (d =? 0)%nat
     && startswith (u "صفحه") (drop (span isspace rest) rest)
  then Some (take d s)
  else
    match s with
    | p :: a :: g :: e :: rest =>
      if ((p =? 112) || (p =? 80)) && ((a =? 97) || (a =? 65))
         && ((g =? 103) || (g =? 71)) && ((e =? 101) || (e =? 69))
      then
        let digits := drop (span isspace rest) rest in
        match span isdecimal digits with
        | O => None
        | n => Some (take n digits)
        end
      else None
    | _ => None
    end.

(** The loop over the page links. *)
Fixpoint page_numbers_of (page_links : list str) : outcome (list Z) :=
  match page_links with
  | [] => mret []
  | href :: page_links' =>
    match re_search m_page_param href with
    | Some t =>
      n ← int_digits (drop 5 t);
      page_numbers ← page_numbers_of page_links';
      mret (n :: page_numbers)
    | None => page_numbers_of page_links'
    end
  end.

(** [max(page_numbers)] for a list that is not empty. *)
Definition max_of (n : Z) (ns : list Z) : Z := fold_left Z.max ns n.

Definition get_total_pages (soup : Soup) : outcome Z :=
  let page_links :=
    List.filter (fun href => bool_decide (is_Some (re_search m_page_param href)))
                (a_hrefs soup) in
  if negb (bool_decide (page_links = [])) then
    page_numbers ← page_numbers_of page_links;
    match page_numbers with
    | n :: ns => mret (max_of n ns)
    | [] => mret 1
    end
  else
    (* Look for pagination info in text *)
    match re_find m_pages_text (soup_text soup) with
    | Some digits => int_digits digits
    | None => mret 1
    end.

Section Thread.
(** [urlparse(url).path], [unquote], [str.lower], the time of the call
    ([datetime.now().isoformat()]), the hash of strings, and the answer to
    the [k]-th request of the session, parsed. *)
Variable url_path : str -> str.
Variable unquote : str -> str.
Variable lower : str -> str.
Variable now : str.
Variable hash : str -> Z.
Variable session_get : nat -> str -> outcome Soup.

Definition get_thread_info (url : str) : outcome (str * str) :=
  let path_parts := split_on 47 (url_path url) in
  if (4 <=? length path_parts)%nat
     && bool_decide (path_parts !! 2%nat = Some (u "topic"))
  then
    thread_id ← getitem path_parts 3;
    thread_title ←
      (if (4 <? length path_parts)%nat
       then part ← getitem path_parts 4; mret (unquote part)
       else mret (u "untitled"));
    mret (thread_id, thread_title)
  else raise ValueError.

(** The address that [fetch_page] requests; [str(page_num)] is refused
    beyond 4300 digits. *)
Definition page_address (url : str) (page_num : Z) : outcome str :=
  if 1 <? page_num then
    if (4300 <? length (digits_of page_num))%nat then raise ValueError
    else if contains (u "?") url
    then mret (url ++ u "&page=" ++ str_of_int page_num)
    else mret (url ++ u "?page=" ++ str_of_int page_num)
  else mret url.

Definition fetch_page (k : nat) (url : str) (page_num : Z) : outcome Soup :=
  address ← page_address url page_num;
  session_get k address.

Definition ui_terms : list str :=
  [u "login"; u "register"; u "menu"; u "navigation"; u "footer"; u "header"].

Definition scan_nav_terms : list str :=
  [u "تبادل نظر"; u "ثبت نام"; u "مجله"; u "فروشگاه"; u "کانون"].

(** The body of the loop of [extract_posts_from_page]. *)
Definition scan_div (div : Element) : option PostData :=
  let text := strip (elem_text div) in
  (* Skip empty or very short text *)
  if (length text <? 50)%nat then None
  (* Skip obvious navigation/UI elements *)
  else if existsb (fun ui_term => contains ui_term (lower text)) ui_terms
  then None
  (* Skip if it contains too many navigation terms *)
  else if (3 <? length (filter (fun term => contains term text = true)
                          scan_nav_terms))%nat
  then None
  (* Must have Persian text *)
  else if negb (has_persian text) then None
  else
    (* Extract data and validate *)
    match extract_post_data div with
    | Some post_data =>
      if is_valid_post (Some post_data) then Some post_data else None
    | None => None
    end.

Definition extract_posts_from_page (soup : Soup) : list PostData :=
  omap scan_div (divs soup).

(** The loop over the pages; [k] numbers the requests. *)
Fixpoint scrape_pages (k : nat) (url : str) (page_nums : list Z)
    : outcome (list PostData) :=
  match page_nums with
  | [] => mret []
  | page_num :: page_nums' =>
    soup ← fetch_page k url page_num;
    let posts := extract_posts_from_page soup in
    all_posts ← scrape_pages (S k) url page_nums';
    mret (posts ++ all_posts)
  end.

Definition scrape_thread (url : str) : outcome (list PostData * Metadata) :=
  '(thread_id, thread_title) ← get_thread_info url;
  (* Fetch first page to determine total pages *)
  soup ← fetch_page 0 url 1;
  total_pages ← get_total_pages soup;
  (* Scrape all pages *)
  all_posts ← scrape_pages 1 url (seqZ 1 total_pages);
  (* Remove duplicates while preserving order *)
  let posts := unique_posts hash all_posts in
  mret (posts,
        {| thread_id := thread_id; thread_title := thread_title;
           source_url := url; scraped_at := now;
           total_pages := total_pages;
           total_posts := Z.of_nat (length posts) |}).
End Thread.

(** *** The name of the markdown file *)

(** The class of [<], [>], [:], the double quote, [/], the backslash,
    [|], [?] and [*]. *)
Definition is_unsafe (c : Z) : bool :=
  bool_decide (c ∈ [60; 62; 58; 34; 47; 92; 124; 63; 42]).

Definition m_unsafe (s : str) : option nat :=
  match s with
  | c :: _ => if is_unsafe c then Some 1%nat else None
  | [] => None
  end.

(** The file name [convert_to_markdown] chooses when none is given, from
    [metadata.get('thread_title', ...)] and [metadata.get('thread_id', ...)]. *)
Definition markdown_filename (title id : option str) : str :=
  let thread_title := default (u "niniesite_thread") title in
  (* Remove only filesystem-unsafe chars *)
  let safe_title := re_sub m_unsafe [] thread_title in
  (* Replace spaces with underscores *)
  let safe_title := re_sub m_spaces (u "_") (strip safe_title) in
  let safe_title :=
    if is_empty safe_title || (length safe_title <? 3)%nat
    then u "thread_" ++ default (u "unknown") id
    else safe_title in
  safe_title ++ u ".md".

(** Sample posts: the first and the third agree on their first 100
    characters and differ after them. *)
Definition sample_hash (s : str) : Z := fold_left (fun a c => a * 31 + c) s 7.

Definition post_of (c : str) : PostData :=
  {| content := c; username := []; timestamp := []; post_number := [] |}.

Definition sample_posts : list PostData :=
  [post_of (replicate 100 97 ++ u "x"); post_of (u "other");
   post_of (replicate 100 97 ++ u "y")].

(** A text in which every whitespace character is a single blank that
    stands alone: the texts [collapse_whitespace] produces. *)
Fixpoint collapsed (s : str) : bool :=
  match s with
  | [] => true
  | c :: s' =>
    (negb (isspace c) || ((c =? 32) && (span isspace s' =? 0)%nat))
    && collapsed s'
  end.

(** Sample blocks: a [post-content] paragraph of 30 characters, and one
    of two characters. *)
Definition block_of (text : str) : Element :=
  {| a_username := None; a_user_href := None;
     post_content := Some {| content_p := Some text; content_text := text |};
     elem_text := text; span_timestamp := None |}.

(** A text that [clean_content] changes again on a second pass. *)
Definition twice_cleaned : str := replicate 30 97 ++ [32; 92; 32; 98].

(** The 30 characters of [content_30] below, with surplus whitespace. *)
Definition spaced_content : str :=
  u "  سلام   سلام سلام  سلام سلام خوبید  ".

(** Sample contents of 29 and of 30 characters: six Persian words. *)
Definition content_29 : str := u "سلام سلام سلام سلام سلام خوبی".
Definition content_30 : str := u "سلام سلام سلام سلام سلام خوبید".

(** Forty characters in eight words, none of them Persian. *)
Definition latin_content : str := u "this text has no word in Persian at all.".

(** A sample page: one block of 61 characters, two page links. *)
Definition sample_soup : Soup :=
  {| divs := [block_of (content_30 ++ [32] ++ content_30)];
     a_hrefs := [u "/discussion/topic/123/title?page=2";
                 u "/discussion/topic/123/title?page=7"; u "/login"];
     soup_text := [] |}.

End ScraperV2.

(** ** [ninisite_scraper.py] *)

Module Scraper.

(** An [article] tag, as [extract_post_data] and [extract_topic_metadata]
    query it.  A field is [None] when [find] returns no element; an inner
    [option] is an attribute read with [.get(...)] or a nested [find]. *)
Record Article := {
  attr_id : option str;                   (* article.get('id') *)
  attr_class : list str;                  (* article.get('class', []) *)
  span_name : option str;                 (* span itemprop=name: text *)
  a_url : option (option str);            (* a itemprop=url: href *)
  div_reg_date : option str;              (* div.reg-date: text *)
  div_post_count : option str;            (* div.post-count: text *)
  meta_datepublished : option (option str);       (* meta: content *)
  meta_interaction_count : option (option str);   (* meta: content *)
  div_post_message : option (str * str);  (* div.post-message: text, html *)
  div_quotation : option (option (str * option str));
                     (* div.topic-post__quotation > div.reply-message:
                        text, data-id *)
  a_like_count : option (option str);     (* a.like-count > span: text *)
  div_signature : option str              (* div.topic-post__signature *)
}.

(** A fetched page: the [h1.topic-title] (text of its link, own text), the
    [article] tags in document order, and the [li] items of the
    breadcrumb list with the text of their name [span]. *)
Record Page := {
  h1_title : option (option str * str);
  articles : list Article;
  breadcrumb : option (list (option str))
}.

(** The [post] dictionary.  A key bound to [None] ([date],
    [author_profile]) is not told apart from a missing key. *)
Record Post := {
  id : option str;
  author : option str;
  author_profile : option str;
  author_join_date : option str;
  author_post_count : option str;
  date : option str;
  content : option str;
  content_html : option str;
  quoted_content : option str;
  reply_to_id : option str;
  likes : option str;
  signature : option str;
  is_main_topic : bool;
  page : option Z
}.

Record Metadata := {
  md_title : option str;
  md_author : option str;
  md_date : option str;
  md_views : option str;
  md_categories : option (list str)
}.

(** Truth value of [d.get(key)] and of an attribute value. *)
Definition truthy (o : option str) : bool :=
  match o with
  | Some (_ :: _) => true
  | _ => false
  end.

Definition extract_post_data (article : Article) (is_main_topic : bool)
    : option Post :=
  let post := {|
    (* Post ID *)
    id := if truthy (attr_id article) then attr_id article else None;
    (* Author info *)
    author := strip <$> span_name article;
    (* Author link for profile *)
    author_profile := mjoin (a_url article);
    (* Join date and post count *)
    author_join_date := strip <$> div_reg_date article;
    author_post_count := strip <$> div_post_count article;
    (* Post date/time *)
    date := mjoin (meta_datepublished article);
    (* Post content *)
    content := (fun m => strip (fst m)) <$> div_post_message article;
    content_html := snd <$> div_post_message article;
    (* Quote/reply reference *)
    quoted_content :=
      (fun r => strip (fst r)) <$> mjoin (div_quotation article);
    reply_to_id :=
      match mjoin (div_quotation article) with
      | Some (_, ref_id) => if truthy ref_id then ref_id else None
      | None => None
      end;
    (* Like count *)
    likes := strip <$> mjoin (a_like_count article);
    (* Signature *)
    signature := strip <$> div_signature article;
    is_main_topic := is_main_topic;
    page := None
  |} in
  if truthy (content post) || is_main_topic then Some post else None.

(** [soup.find('article', id='topic')] *)
Definition find_topic (soup : Page) : option Article :=
  List.find (fun a => bool_decide (attr_id a = Some (u "topic")))
            (articles soup).

(** [post-\d+], searched in the [id] attribute. *)
Definition m_post_id (s : str) : option nat :=
  let lit := u "post-" in
  if startswith lit s then
    match span isdecimal (drop (length lit) s) with
    | O => None
    | b => Some (length lit + b)%nat
    end
  else None.

(** [soup.find_all('article', id=re.compile(r'post-\d+'))] *)
Definition find_replies (soup : Page) : list Article :=
  List.filter
    (fun a => match attr_id a with
              | Some i => bool_decide (is_Some (re_search m_post_id i))
              | None => false
              end)
    (articles soup).

Definition set_page (page_num : Z) (post : Post) : Post :=
  {| id := id post; author := author post;
     author_profile := author_profile post;
     author_join_date := author_join_date post;
     author_post_count := author_post_count post;
     date := date post; content := content post;
     content_html := content_html post;
     quoted_content := quoted_content post;
     reply_to_id := reply_to_id post; likes := likes post;
     signature := signature post; is_main_topic := is_main_topic post;
     page := Some page_num |}.

(** The body of the loop of [extract_posts] for one page. *)
Definition extract_posts_page (page_num : Z) (soup : Page) : list Post :=
  (* Main topic (only on first page) *)
  (if page_num =? 1 then
     match find_topic soup with
     | Some topic_article =>
       match extract_post_data topic_article true with
       | Some post => [set_page page_num post]
       | None => []
       end
     | None => []
     end
   else [])
  (* Reply posts *)
  ++ omap (fun article =>
             (* Skip ads and special content *)
             if bool_decide (u "forum-native-ad" ∈ attr_class article)
             then None
             else set_page page_num <$> extract_post_data article false)
          (find_replies soup).

Fixpoint extract_posts_from (page_num : Z) (pages : list Page) : list Post :=
  match pages with
  | [] => []
  | soup :: pages' =>
    extract_posts_page page_num soup ++ extract_posts_from (page_num + 1) pages'
  end.

Definition extract_posts (pages : list Page) : list Post :=
  extract_posts_from 1 pages.

Definition extract_topic_metadata (soup : Page) : Metadata :=
  let topic_article := find_topic soup in
  {| (* Topic title *)
     md_title :=
       (fun t => match fst t with
                 | Some link => strip link
                 | None => strip (snd t)
                 end) <$> h1_title soup;
     (* Main topic article *)
     md_author := topic_article ≫= (fun a => strip <$> span_name a);
     md_date := topic_article ≫= (fun a => mjoin (meta_datepublished a));
     md_views := topic_article ≫= (fun a => mjoin (meta_interaction_count a));
     (* Breadcrumb for category *)
     md_categories :=
       (fun items => drop 1 (omap (fmap strip) items)) <$> breadcrumb soup
  |}.

(** *** Dates *)

Record datetime := {
  year : Z; month : Z; day : Z; hour : Z; minute : Z; second : Z
}.

Section Dates.
(** [datetime.strptime(date_str, "%m/%d/%Y %I:%M:%S %p")]; [None] when
    it raises. *)
Variable strptime : str -> option datetime.

Definition parse_date_to_jalali (date_str : str) : str :=
  match strptime date_str with
  | Some dt =>
    (* [tehran_tz.localize] attaches the zone and keeps the fields *)
    let dt_tehran := dt in
    let year := year dt_tehran in
    let month := month dt_tehran in
    let day := day dt_tehran in
    let hour := hour dt_tehran in
    let minute := minute dt_tehran in
    (* Simple Gregorian to Jalali conversion (approximate) *)
    let j_year :=
      if (month <? 3) || ((month =? 3) && (day <? 21))
      then year - 621 else year - 620 in
    u "jalali:" ++ format_0d 4 j_year ++ u "/" ++ format_0d 2 month
      ++ u "/" ++ format_0d 2 day ++ u "/" ++ format_0d 2 hour
      ++ u ":" ++ format_0d 2 minute
  | None =>
    (* Fallback to original date if parsing fails *)
    u "jalali:" ++ date_str
  end.
End Dates.

(** A model of the standard library's parser for the one format the
    code uses, in the C locale.  [_strptime] turns the format
    [%m/%d/%Y %I:%M:%S %p] into the regular expression
<<
    (?P<m>1[0-2]|0[1-9]|[1-9])/(?P<d>3[0-1]|[1-2]\d|0[1-9]|[1-9]| [1-9])
    /(?P<Y>\d\d\d\d)\s+(?P<I>1[0-2]|0[1-9]|[1-9]):(?P<M>[0-5]\d|\d)
    :(?P<S>6[0-1]|[0-5]\d|\d)\s+(?P<p>am|pm)
>>
    compiled with [IGNORECASE], requires the match to cover the whole
    text, and builds the [datetime], which checks the ranges of the
    fields. *)
Module Strptime.

Definition chr (c : Z) : Z -> bool := fun x => x =? c.
Definition rng (lo hi : Z) : Z -> bool := fun x => (lo <=? x) && (x <=? hi).
(** A letter under [IGNORECASE]. *)
Definition letter (c : Z) : Z -> bool := fun x => (x =? c) || (x =? c - 32).

(** A sequence of character classes: the matched text and the rest. *)
Fixpoint m_classes (cs : list (Z -> bool)) (s : str) : option (str * str) :=
  match cs with
  | [] => Some ([], s)
  | p :: cs' =>
    match s with
    | c :: s' =>
      if p c then '(t, rest) ← m_classes cs' s'; Some (c :: t, rest)
      else None
    | [] => None
    end
  end.

(** A group of alternatives followed by the rest of the pattern [k]:
    the first alternative for which the rest matches. *)
Fixpoint group {A} (alts : list (list (Z -> bool)))
    (k : str -> str -> option A) (s : str) : option A :=
  match alts with
  | [] => None
  | a :: alts' =>
    match m_classes a s ≫= (fun '(t, rest) => k t rest) with
    | Some r => Some r
    | None => group alts' k s
    end
  end.

(** [\s+] *)
Definition spaces1 (s : str) : option str :=
  match span isspace s with
  | O => None
  | n => Some (drop n s)
  end.

Definition re_m := [[chr 49; rng 48 50]; [chr 48; rng 49 57]; [rng 49 57]].
Definition re_d :=
  [[chr 51; rng 48 49]; [rng 49 50; isdecimal]; [chr 48; rng 49 57];
   [rng 49 57]; [chr 32; rng 49 57]].
Definition re_Y := [[isdecimal; isdecimal; isdecimal; isdecimal]].
Definition re_I := [[chr 49; rng 48 50]; [chr 48; rng 49 57]; [rng 49 57]].
Definition re_M := [[rng 48 53; isdecimal]; [isdecimal]].
Definition re_S := [[chr 54; rng 48 49]; [rng 48 53; isdecimal]; [isdecimal]].
Definition re_p := [[letter 97; letter 109]; [letter 112; letter 109]].

(** The groups of a match, and the text left after it. *)
Definition format_regex (s : str)
    : option (str * str * str * str * str * str * str * str) :=
  group re_m (fun g_m s =>
  s ← m_lit 47 s; group re_d (fun g_d s =>
  s ← m_lit 47 s; group re_Y (fun g_Y s =>
  s ← spaces1 s; group re_I (fun g_I s =>
  s ← m_lit 58 s; group re_M (fun g_M s =>
  s ← m_lit 58 s; group re_S (fun g_S s =>
  s ← spaces1 s; group re_p (fun g_p s =>
  Some (g_m, g_d, g_Y, g_I, g_M, g_S, g_p, s)) s) s) s) s) s) s) s.

(** [int(t)] on the text of a group (the blank of [ [1-9]] is skipped). *)
Definition int (t : str) : Z :=
  fold_left (fun acc c => match decimal_value c with
                          | Some v => acc * 10 + v
                          | None => acc
                          end) t 0.

Definition is_leap (y : Z) : bool :=
  (y mod 4 =? 0) && (negb (y mod 100 =? 0) || (y mod 400 =? 0)).

Definition days_in_month (y m : Z) : Z :=
  if m =? 2 then (if is_leap y then 29 else 28)
  else if (m =? 4) || (m =? 6) || (m =? 9) || (m =? 11) then 30
  else 31.

Definition strptime (data_string : str) : option datetime :=
  '(g_m, g_d, g_Y, g_I, g_M, g_S, g_p, rest) ← format_regex data_string;
  if negb (is_empty rest) then None      (* unconverted data remains *)
  else
    let year := int g_Y in
    let month := int g_m in
    let day := int g_d in
    let hour := int g_I in
    let hour :=
      if bool_decide (head g_p = Some 97 ∨ head g_p = Some 65) then
        (* 12 midnight == 12 AM == hour 0 *)
        (if hour =? 12 then 0 else hour)
      else
        (* 12 noon == 12 PM == hour 12 *)
        (if hour =? 12 then hour else hour + 12) in
    let minute := int g_M in
    let second := int g_S in
    if (1 <=? year) && (year <=? 9999) && (1 <=? month) && (month <=? 12)
       && (1 <=? day) && (day <=? days_in_month year month)
       && (hour <=? 23) && (minute <=? 59) && (second <=? 59)
    then Some {| year := year; month := month; day := day;
                 hour := hour; minute := minute; second := second |}
    else None.

End Strptime.

(** *** Author names *)

Definition is_persian (first_char : Z) : bool :=
  ((0x0600 <=? first_char) && (first_char <=? 0x06FF))      (* Arabic *)
  || ((0x0750 <=? first_char) && (first_char <=? 0x077F))   (* Arabic Supplement *)
  || ((0xFB50 <=? first_char) && (first_char <=? 0xFDFF))   (* Presentation Forms-A *)
  || ((0xFE70 <=? first_char) && (first_char <=? 0xFEFF)).  (* Presentation Forms-B *)

Definition format_author_name (author : str) : outcome str :=
  if is_empty author then mret author
  else
    first_char ← getitem author 0;
    if is_persian first_char then
      (* RLI + author + PDI *)
      mret ([0x2067] ++ author ++ [0x2069])
    else mret author.

(** *** The main method *)

Section Discussion.
(** The page source and the org-mode writer.  [get_all_pages] gives the
    pages of a call that returned: a call that raises or does not end
    (see [get_all_pages] below) never reaches the rest of the method. *)
Variable get_all_pages : str -> list Page.
Variable format_org_mode : Metadata -> list Post -> str -> bool -> outcome str.

Definition scrape_discussion (url : str) (paginate : bool) : outcome str :=
  (* Get all pages *)
  let pages := get_all_pages url in
  if bool_decide (pages = []) then
    raise (Exception "Could not fetch any pages")
  else
    (* Extract metadata from first page *)
    first_page ← getitem pages 0;
    let metadata := extract_topic_metadata first_page in
    (* Extract all posts *)
    let posts := extract_posts pages in
    (* Format as org-mode *)
    format_org_mode metadata posts url paginate.
End Discussion.

(** *** Author details and topic id *)

(** [(\d{4}/\d{2}/\d{2})] and [(\d+)] *)
Definition m_date_text (s : str) : option nat :=
  _ ← ScraperV2.m_date s; Some 10%nat.

Definition m_number (s : str) : option nat :=
  match span isdecimal s with
  | O => None
  | n => Some n
  end.

Definition clean_author_info (author_join_date author_post_count : str)
    : str * str :=
  let join_date :=
    if is_empty author_join_date then []
    else
      (* Extract just the date part *)
      match re_search m_date_text author_join_date with
      | Some t => t
      | None => []
      end in
  let post_count :=
    if is_empty author_post_count then []
    else
      (* Extract just the number *)
      match re_search m_number author_post_count with
      | Some t => t
      | None => []
      end in
  (join_date, post_count).

Section TopicId.
(** [urlparse(url).path] and [str.isdigit]. *)
Variable url_path : str -> str.
Variable isdigit : str -> bool.

Definition extract_topic_id (url : str) : str :=
  let path_parts := split_on 47 (url_path url) in
  (* Look for numeric topic ID in path *)
  match List.find isdigit path_parts with
  | Some part => part
  | None => u "unknown"
  end.
End TopicId.

(** [OrgWriter.set_auto_filename]: the name of the file that is opened. *)
Definition auto_filename (topic_id : str) : str :=
  u "ninisite_topic_" ++ topic_id ++ u ".org".

(** *** The org-mode text *)

(** Where an [OrgWriter] writes: [sys.stdout] or a file opened for
    writing. *)
Inductive handle :=
| Stdout
| File (name : str).

(** An [OrgWriter]; [written] is the text that went to the handle since
    it was set up (a file is opened empty).  Opening and writing are taken
    to succeed. *)
Record OrgWriter := {
  output_file : option str;
  file_handle : option handle;
  written : str
}.

Section Rendering.
(** [datetime.strptime] with the format of the site, [int], the path of
    an address ([urlparse(url).path]), [str.isdigit], and the time of the
    call as [datetime.now().strftime(...)] writes it. *)
Variable strptime : str -> option datetime.
Variable int : str -> outcome Z.
Variable url_path : str -> str.
Variable isdigit : str -> bool.
Variable now : str.

(** The loop over the lines of a text: the lines that are not blank,
    trimmed. *)
Definition block_lines (text : str) : list str :=
  omap (fun line => let line := strip line in
                    if is_empty line then None else Some line)
       (split_on 10 text).

(** A line [label + value] when the key is present and not empty. *)
Definition property_line (label : str) (value : option str) : list str :=
  if truthy value then [label ++ default [] value] else [].

(** Remove 'post-' prefix if present. *)
Definition without_post_prefix (i : str) : str :=
  if startswith (u "post-") i then replace (u "post-") [] i else i.

(** The lines that [_format_post] appends to [org_content].  The date of
    a post without a [date] key is formatted from the empty string; for a
    [date] key bound to [None], which [Post] does not tell apart, the
    source writes [jalali:None] in the heading.  Page
    numbers are positions in the list of pages, far below the 4300 digits
    that [str] accepts. *)
Definition _format_post (post : Post) (heading_level : str)
    : outcome (list str) :=
  let likes_text := default (u "0") (likes post) in
  let author_text := default (u "Unknown") (author post) in
  author_formatted ← format_author_name author_text;
  let date_formatted := parse_date_to_jalali strptime (default [] (date post)) in
  let '(join_date, post_count) :=
    clean_author_info (default [] (author_join_date post))
                      (default [] (author_post_count post)) in
  let author_info :=
    if negb (is_empty join_date) && negb (is_empty post_count)
    then u "(" ++ join_date ++ u ", " ++ post_count ++ u " posts)"
    else [] in
  (* Only include likes if > 0 *)
  likes_str ←
    (if negb (is_empty likes_text) && negb (bool_decide (likes_text = u "0"))
     then n ← int likes_text;
          mret (if 0 <? n then u "@likes/" ++ likes_text ++ u " " else [])
     else mret []);
  let heading :=
    heading_level ++ u " " ++ likes_str ++ author_formatted ++ u " "
      ++ author_info ++ u " [" ++ date_formatted ++ u "]" in
  mret
    ([heading]
     (* Post properties *)
     ++ [u ":PROPERTIES:"]
     ++ (if truthy (id post) then
           [u ":CUSTOM_ID: " ++ without_post_prefix (default [] (id post))]
         else [])
     ++ property_line (u ":AUTHOR: ") (author post)
     ++ property_line (u ":DATE: ") (date post)
     ++ property_line (u ":AUTHOR_JOIN_DATE: ") (author_join_date post)
     ++ property_line (u ":AUTHOR_POST_COUNT: ") (author_post_count post)
     ++ property_line (u ":LIKES: ") (likes post)
     ++ match page post with
        | Some n => if n =? 0 then [] else [u ":PAGE: " ++ str_of_int n]
        | None => []
        end
     ++ property_line (u ":REPLY_TO_ID: ") (reply_to_id post)
     ++ [u ":END:"]
     (* Reply link (if replying to someone) *)
     ++ (if truthy (reply_to_id post) then
           [u "- [[#" ++ without_post_prefix (default [] (reply_to_id post))
              ++ u "][In Reply To]]"; []]
         else [])
     (* Quoted content (if replying to someone) *)
     ++ (if truthy (quoted_content post) then
           [u "#+begin_quote"]
           ++ block_lines (default [] (quoted_content post))
           ++ [u "#+end_quote"; []]
         else [])
     (* Main content *)
     ++ (if truthy (content post) then
           block_lines (default [] (content post)) ++ [[]]
         else [])
     (* Signature *)
     ++ (if truthy (signature post) then
           let signature_level :=
             if bool_decide (heading_level = u "**") then u "***"
             else u "****" in
           [signature_level ++ u " Signature:"]
           ++ block_lines (default [] (signature post)) ++ [[]]
         else [])).

(** The loop [for post in ...: self._format_post(post, ...)]. *)
Fixpoint format_posts (posts : list Post) (heading_level : str)
    : outcome (list str) :=
  match posts with
  | [] => mret []
  | post :: posts' =>
    lines ← _format_post post heading_level;
    more ← format_posts posts' heading_level;
    mret (lines ++ more)
  end.

(** Group posts by page: the dictionary [posts_by_page]. *)
Definition group_by_page (posts : list Post) : gmap Z (list Post) :=
  fold_left (fun posts_by_page post =>
               let page_num := default 1 (page post) in
               <[page_num := default [] (posts_by_page !! page_num) ++ [post]]>
                 posts_by_page)
            posts ∅.

(** Create page URL. *)
Definition page_url (base_url : str) (page_num : Z) : str :=
  if page_num =? 1 then base_url
  else if contains (u "?") base_url then
    if contains (u "page=") base_url then
      (* Replace existing page parameter *)
      re_sub ScraperV2.m_page_param (u "page=" ++ str_of_int page_num) base_url
    else
      (* Add page parameter to existing query string *)
      base_url ++ u "&page=" ++ str_of_int page_num
  else
    (* Add page parameter as first query parameter *)
    base_url ++ u "?page=" ++ str_of_int page_num.

(** Page heading. *)
Definition page_heading (page_url : str) (page_num : Z) : str :=
  u "** [[" ++ page_url ++ u "]["
    ++ (if page_num =? 1 then u "1st"
        else if page_num =? 2 then u "2nd"
        else if page_num =? 3 then u "3rd"
        else str_of_int page_num ++ u "th")
    ++ u " Page]]".

(** [sorted(posts_by_page.keys())] *)
Definition sorted_keys (posts_by_page : gmap Z (list Post)) : list Z :=
  merge_sort Z.le (elements (dom posts_by_page)).

(** Process each page. *)
Fixpoint format_pages (posts_by_page : gmap Z (list Post)) (base_url : str)
    (page_nums : list Z) : outcome (list str) :=
  match page_nums with
  | [] => mret []
  | page_num :: page_nums' =>
    let page_posts := default [] (posts_by_page !! page_num) in
    lines ← format_posts page_posts (u "***");
    more ← format_pages posts_by_page base_url page_nums';
    mret ([page_heading (page_url base_url page_num) page_num] ++ lines ++ more)
  end.

Definition format_org_mode (metadata : Metadata) (posts : list Post)
    (base_url : str) (paginate : bool) : outcome str :=
  (* File title *)
  let title := default (u "Ninisite Post") (md_title metadata) in
  (* Calculate additional metadata *)
  let unique_authors :=
    length (remove_dups ((fun post => default (u "Unknown") (author post))
                           <$> posts)) in
  let num_pages :=
    match posts with
    | [] => 1
    | post :: posts' =>
      ScraperV2.max_of (default 1 (page post))
                       ((fun post => default 1 (page post)) <$> posts')
    end in
  let scrape_time := parse_date_to_jalali strptime now in
  let topic_id := extract_topic_id url_path isdigit base_url in
  let header :=
    [u "#+TITLE: " ++ title; [];
     (* Main header *)
     u "* " ++ title;
     u ":PROPERTIES:";
     u ":TOPIC_ID: " ++ topic_id;
     u ":ORIGINAL_URL: " ++ base_url;
     u ":SCRAPE_DATE: " ++ scrape_time;
     u ":TOTAL_PAGES: " ++ str_of_int num_pages;
     u ":UNIQUE_AUTHORS: " ++ str_of_int (Z.of_nat unique_authors)]
    ++ property_line (u ":AUTHOR: ") (md_author metadata)
    ++ property_line (u ":DATE: ") (md_date metadata)
    ++ property_line (u ":VIEWS: ") (md_views metadata)
    ++ match md_categories metadata with
       | Some (c :: cs) => [u ":CATEGORIES: " ++ join (u " > ") (c :: cs)]
       | _ => []
       end
    ++ [u ":TOTAL_POSTS: " ++ str_of_int (Z.of_nat (length posts));
        u ":END:"; []] in
  body ←
    (if paginate then
       let posts_by_page := group_by_page posts in
       format_pages posts_by_page base_url (sorted_keys posts_by_page)
     else
       (* Non-paginated: process all posts directly under main heading *)
       format_posts posts (u "**"));
  mret (join [10] (header ++ body)).

(** *** Streaming output *)

(** [OrgWriter.__init__] and [_setup_output]. *)
Definition new_OrgWriter (output_file : option str) : OrgWriter :=
  {| output_file := output_file;
     file_handle :=
       if bool_decide (output_file = Some (u "-")) then Some Stdout
       else if truthy output_file then File <$> output_file
       else
         (* Will be set later when we know the topic ID *)
         None;
     written := [] |}.

(** Set auto-generated filename based on topic ID. *)
Definition set_auto_filename (topic_id : str) (writer : OrgWriter)
    : OrgWriter :=
  match file_handle writer with
  | None =>
    {| output_file := Some (auto_filename topic_id);
       file_handle := Some (File (auto_filename topic_id));
       written := [] |}
  | Some _ => writer
  end.

Definition write (content : str) (writer : OrgWriter) : OrgWriter :=
  match file_handle writer with
  | Some _ =>
    {| output_file := output_file writer;
       file_handle := file_handle writer;
       written := written writer ++ content |}
  | None => writer
  end.

Definition writeln (content : str) (writer : OrgWriter) : OrgWriter :=
  write (content ++ [10]) writer.

(** [if condition: ...] around statements that write. *)
Definition when (condition : bool) (body : OrgWriter -> OrgWriter)
    (writer : OrgWriter) : OrgWriter :=
  if condition then body writer else writer.

(** [for line in text.split('\n'): if line.strip(): writer.writeln(line.strip())] *)
Definition writeln_block (text : str) (writer : OrgWriter) : OrgWriter :=
  fold_left (fun writer line =>
               when (negb (is_empty (strip line))) (writeln (strip line)) writer)
            (split_on 10 text) writer.

(** The writer after the call, and the exception if one was raised. *)
Definition _format_post_streaming (post : Post) (writer : OrgWriter)
    (heading_level : str) : OrgWriter * option exn :=
  let likes_text := default (u "0") (likes post) in
  let author_text := default (u "Unknown") (author post) in
  let heading : outcome str :=
    author_formatted ← format_author_name author_text;
    let date_formatted :=
      parse_date_to_jalali strptime (default [] (date post)) in
    let '(join_date, post_count) :=
      clean_author_info (default [] (author_join_date post))
                        (default [] (author_post_count post)) in
    let author_info :=
      if negb (is_empty join_date) && negb (is_empty post_count)
      then u "(" ++ join_date ++ u ", " ++ post_count ++ u " posts)"
      else [] in
    (* Only include likes if > 0 *)
    likes_str ←
      (if negb (is_empty likes_text) && negb (bool_decide (likes_text = u "0"))
       then n ← int likes_text;
            mret (if 0 <? n then u "@likes/" ++ likes_text ++ u " " else [])
       else mret []);
    mret (heading_level ++ u " " ++ likes_str ++ author_formatted ++ u " "
            ++ author_info ++ u " [" ++ date_formatted ++ u "]") in
  match heading with
  | Raise e => (writer, Some e)
  | Return heading =>
    let writer := writeln heading writer in
    (* Post properties *)
    let writer := writeln (u ":PROPERTIES:") writer in
    let writer :=
      when (truthy (id post))
           (writeln (u ":CUSTOM_ID: "
                       ++ without_post_prefix (default [] (id post))))
           writer in
    let writer :=
      when (truthy (author post))
           (writeln (u ":AUTHOR: " ++ default [] (author post))) writer in
    let writer :=
      when (truthy (date post))
           (writeln (u ":DATE: " ++ default [] (date post))) writer in
    let writer :=
      when (truthy (author_join_date post))
           (writeln (u ":AUTHOR_JOIN_DATE: "
                       ++ default [] (author_join_date post))) writer in
    let writer :=
      when (truthy (author_post_count post))
           (writeln (u ":AUTHOR_POST_COUNT: "
                       ++ default [] (author_post_count post))) writer in
    let writer :=
      when (truthy (likes post))
           (writeln (u ":LIKES: " ++ default [] (likes post))) writer in
    let writer :=
      match page post with
      | Some n =>
        when (negb (n =? 0)) (writeln (u ":PAGE: " ++ str_of_int n)) writer
      | None => writer
      end in
    let writer :=
      when (truthy (reply_to_id post))
           (writeln (u ":REPLY_TO_ID: " ++ default [] (reply_to_id post)))
           writer in
    let writer := writeln (u ":END:") writer in
    (* Reply link (if replying to someone) *)
    let writer :=
      when (truthy (reply_to_id post))
           (fun writer =>
              let writer :=
                writeln (u "- [[#"
                           ++ without_post_prefix (default [] (reply_to_id post))
                           ++ u "][In Reply To]]") writer in
              writeln [] writer)
           writer in
    (* Quoted content (if replying to someone) *)
    let writer :=
      when (truthy (quoted_content post))
           (fun writer =>
              let writer := writeln (u "#+begin_quote") writer in
              let writer :=
                writeln_block (default [] (quoted_content post)) writer in
              let writer := writeln (u "#+end_quote") writer in
              writeln [] writer)
           writer in
    (* Main content *)
    let writer :=
      when (truthy (content post))
           (fun writer =>
              let writer :=
                writeln_block (default [] (content post)) writer in
              writeln [] writer)
           writer in
    (* Signature *)
    let writer :=
      when (truthy (signature post))
           (fun writer =>
              let signature_level :=
                if bool_decide (heading_level = u "**") then u "***"
                else u "****" in
              let writer :=
                writeln (signature_level ++ u " Signature:") writer in
              let writer :=
                writeln_block (default [] (signature post)) writer in
              writeln [] writer)
           writer in
    (writer, None)
  end.

(** The loop [for post in ...: self._format_post_streaming(post, writer, ...)]. *)
Fixpoint stream_posts (posts : list Post) (writer : OrgWriter)
    (heading_level : str) : OrgWriter * option exn :=
  match posts with
  | [] => (writer, None)
  | post :: posts' =>
    match _format_post_streaming post writer heading_level with
    | (writer, None) => stream_posts posts' writer heading_level
    | raised => raised
    end
  end.

(** Process each page. *)
Fixpoint stream_pages (posts_by_page : gmap Z (list Post)) (base_url : str)
    (page_nums : list Z) (writer : OrgWriter) : OrgWriter * option exn :=
  match page_nums with
  | [] => (writer, None)
  | page_num :: page_nums' =>
    let page_posts := default [] (posts_by_page !! page_num) in
    let writer :=
      writeln (page_heading (page_url base_url page_num) page_num) writer in
    match stream_posts page_posts writer (u "***") with
    | (writer, None) => stream_pages posts_by_page base_url page_nums' writer
    | raised => raised
    end
  end.

Definition format_org_mode_streaming (metadata : Metadata)
    (posts : list Post) (base_url : str) (writer : OrgWriter)
    (paginate : bool) : OrgWriter * option exn :=
  (* File title *)
  let title := default (u "Ninisite Post") (md_title metadata) in
  let writer := writeln (u "#+TITLE: " ++ title) writer in
  let writer := writeln [] writer in
  (* Calculate additional metadata *)
  let unique_authors :=
    length (remove_dups ((fun post => default (u "Unknown") (author post))
                           <$> posts)) in
  let num_pages :=
    match posts with
    | [] => 1
    | post :: posts' =>
      ScraperV2.max_of (default 1 (page post))
                       ((fun post => default 1 (page post)) <$> posts')
    end in
  let scrape_time := parse_date_to_jalali strptime now in
  let topic_id := extract_topic_id url_path isdigit base_url in
  (* Set auto filename if needed *)
  let writer := set_auto_filename topic_id writer in
  (* Main header *)
  let writer := writeln (u "* " ++ title) writer in
  let writer := writeln (u ":PROPERTIES:") writer in
  let writer := writeln (u ":TOPIC_ID: " ++ topic_id) writer in
  let writer := writeln (u ":ORIGINAL_URL: " ++ base_url) writer in
  let writer := writeln (u ":SCRAPE_DATE: " ++ scrape_time) writer in
  let writer := writeln (u ":TOTAL_PAGES: " ++ str_of_int num_pages) writer in
  let writer :=
    writeln (u ":UNIQUE_AUTHORS: " ++ str_of_int (Z.of_nat unique_authors))
            writer in
  let writer :=
    when (truthy (md_author metadata))
         (writeln (u ":AUTHOR: " ++ default [] (md_author metadata))) writer in
  let writer :=
    when (truthy (md_date metadata))
         (writeln (u ":DATE: " ++ default [] (md_date metadata))) writer in
  let writer :=
    when (truthy (md_views metadata))
         (writeln (u ":VIEWS: " ++ default [] (md_views metadata))) writer in
  let writer :=
    match md_categories metadata with
    | Some (c :: cs) =>
      writeln (u ":CATEGORIES: " ++ join (u " > ") (c :: cs)) writer
    | _ => writer
    end in
  let writer :=
    writeln (u ":TOTAL_POSTS: " ++ str_of_int (Z.of_nat (length posts)))
            writer in
  let writer := writeln (u ":END:") writer in
  let writer := writeln [] writer in
  if paginate then
    let posts_by_page := group_by_page posts in
    stream_pages posts_by_page base_url (sorted_keys posts_by_page) writer
  else
    (* Non-paginated: process all posts directly under main heading *)
    stream_posts posts writer (u "**").
End Rendering.

(** The like count of the post, when it is one that [_format_post] hands
    to [int], is one that [int] converts. *)
Definition likes_convertible (int : str -> outcome Z) (post : Post) : Prop :=
  ∀ l, likes post = Some l -> l ≠ [] -> l ≠ u "0" -> ∃ n, int l = Return n.

(** The page that a post is listed under. *)
Definition page_of (post : Post) : Z := default 1 (page post).

(** [writer.writeln(line)] for each of the lines. *)
Definition write_lines (lines : list str) (writer : OrgWriter) : OrgWriter :=
  fold_left (fun writer line => writeln line writer) lines writer.

(** The exception that a call raised, if it raised one. *)
Definition raised {A} (result : outcome A) : option exn :=
  match result with
  | Return _ => None
  | Raise e => Some e
  end.

Section DiscussionStreaming.
(** The page source and the streaming org-mode writer. *)
Variable get_all_pages : str -> list Page.
Variable format_org_mode_streaming :
  Metadata -> list Post -> str -> OrgWriter -> bool -> OrgWriter * option exn.

Definition scrape_discussion_streaming (url : str) (writer : OrgWriter)
    (paginate : bool) : OrgWriter * option exn :=
  (* Get all pages *)
  let pages := get_all_pages url in
  if bool_decide (pages = []) then
    (writer, Some (Exception "Could not fetch any pages"))
  else
    match getitem pages 0 with
    | Raise e => (writer, Some e)
    | Return first_page =>
      (* Extract metadata from first page *)
      let metadata := extract_topic_metadata first_page in
      (* Extract all posts *)
      let posts := extract_posts pages in
      (* Format as org-mode with streaming *)
      format_org_mode_streaming metadata posts url writer paginate
    end.
End DiscussionStreaming.

(** *** Fetching the pages *)

(** An [a] element of the pagination list. *)
Record Link := {
  link_href : option str;
  link_text : str;
  link_title : option str
}.

(** A fetched document: the page, and the links of
    [soup.find('ul', class_='pagination')] when there is such a list. *)
Record Document := {
  soup_page : Page;
  soup_pagination : option (list Link)
}.

Section Fetching.
(** [fetch_page] on the request with the given number ([None] when the
    request fails), [int], [str.isdigit] and [urljoin]. *)
Variable fetch_page : nat -> str -> option Document.
Variable int : str -> outcome Z.
Variable isdigit : str -> bool.
Variable urljoin : str -> str -> str.

(** The body of the loop over the pagination links. *)
Definition link_page (max_page : Z) (link : Link) : outcome Z :=
  let href := default [] (link_href link) in
  (* Extract page number from URL *)
  from_href ←
    (if contains (u "page=") href then
       match (part ← getitem (split_str (u "page=") href) 1;
              number ← getitem (split_on 38 part) 0;
              int number) with
       | Return page_num => mret (Some (Z.max max_page page_num))
       | Raise ValueError | Raise IndexError => mret None
       | Raise e => raise e
       end
     else mret (Some max_page));
  match from_href with
  | None => mret max_page
  | Some max_page =>
    (* Also check link text for page numbers *)
    let text := strip (link_text link) in
    if isdigit text then
      n ← int text; mret (Z.max max_page n)
    else mret max_page
  end.

Fixpoint scan_links (max_page : Z) (page_links : list Link) : outcome Z :=
  match page_links with
  | [] => mret max_page
  | link :: page_links' =>
    max_page ← link_page max_page link;
    scan_links max_page page_links'
  end.

(** [k] numbers the request. *)
Definition detect_total_pages (k : nat) (base_url : str) : outcome Z :=
  match fetch_page k base_url with
  | None => mret 1
  | Some soup =>
    match soup_pagination soup with
    | None => mret 1
    | Some page_links => scan_links 1 page_links
    end
  end.

(** Find next page URL. *)
Definition next_url (base_url : str) (soup : Document) : option str :=
  match soup_pagination soup with
  | Some links =>
    match List.filter (fun link =>
                         bool_decide (link_title link = Some (u "Next page")))
                      links with
    | next_link :: _ =>
      let next_href := link_href next_link in
      if truthy next_href && negb (bool_decide (next_href = Some (u "#")))
      then Some (urljoin base_url (default [] next_href))
      else None
    | [] => None
    end
  | None => None
  end.

(** The loop [while current_url]; [None] when the loop has not ended
    after [fuel] rounds. *)
Fixpoint fetch_loop (fuel k : nat) (base_url : str)
    (current_url : option str) (pages : list Page) : option (list Page) :=
  if truthy current_url then
    match fuel with
    | O => None
    | S fuel' =>
      match fetch_page k (default [] current_url) with
      | None => Some pages
      | Some soup =>
        fetch_loop fuel' (S k) base_url (next_url base_url soup)
                   (pages ++ [soup_page soup])
      end
    end
  else Some pages.

(** The first request is the one of [detect_total_pages]. *)
Definition get_all_pages (fuel : nat) (base_url : str)
    : option (outcome (list Page)) :=
  match detect_total_pages 0 base_url with
  | Raise e => Some (Raise e)
  | Return total_pages =>
    pages ← fetch_loop fuel 1 base_url (Some base_url) [];
    Some (Return pages)
  end.
End Fetching.

(** A link ends the count of [detect_total_pages] with an exception in
    two ways only: [int] fails on a link text that [isdigit] accepts, or
    [int] fails on the number of the address with something else than the
    two exceptions that are caught there. *)
Definition link_fails (int : str -> outcome Z) (isdigit : str -> bool)
    (link : Link) (e : exn) : Prop :=
  (isdigit (strip (link_text link)) = true
   ∧ int (strip (link_text link)) = Raise e)
  ∨ (∃ number, int number = Raise e ∧ e ≠ ValueError ∧ e ≠ IndexError).

(** The four right-to-left blocks: Arabic, Arabic Supplement, Arabic
    Presentation Forms-A and Forms-B. *)
Definition rtl_first (c : Z) : Prop :=
  0x0600 <= c <= 0x06FF ∨ 0x0750 <= c <= 0x077F
  ∨ 0xFB50 <= c <= 0xFDFF ∨ 0xFE70 <= c <= 0xFEFF.

(** "Exactly one post is the main topic, and it comes first." *)
Definition main_topic_first (posts : list Post) : Prop :=
  ∃ post rest,
    posts = post :: rest ∧ is_main_topic post = true
    ∧ Forall (fun q => is_main_topic q = false) rest.

(** Sample pages: a reply, a topic article, a page that has only the
    reply and a page that has both. *)
Definition reply_article : Article :=
  {| attr_id := Some (u "post-1"); attr_class := [u "topic-post"];
     span_name := Some (u " sara "); a_url := None;
     div_reg_date := None; div_post_count := None;
     meta_datepublished := Some (Some (u "7/4/2023 8:02:48 AM"));
     meta_interaction_count := None;
     div_post_message := Some (u " ok ", u "<div>ok</div>");
     div_quotation := None; a_like_count := None; div_signature := None |}.

Definition topic_article : Article :=
  {| attr_id := Some (u "topic"); attr_class := [];
     span_name := Some (u "mina"); a_url := None;
     div_reg_date := None; div_post_count := None;
     meta_datepublished := None; meta_interaction_count := None;
     div_post_message := None;
     div_quotation := None; a_like_count := None; div_signature := None |}.

(** The post that [extract_post_data] builds from [reply_article] on the
    first page. *)
Definition reply_post : Post :=
  {| id := Some (u "post-1"); author := Some (u "sara");
     author_profile := None; author_join_date := None;
     author_post_count := None;
     date := Some (u "7/4/2023 8:02:48 AM");
     content := Some (u "ok"); content_html := Some (u "<div>ok</div>");
     quoted_content := None; reply_to_id := None; likes := None;
     signature := None; is_main_topic := false; page := Some 1 |}.

(** A run on [reply_post]: the metadata, and the text that
    [format_org_mode] returns for it with page headings. *)
Definition sample_metadata : Metadata :=
  {| md_title := Some (u "T"); md_author := None; md_date := None;
     md_views := None; md_categories := None |}.

Definition sample_text : str :=
  Eval vm_compute in
    match format_org_mode Strptime.strptime int_digits (fun url => url)
            (fun _ => false) [] sample_metadata [reply_post] (u "/t") true with
    | Return text => text
    | Raise _ => []
    end.

(** A first page whose topic has the like count [1,234]. *)
Definition liked_article : Article :=
  {| attr_id := Some (u "topic"); attr_class := [];
     span_name := Some (u "mina"); a_url := None;
     div_reg_date := None; div_post_count := None;
     meta_datepublished := Some (Some (u "7/4/2023 8:02:48 AM"));
     meta_interaction_count := None;
     div_post_message := Some (u "hello", u "<p>hello</p>");
     div_quotation := None; a_like_count := Some (Some (u "1,234"));
     div_signature := None |}.

Definition liked_page : Page :=
  {| h1_title := None; articles := [liked_article]; breadcrumb := None |}.

Definition page_without_topic : Page :=
  {| h1_title := None; articles := [reply_article]; breadcrumb := None |}.

Definition page_with_topic : Page :=
  {| h1_title := None; articles := [reply_article; topic_article];
     breadcrumb := None |}.

(** Two sites: one whose only page has no pagination list, and one where
    every request is answered by a page whose next-page link leads to the
    page itself. *)
Definition single_document : Document :=
  {| soup_page := page_with_topic; soup_pagination := None |}.

Definition single_page_site (k : nat) (url : str) : option Document :=
  if bool_decide (url = u "/t") then Some single_document else None.

Definition looping_document : Document :=
  {| soup_page := page_with_topic;
     soup_pagination :=
       Some [{| link_href := Some (u "/t"); link_text := u ">";
                link_title := Some (u "Next page") |}] |}.

Definition looping_site (k : nat) (url : str) : option Document :=
  Some looping_document.

End Scraper.

(** * Properties *)

(** ** Dates ([Scraper.parse_date_to_jalali]) *)

Section DateFacts.
Import Scraper.

Lemma startswith_app (p s : str) : startswith p (p ++ s) = true.
Proof.
  induction p as [|a p IH]; simpl; [done|].
  by rewrite Z.eqb_refl, IH.
Qed.

Lemma startswith_refl (p : str) : startswith p p = true.
Proof. rewrite <- (app_nil_r p) at 2. apply startswith_app. Qed.

Lemma contains_app_r (t s : str) : contains s (t ++ s) = true.
Proof.
  induction t as [|a t IH]; simpl.
  - destruct s; simpl; [done|]. by rewrite Z.eqb_refl, startswith_refl.
  - rewrite IH. apply orb_true_r.
Qed.

(** C6.  A string that the parser rejects is returned behind the
    calendar tag: the result is ["jalali:"] followed by the input, so it
    starts with the tag and contains the input; the function returns a
    string in every case. *)
Theorem date_fallback (strptime : str -> option datetime) (date_str : str) :
  strptime date_str = None ->
  parse_date_to_jalali strptime date_str = u "jalali:" ++ date_str
  ∧ startswith (u "jalali:") (parse_date_to_jalali strptime date_str) = true
  ∧ contains date_str (parse_date_to_jalali strptime date_str) = true.
Proof.
  intros Hfail. unfold parse_date_to_jalali. rewrite Hfail.
  split; [done|]. split.
  - apply startswith_app.
  - apply contains_app_r.
Qed.

Lemma date_fallback_witness :
  Strptime.strptime (u "garbage") = None
  ∧ parse_date_to_jalali Strptime.strptime (u "garbage") = u "jalali:garbage".
Proof.
  split; [reflexivity|].
  exact (proj1 (date_fallback Strptime.strptime (u "garbage") eq_refl)).
Defined.

(** C7.  For a string that parses, the year is shifted by 620 from
    March 21 on and by 621 before it; month, day, hour and minute of the
    parsed time are written as they are, behind the tag. *)
Theorem jalali_year_shift (strptime : str -> option datetime)
    (date_str : str) (dt : datetime) :
  strptime date_str = Some dt ->
  let stamp (j_year : Z) :=
    u "jalali:" ++ format_0d 4 j_year ++ u "/" ++ format_0d 2 (month dt)
      ++ u "/" ++ format_0d 2 (day dt) ++ u "/" ++ format_0d 2 (hour dt)
      ++ u ":" ++ format_0d 2 (minute dt) in
  (3 < month dt ∨ (month dt = 3 ∧ 21 <= day dt) ->
     parse_date_to_jalali strptime date_str = stamp (year dt - 620))
  ∧ (month dt < 3 ∨ (month dt = 3 ∧ day dt < 21) ->
     parse_date_to_jalali strptime date_str = stamp (year dt - 621)).
Proof.
  intros Hparse stamp. unfold parse_date_to_jalali. rewrite Hparse.
  split; intros Hcut.
  - replace ((month dt <? 3) || (month dt =? 3) && (day dt <? 21))
      with false; [done|].
    symmetry. apply orb_false_iff. split.
    + apply Z.ltb_ge. lia.
    + apply andb_false_iff.
      destruct Hcut as [?|[? ?]]; [left; apply Z.eqb_neq|right; apply Z.ltb_ge];
        lia.
  - replace ((month dt <? 3) || (month dt =? 3) && (day dt <? 21))
      with true; [done|].
    symmetry. apply orb_true_iff.
    destruct Hcut as [?|[? ?]]; [left; apply Z.ltb_lt; lia|right].
    apply andb_true_iff. split; [apply Z.eqb_eq|apply Z.ltb_lt]; lia.
Qed.

Lemma jalali_year_shift_witness :
  parse_date_to_jalali Strptime.strptime (u "7/4/2023 8:02:48 AM")
    = u "jalali:1403/07/04/08:02"
  ∧ parse_date_to_jalali Strptime.strptime (u "3/20/2023 11:05:06 PM")
    = u "jalali:1402/03/20/23:05".
Proof.
  split.
  - apply (proj1 (jalali_year_shift Strptime.strptime
                    (u "7/4/2023 8:02:48 AM")
                    {| year := 2023; month := 7; day := 4;
                       hour := 8; minute := 2; second := 48 |} eq_refl)).
    simpl. lia.
  - apply (proj2 (jalali_year_shift Strptime.strptime
                    (u "3/20/2023 11:05:06 PM")
                    {| year := 2023; month := 3; day := 20;
                       hour := 23; minute := 5; second := 6 |} eq_refl)).
    simpl. lia.
Defined.

(** The cutoff itself: March 20 and March 21 of one year fall in
    different years. *)
Example jalali_cutoff :
  map (parse_date_to_jalali Strptime.strptime)
      [u "3/20/2023 12:00:00 AM"; u "3/21/2023 12:00:00 AM"]
  = [u "jalali:1402/03/20/00:00"; u "jalali:1403/03/21/00:00"].
Proof. reflexivity. Qed.
End DateFacts.

(** ** Author names ([Scraper.format_author_name]) *)

Section AuthorFacts.
Import Scraper.

Lemma is_persian_spec (c : Z) : is_persian c = true ↔ rtl_first c.
Proof.
  unfold is_persian, rtl_first.
  rewrite !orb_true_iff, !andb_true_iff, !Z.leb_le. tauto.
Qed.

(** C8.  A name whose first character lies in one of the four Arabic
    blocks is returned between U+2067 and U+2069; any other non-empty
    name is returned as it is.  The result is a value of the function
    alone. *)
Theorem author_name_wrapping (c : Z) (rest : str) :
  (rtl_first c ->
     format_author_name (c :: rest)
     = Return ([0x2067] ++ (c :: rest) ++ [0x2069]))
  ∧ (¬ rtl_first c -> format_author_name (c :: rest) = Return (c :: rest)).
Proof.
  unfold format_author_name; simpl.
  split; intros H.
  - apply is_persian_spec in H. by rewrite H.
  - destruct (is_persian c) eqn:E; [|done].
    apply is_persian_spec in E. contradiction.
Qed.

Lemma author_name_wrapping_witness :
  format_author_name [1593; 1604; 1740]
    = Return [8295; 1593; 1604; 1740; 8297]
  ∧ format_author_name [74; 111; 104; 110] = Return [74; 111; 104; 110].
Proof.
  split.
  - apply (proj1 (author_name_wrapping 1593 [1604; 1740])).
    unfold rtl_first. lia.
  - apply (proj2 (author_name_wrapping 74 [111; 104; 110])).
    unfold rtl_first. lia.
Defined.

(** C10.  The empty name is returned unchanged, before any character is
    read, and no name makes the function raise: the index [0] is only
    used on a non-empty string. *)
Theorem author_name_total :
  format_author_name [] = Return []
  ∧ ∀ author : str, ∃ r : str, format_author_name author = Return r.
Proof.
  split; [reflexivity|].
  intros [|c rest]; [by exists []|].
  unfold format_author_name; simpl.
  destruct (is_persian c); eauto.
Qed.
End AuthorFacts.

(** ** Assembly ([Scraper.extract_posts], [Scraper.scrape_discussion]) *)

Section AssemblyFacts.
Import Scraper.

Lemma extract_post_data_flag (article : Article) (flag : bool) (post : Post) :
  extract_post_data article flag = Some post -> is_main_topic post = flag.
Proof.
  unfold extract_post_data.
  destruct (_ || _); [|done]. by intros [= <-].
Qed.

Lemma extract_post_data_topic (article : Article) :
  ∃ post, extract_post_data article true = Some post.
Proof.
  unfold extract_post_data. rewrite orb_true_r. eauto.
Qed.

Lemma set_page_flag (n : Z) (post : Post) :
  is_main_topic (set_page n post) = is_main_topic post.
Proof. reflexivity. Qed.

(** The replies of a page are never main topics. *)
Lemma replies_not_main (n : Z) (arts : list Article) :
  Forall (fun q => is_main_topic q = false)
    (omap (fun article =>
             if bool_decide (u "forum-native-ad" ∈ attr_class article)
             then None
             else set_page n <$> extract_post_data article false) arts).
Proof.
  induction arts as [|a arts IH]; simpl; [constructor|].
  case_bool_decide; [done|].
  destruct (extract_post_data a false) as [post|] eqn:E; simpl; [|done].
  constructor; [|done].
  rewrite set_page_flag. by apply extract_post_data_flag in E.
Qed.

Lemma later_page_not_main (n : Z) (soup : Page) :
  n ≠ 1 -> Forall (fun q => is_main_topic q = false) (extract_posts_page n soup).
Proof.
  intros Hn. unfold extract_posts_page.
  destruct (n =? 1) eqn:E; [apply Z.eqb_eq in E; lia|].
  simpl. apply replies_not_main.
Qed.

Lemma later_pages_not_main (n : Z) (pages : list Page) :
  1 < n -> Forall (fun q => is_main_topic q = false) (extract_posts_from n pages).
Proof.
  revert n. induction pages as [|soup pages IH]; intros n Hn; simpl.
  - constructor.
  - apply Forall_app. split.
    + apply later_page_not_main. lia.
    + apply IH. lia.
Qed.

(** C1, as the code has it.  The main topic is taken from the article with
    id [topic] of the first page.  When the first page has such an article,
    exactly one post is the main topic and it is the first post; when it
    has none (or there is no page), no post is a main topic.  So there is
    never more than one, and never one that is not first. *)
Theorem main_topic_unique_when_present (pages : list Page) :
  (∀ soup rest, pages = soup :: rest -> is_Some (find_topic soup) ->
     main_topic_first (extract_posts pages))
  ∧ (∀ soup rest, pages = soup :: rest -> find_topic soup = None ->
       Forall (fun q => is_main_topic q = false) (extract_posts pages))
  ∧ (pages = [] -> extract_posts pages = []).
Proof.
  split; [|split].
  - intros soup rest -> [topic Htopic].
    unfold extract_posts; simpl. unfold extract_posts_page at 1; simpl.
    rewrite Htopic.
    destruct (extract_post_data_topic topic) as [post Hpost].
    rewrite Hpost. simpl.
    eexists _, _. split; [reflexivity|]. split.
    + rewrite set_page_flag. by apply extract_post_data_flag in Hpost.
    + apply Forall_app. split; [apply replies_not_main|].
      by apply later_pages_not_main.
  - intros soup rest -> Hnone.
    unfold extract_posts; simpl. unfold extract_posts_page at 1; simpl.
    rewrite Hnone. simpl.
    apply Forall_app. split; [apply replies_not_main|].
    by apply later_pages_not_main.
  - by intros ->.
Qed.

Lemma main_topic_unique_when_present_witness :
  main_topic_first (extract_posts [page_with_topic; page_without_topic])
  ∧ Forall (fun q => is_main_topic q = false)
      (extract_posts [page_without_topic; page_with_topic]).
Proof.
  split.
  - apply (proj1 (main_topic_unique_when_present
                    [page_with_topic; page_without_topic])
             page_with_topic [page_without_topic] eq_refl).
    by eexists.
  - apply (proj1 (proj2 (main_topic_unique_when_present
                           [page_without_topic; page_with_topic]))
             page_without_topic [page_with_topic] eq_refl).
    reflexivity.
Defined.

(** A thread of one page whose only article is a reply has no main topic
    at all, so "exactly one, and first" fails for it. *)
Lemma main_topic_missing :
  [page_without_topic] ≠ []
  ∧ ¬ main_topic_first (extract_posts [page_without_topic]).
Proof.
  split; [done|].
  intros (post & rest & Heq & Hmain & _).
  vm_compute in Heq. injection Heq as <- _.
  discriminate Hmain.
Qed.

End AssemblyFacts.

(** ** De-duplication ([ScraperV2.unique_posts]) *)

Section DedupFacts.
Import ScraperV2.
Variable hash : str -> Z.

Abbreviation fp := (content_hash hash).
Abbreviation run := (fun l => fold_left (dedup_step hash) l (∅, [])).

Lemma run_snoc (l : list PostData) (p : PostData) :
  run (l ++ [p]) = dedup_step hash (run l) p.
Proof. simpl. by rewrite fold_left_app. Qed.

(** The set holds the fingerprints of the posts read so far. *)
Lemma seen_spec (l : list PostData) (h : Z) :
  h ∈ (run l).1 ↔ h ∈ fp <$> l.
Proof.
  induction l as [|p l IH] using rev_ind.
  - simpl. set_solver.
  - rewrite run_snoc, fmap_app. simpl in *.
    destruct (fold_left (dedup_step hash) l (∅, [])) as [seen acc]; simpl in *.
    case_bool_decide as Hin; simpl; set_solver.
Qed.

(** A post is kept exactly when no earlier post has its fingerprint. *)
Lemma unique_posts_snoc (l : list PostData) (p : PostData) :
  unique_posts hash (l ++ [p])
  = unique_posts hash l ++ (if bool_decide (fp p ∈ fp <$> l) then [] else [p]).
Proof.
  unfold unique_posts. rewrite run_snoc.
  pose proof (seen_spec l (fp p)) as Hseen. simpl in *.
  destruct (fold_left (dedup_step hash) l (∅, [])) as [seen acc]; simpl in *.
  do 2 case_bool_decide; simpl; try tauto.
  by rewrite app_nil_r.
Qed.

Lemma unique_posts_sublist (l : list PostData) :
  unique_posts hash l `sublist_of` l.
Proof.
  induction l as [|p l IH] using rev_ind; [done|].
  rewrite unique_posts_snoc. apply sublist_app; [done|].
  case_bool_decide; [apply sublist_nil_l|done].
Qed.

Lemma unique_posts_fingerprints (l : list PostData) (h : Z) :
  h ∈ fp <$> unique_posts hash l ↔ h ∈ fp <$> l.
Proof.
  induction l as [|p l IH] using rev_ind; [done|].
  rewrite unique_posts_snoc, !fmap_app, !elem_of_app, IH.
  case_bool_decide; simpl; set_solver.
Qed.

Lemma unique_posts_NoDup (l : list PostData) :
  NoDup (fp <$> unique_posts hash l).
Proof.
  induction l as [|p l IH] using rev_ind; [constructor|].
  rewrite unique_posts_snoc, fmap_app.
  case_bool_decide as Hin; simpl; [by rewrite app_nil_r|].
  apply NoDup_app. split; [done|]. split; [|apply NoDup_singleton].
  intros h Hh. rewrite unique_posts_fingerprints in Hh. set_solver.
Qed.

(** A post whose fingerprint was seen leaves the result as it is. *)
Lemma unique_posts_drop_seen (l1 l2 : list PostData) (q : PostData) :
  fp q ∈ fp <$> l1 ->
  unique_posts hash (l1 ++ q :: l2) = unique_posts hash (l1 ++ l2).
Proof.
  intros Hin. unfold unique_posts. rewrite !fold_left_app. simpl.
  apply (seen_spec l1) in Hin. simpl in Hin.
  destruct (fold_left (dedup_step hash) l1 (∅, [])) as [seen acc]; simpl in *.
  by rewrite bool_decide_eq_true_2.
Qed.

(** C2.  [unique_posts] reads the posts in order and keeps a post exactly
    when no earlier post has the same fingerprint, the hash of the first
    100 characters of its content.  Hence the result is a subsequence of
    the input (same relative order), no fingerprint occurs twice in it,
    every fingerprint of the input is still represented, and a post that
    agrees with an earlier one on the first 100 characters is removed,
    whatever follows them. *)
Theorem dedup_first_occurrence (all_posts : list PostData) :
  unique_posts hash [] = []
  ∧ (∀ l p, unique_posts hash (l ++ [p])
       = unique_posts hash l
         ++ (if bool_decide (hash (take 100 (content p))
                             ∈ (fun q => hash (take 100 (content q))) <$> l)
             then [] else [p]))
  ∧ unique_posts hash all_posts `sublist_of` all_posts
  ∧ NoDup ((fun q => hash (take 100 (content q))) <$> unique_posts hash all_posts)
  ∧ (∀ p, p ∈ all_posts -> ∃ q, q ∈ unique_posts hash all_posts
            ∧ hash (take 100 (content q)) = hash (take 100 (content p)))
  ∧ (∀ l1 p l2 q l3, all_posts = l1 ++ p :: l2 ++ q :: l3 ->
       take 100 (content p) = take 100 (content q) ->
       unique_posts hash all_posts = unique_posts hash (l1 ++ p :: l2 ++ l3)).
Proof.
  split; [done|]. split; [apply unique_posts_snoc|].
  split; [apply unique_posts_sublist|].
  split; [apply unique_posts_NoDup|]. split.
  - intros p Hp.
    assert (fp p ∈ fp <$> unique_posts hash all_posts) as Hin.
    { apply unique_posts_fingerprints, list_elem_of_fmap. eauto. }
    apply list_elem_of_fmap in Hin as (q & Hq & ?). eauto.
  - intros l1 p l2 q l3 -> Hpre.
    replace (l1 ++ p :: l2 ++ q :: l3) with ((l1 ++ p :: l2) ++ q :: l3)
      by (by rewrite <- app_assoc).
    replace (l1 ++ p :: l2 ++ l3) with ((l1 ++ p :: l2) ++ l3)
      by (by rewrite <- app_assoc).
    apply unique_posts_drop_seen.
    rewrite fmap_app, fmap_cons. unfold content_hash. rewrite <- Hpre.
    set_solver.
Qed.
End DedupFacts.

Lemma dedup_first_occurrence_witness :
  ScraperV2.unique_posts ScraperV2.sample_hash ScraperV2.sample_posts
  = take 2 ScraperV2.sample_posts.
Proof.
  destruct (dedup_first_occurrence ScraperV2.sample_hash
              ScraperV2.sample_posts) as (_ & _ & _ & _ & _ & H).
  rewrite (H [] (ScraperV2.post_of (replicate 100 97 ++ u "x"))
             [ScraperV2.post_of (u "other")]
             (ScraperV2.post_of (replicate 100 97 ++ u "y")) []
             eq_refl eq_refl).
  vm_compute. reflexivity.
Defined.

(** ** Validation ([ScraperV2.is_valid_post]) *)

Section ValidatorFacts.
Import ScraperV2.

Lemma has_persian_spec (s : str) :
  has_persian s = true ↔ Exists (fun c => 0x0600 <= c <= 0x06FF) s.
Proof.
  unfold has_persian. rewrite existsb_exists, Exists_exists.
  split; intros (c & Hin & Hc); exists c.
  - apply list_elem_of_In in Hin. split; [done|].
    apply andb_true_iff in Hc as [?%Z.leb_le ?%Z.leb_le]. lia.
  - apply list_elem_of_In in Hin. split; [done|].
    apply andb_true_iff. split; apply Z.leb_le; lia.
Qed.

(** C5.  Content of 29 characters is rejected.  Content of 30 characters
    that has a character of the Persian block U+0600..U+06FF, between 5
    and 200 words, no match of a metadata pattern and at most two of the
    navigation phrases is accepted. *)
Theorem validator_length_boundary (pd : PostData) :
  (length (content pd) = 29%nat -> is_valid_post (Some pd) = false)
  ∧ (length (content pd) = 30%nat ->
     Exists (fun c => 0x0600 <= c <= 0x06FF) (content pd) ->
     (5 <= length (split (content pd)) <= 200)%nat ->
     Forall (fun pattern => pattern (strip (content pd)) = false)
       metadata_patterns ->
     (nav_ratio (content pd) <= 2)%nat ->
     is_valid_post (Some pd) = true).
Proof.
  unfold is_valid_post. split.
  - intros Hlen. destruct (is_empty (content pd)); [done|].
    by rewrite Hlen.
  - intros Hlen Hper Hwords Hmeta Hnav.
    destruct (content pd) as [|c s] eqn:Hc; [done|]. simpl is_empty.
    rewrite Hlen. simpl (30 <? 30)%nat.
    replace (existsb _ metadata_patterns) with false.
    2:{ symmetry. apply not_true_iff_false. intros Hex.
        apply existsb_exists in Hex as (pattern & Hin & Hpat).
        apply list_elem_of_In in Hin.
        rewrite Forall_forall in Hmeta. specialize (Hmeta _ Hin).
        congruence. }
    replace (2 <? nav_ratio (c :: s))%nat with false
      by (symmetry; apply Nat.ltb_ge; lia).
    apply has_persian_spec in Hper. rewrite Hper.
    destruct Hwords as [Hlo%Nat.leb_le Hhi%Nat.leb_le].
    by rewrite Hlo, Hhi.
Qed.

Lemma validator_length_boundary_witness :
  is_valid_post (Some (post_of content_29)) = false
  ∧ is_valid_post (Some (post_of content_30)) = true.
Proof.
  split.
  - apply (proj1 (validator_length_boundary (post_of content_29))).
    vm_compute. reflexivity.
  - apply (proj2 (validator_length_boundary (post_of content_30))).
    + vm_compute. reflexivity.
    + vm_compute. apply Exists_cons_hd. split; discriminate.
    + vm_compute. lia.
    + repeat (apply Forall_cons; split; [vm_compute; reflexivity|]).
      apply Forall_nil_2.
    + vm_compute. lia.
Defined.

(** Thirty Persian letters without a blank are one word, and rejected:
    the bound on the words is needed. *)
Example thirty_letters_one_word :
  is_valid_post (Some (post_of (replicate 30 1587))) = false.
Proof. vm_compute. reflexivity. Qed.
End ValidatorFacts.

(** ** The two extraction paths *)

Section PathFacts.

Lemma clean_content_min_length (text : str) :
  ScraperV2.clean_content text = []
  ∨ (30 <= length (ScraperV2.clean_content text))%nat.
Proof.
  unfold ScraperV2.clean_content, ScraperV2.reject_short.
  destruct (is_empty text); [by left|].
  cbv zeta. destruct (_ <? 30)%nat eqn:E; [by left|].
  right. by apply Nat.ltb_ge in E.
Qed.

End PathFacts.

Section ContainerFacts.
Import ScraperV2.

(** C4, as the code has it.  In [ninisite_scraper_v2.py] no path is
    exempt: whatever the block, [extract_post_data] yields a post only
    with at least 30 characters of cleaned content, and when the block
    has a [post-content] container that content is [clean_content] of
    the container's text; [is_valid_post] sees the content only, and
    accepts it only with at least 30 characters and a Persian character. *)
Theorem thresholds_on_every_path :
  (∀ (block : Element) (pd : PostData),
     extract_post_data block = Some pd ->
     (30 <= length (content pd))%nat
     ∧ ∀ div, post_content block = Some div ->
              content pd
              = clean_content
                  (strip (default (content_text div) (content_p div))))
  ∧ (∀ pd : PostData,
       is_valid_post (Some pd) = true ->
       (30 <= length (content pd))%nat
       ∧ Exists (fun c => 0x0600 <= c <= 0x06FF) (content pd)).
Proof.
  split.
  - intros block pd. unfold extract_post_data. cbv zeta.
    match goal with
    | |- context [clean_content ?text] =>
      destruct (clean_content_min_length text) as [E|Hlen];
        [rewrite E; cbn [is_empty]; discriminate|]
    end.
    destruct (is_empty _); [discriminate|]. intros [= <-]. cbn [content].
    split; [done|]. intros div Hdiv. rewrite Hdiv.
    by destruct (content_p div).
  - intros pd. unfold is_valid_post.
    destruct (is_empty _); [done|].
    destruct (_ <? 30)%nat eqn:E; [done|]. apply Nat.ltb_ge in E.
    destruct (existsb _ _); [done|].
    destruct (2 <? _)%nat; [done|].
    intros H. apply andb_true_iff in H as [H _].
    apply andb_true_iff in H as [H _].
    split; [done|]. by apply has_persian_spec.
Qed.

Lemma thresholds_on_every_path_witness :
  extract_post_data (block_of content_30) = Some (post_of content_30)
  ∧ (30 <= length (content (post_of content_30)))%nat
  ∧ is_valid_post (Some (post_of content_30)) = true
  ∧ Exists (fun c => 0x0600 <= c <= 0x06FF) (content (post_of content_30)).
Proof.
  pose proof thresholds_on_every_path as [Hpath Hvalid].
  split; [vm_compute; reflexivity|]. split.
  - apply (Hpath (block_of content_30) (post_of content_30)).
    vm_compute. reflexivity.
  - split; [vm_compute; reflexivity|].
    apply (Hvalid (post_of content_30)). vm_compute. reflexivity.
Defined.

(** Content found in a [post-content] container: two characters are
    dropped by the minimum length, and forty characters without a Persian
    one are extracted and then refused by the validator, which accepts
    them once a Persian word is added. *)
Lemma container_content_thresholds :
  post_content (block_of (u " ok "))
  = Some {| content_p := Some (u " ok "); content_text := u " ok " |}
  ∧ extract_post_data (block_of (u " ok ")) = None
  ∧ extract_post_data (block_of latin_content) = Some (post_of latin_content)
  ∧ is_valid_post (Some (post_of latin_content)) = false
  ∧ is_valid_post (Some (post_of (latin_content ++ u " س"))) = true.
Proof. repeat split; vm_compute; reflexivity. Qed.
End ContainerFacts.

(** ** Substitution ([re_sub]) *)

Section ReSubFacts.
Variable m : str -> option nat.
Variable repl : str.

Lemma re_sub_go_drop (k : nat) (s : str) :
  re_sub_go m repl k s = re_sub m repl (drop k s).
Proof.
  revert k. induction s as [|c s IH]; intros [|k]; try reflexivity.
  cbn [re_sub_go drop]. apply IH.
Qed.

Lemma re_sub_cons (c : Z) (s : str) :
  re_sub m repl (c :: s)
  = match m (c :: s) with
    | Some (S n) => repl ++ re_sub m repl (drop n s)
    | _ => c :: re_sub m repl s
    end.
Proof.
  unfold re_sub at 1. cbn [re_sub_go].
  destruct (m (c :: s)) as [[|n]|]; try reflexivity.
  by rewrite re_sub_go_drop.
Qed.

(** Induction on the text that follows the scan: after a match the scan
    resumes on a shorter text. *)
Lemma re_sub_ind (P : str -> str -> Prop) :
  P [] [] ->
  (∀ c s n, m (c :: s) = Some (S n) ->
     P (drop n s) (re_sub m repl (drop n s)) ->
     P (c :: s) (repl ++ re_sub m repl (drop n s))) ->
  (∀ c s, (m (c :: s) = None ∨ m (c :: s) = Some O) ->
     P s (re_sub m repl s) -> P (c :: s) (c :: re_sub m repl s)) ->
  ∀ s, P s (re_sub m repl s).
Proof.
  intros Hnil Hmatch Hskip s.
  remember (length s) as k eqn:Hk.
  revert s Hk. induction k as [k IH] using lt_wf_ind. intros s Hk.
  destruct s as [|c s]; [exact Hnil|].
  rewrite re_sub_cons.
  destruct (m (c :: s)) as [[|n]|] eqn:E.
  - apply Hskip; [by right|]. eapply IH; [|reflexivity]. simpl in Hk. lia.
  - apply Hmatch; [done|]. eapply IH; [|reflexivity].
    rewrite length_drop. simpl in Hk. lia.
  - apply Hskip; [by left|]. eapply IH; [|reflexivity]. simpl in Hk. lia.
Qed.

(** A property of the characters that the replacement has is kept. *)
Lemma re_sub_Forall (Q : Z -> Prop) (s : str) :
  Forall Q repl -> Forall Q s -> Forall Q (re_sub m repl s).
Proof.
  intros Hrepl.
  apply (re_sub_ind (fun s r => Forall Q s -> Forall Q r)).
  - done.
  - intros c t n _ IH Hs. apply Forall_app. split; [done|].
    apply IH. apply Forall_drop. by inversion Hs.
  - intros c t _ IH Hs. inversion Hs; subst. constructor; auto.
Qed.

(** Where the pattern matches nowhere the text is returned as it is. *)
Lemma re_sub_id (s : str) :
  (∀ k, m (drop k s) = None) -> re_sub m repl s = s.
Proof.
  induction s as [|c s IH]; intros Hno; [done|].
  rewrite re_sub_cons, (Hno O : m (c :: s) = None).
  f_equal. apply IH. intros k. apply (Hno (S k)).
Qed.
End ReSubFacts.

Section SpanFacts.
Variable p : Z -> bool.

Lemma span_drop_head (s : str) :
  span p (drop (span p s) s) = O.
Proof.
  induction s as [|c s IH]; simpl; [done|].
  destruct (p c) eqn:E; simpl; [done|]. by rewrite E.
Qed.

Lemma span_zero_app (s w : str) :
  s ≠ [] -> span p s = O -> span p (s ++ w) = O.
Proof.
  destruct s as [|c s]; [done|]. simpl. by destruct (p c).
Qed.

Lemma span_app_zero (s w : str) : span p (s ++ w) = O -> span p s = O.
Proof.
  destruct s as [|c s]; [done|]. simpl. by destruct (p c).
Qed.

Lemma span_Forall_false (s : str) :
  Forall (fun c => p c = false) s -> span p s = O.
Proof. intros [|c t Hc _]; simpl; [done|]. by rewrite Hc. Qed.
End SpanFacts.

(** ** Trimming ([strip]) *)

Section StripFacts.

Lemma lstrip_spec (s : str) :
  ∃ w, s = w ++ lstrip s ∧ Forall (fun c => isspace c = true) w.
Proof.
  induction s as [|c s (w & Hs & Hw)]; [by exists []|].
  simpl. destruct (isspace c) eqn:E.
  - exists (c :: w). split; [by rewrite Hs at 1|by constructor].
  - by exists [].
Qed.

Lemma lstrip_head (s : str) : span isspace (lstrip s) = O.
Proof.
  induction s as [|c s IH]; [done|].
  simpl. destruct (isspace c) eqn:E; [done|]. simpl. by rewrite E.
Qed.

Lemma lstrip_id (s : str) : span isspace s = O -> lstrip s = s.
Proof. destruct s as [|c s]; [done|]. simpl. by destruct (isspace c). Qed.

Lemma lstrip_idemp (s : str) : lstrip (lstrip s) = lstrip s.
Proof. apply lstrip_id, lstrip_head. Qed.

Lemma rstrip_spec (s : str) :
  ∃ w, s = rstrip s ++ w ∧ Forall (fun c => isspace c = true) w.
Proof.
  unfold rstrip. destruct (lstrip_spec (reverse s)) as (w & Hs & Hw).
  exists (reverse w). split.
  - rewrite <- reverse_app, <- Hs. by rewrite reverse_involutive.
  - by apply Forall_reverse.
Qed.

Lemma rstrip_idemp (s : str) : rstrip (rstrip s) = rstrip s.
Proof. unfold rstrip. by rewrite reverse_involutive, lstrip_idemp. Qed.

(** The trimmed text sits inside the text, between two runs of
    whitespace, and does not start with whitespace. *)
Lemma strip_spec (s : str) :
  ∃ w1 w2, s = w1 ++ strip s ++ w2
           ∧ Forall (fun c => isspace c = true) w1
           ∧ Forall (fun c => isspace c = true) w2.
Proof.
  unfold strip.
  destruct (lstrip_spec s) as (w1 & Hs & Hw1).
  destruct (rstrip_spec (lstrip s)) as (w2 & Ht & Hw2).
  exists w1, w2. split; [|done]. by rewrite <- Ht.
Qed.

Lemma strip_head (s : str) : span isspace (strip s) = O.
Proof.
  unfold strip. destruct (rstrip_spec (lstrip s)) as (w & Ht & _).
  apply span_app_zero with w. rewrite <- Ht. apply lstrip_head.
Qed.

Lemma strip_idemp (s : str) : strip (strip s) = strip s.
Proof.
  unfold strip at 1. rewrite lstrip_id by apply strip_head.
  unfold strip. apply rstrip_idemp.
Qed.
End StripFacts.

(** ** The rules of [ScraperV2.clean_content] *)

Section CleaningFacts.
Import ScraperV2.

Lemma u_blank : u " " = [32].
Proof. reflexivity. Qed.

Lemma m_spaces_cons (c : Z) (s : str) :
  m_spaces (c :: s)
  = if isspace c then Some (S (span isspace s)) else None.
Proof. unfold m_spaces. simpl. by destruct (isspace c). Qed.

Lemma collapse_whitespace_collapsed (s : str) :
  collapsed (collapse_whitespace s) = true.
Proof.
  unfold collapse_whitespace. rewrite u_blank.
  enough (collapsed (re_sub m_spaces [32] s) = true
          ∧ (span isspace s = O -> span isspace (re_sub m_spaces [32] s) = O))
    as [? _] by done.
  apply (re_sub_ind m_spaces [32]
           (fun s r => collapsed r = true
                       ∧ (span isspace s = O -> span isspace r = O))).
  - done.
  - intros c t n Hm [IH1 IH2]. rewrite m_spaces_cons in Hm.
    destruct (isspace c) eqn:E; [|done]. injection Hm as <-.
    specialize (IH2 (span_drop_head isspace t)).
    split.
    + cbn [app collapsed]. rewrite IH1, IH2. reflexivity.
    + simpl. by rewrite E.
  - intros c t Hm [IH1 _]. rewrite m_spaces_cons in Hm.
    destruct (isspace c) eqn:E; [by destruct Hm|].
    split.
    + cbn [collapsed]. by rewrite E, IH1.
    + intros _. simpl. by rewrite E.
Qed.

Lemma collapsed_fixed (s : str) :
  collapsed s = true -> collapse_whitespace s = s.
Proof.
  unfold collapse_whitespace. rewrite u_blank.
  induction s as [|c s IH]; [done|].
  cbn [collapsed]. intros [Hc Hs]%andb_true_iff.
  rewrite re_sub_cons, m_spaces_cons.
  destruct (isspace c) eqn:E.
  - simpl in Hc. apply andb_true_iff in Hc as [->%Z.eqb_eq ->%Nat.eqb_eq].
    cbn [drop app]. f_equal. by apply IH.
  - f_equal. by apply IH.
Qed.

Lemma collapse_whitespace_idemp (s : str) :
  collapse_whitespace (collapse_whitespace s) = collapse_whitespace s.
Proof. apply collapsed_fixed, collapse_whitespace_collapsed. Qed.

Lemma collapsed_app_r (w s : str) :
  collapsed (w ++ s) = true -> collapsed s = true.
Proof.
  induction w as [|c w IH]; [done|].
  cbn [app collapsed]. intros [_ ?]%andb_true_iff. auto.
Qed.

Lemma collapsed_app_l (s w : str) :
  collapsed (s ++ w) = true -> collapsed s = true.
Proof.
  induction s as [|c s IH]; [done|].
  cbn [app collapsed]. intros [Hc Hs]%andb_true_iff.
  rewrite (IH Hs), andb_true_r.
  destruct (isspace c); [|done]. simpl in *.
  apply andb_true_iff in Hc as [-> Hsp%Nat.eqb_eq].
  by rewrite (span_app_zero _ _ _ Hsp).
Qed.

(** *** Backslashes *)

Lemma m_backslashes_cons (c : Z) (s : str) :
  m_backslashes (c :: s)
  = if c =? 92 then Some (S (span (fun c => c =? 92) s)) else None.
Proof. unfold m_backslashes. simpl. by destruct (c =? 92). Qed.

Lemma remove_backslashes_none (s : str) :
  Forall (fun c => c ≠ 92) (remove_backslashes s).
Proof.
  unfold remove_backslashes.
  apply (re_sub_ind m_backslashes [] (fun _ r => Forall (fun c => c ≠ 92) r)).
  - done.
  - done.
  - intros c t Hm IH. rewrite m_backslashes_cons in Hm.
    destruct (c =? 92) eqn:E; [by destruct Hm|].
    apply Z.eqb_neq in E. by constructor.
Qed.

Lemma remove_backslashes_id (s : str) :
  Forall (fun c => c ≠ 92) s -> remove_backslashes s = s.
Proof.
  intros Hs. apply re_sub_id. intros k.
  assert (Forall (fun c => c ≠ 92) (drop k s)) as Hk by by apply Forall_drop.
  destruct (drop k s) as [|c t]; [done|].
  rewrite m_backslashes_cons. inversion Hk; subst.
  by rewrite (proj2 (Z.eqb_neq c 92)).
Qed.

Lemma remove_backslashes_idemp (s : str) :
  remove_backslashes (remove_backslashes s) = remove_backslashes s.
Proof. apply remove_backslashes_id, remove_backslashes_none. Qed.

(** *** Separators *)

Lemma bar_colon_not_space (c : Z) : is_bar_colon c = true -> isspace c = false.
Proof.
  unfold is_bar_colon.
  intros [->%Z.eqb_eq| ->%Z.eqb_eq]%orb_true_iff; reflexivity.
Qed.

Lemma is_bar_colon_false (c : Z) :
  is_bar_colon c = false ↔ c ≠ 124 ∧ c ≠ 58.
Proof.
  unfold is_bar_colon. rewrite orb_false_iff, !Z.eqb_neq. tauto.
Qed.

Lemma m_separators_skip (c : Z) (s : str) :
  m_separators (c :: s) = None ∨ m_separators (c :: s) = Some O ->
  is_bar_colon c = false.
Proof.
  destruct (is_bar_colon c) eqn:E; [|done].
  unfold m_separators. cbn [span].
  rewrite (bar_colon_not_space c E). cbn [drop span]. rewrite E.
  intros [?|?]; discriminate.
Qed.

Lemma m_separators_none (s : str) :
  Forall (fun c => is_bar_colon c = false) s -> m_separators s = None.
Proof.
  intros Hs. unfold m_separators. cbv zeta.
  by rewrite (span_Forall_false is_bar_colon (drop (span isspace s) s))
    by by apply Forall_drop.
Qed.

Lemma remove_separators_none (s : str) :
  Forall (fun c => is_bar_colon c = false) (remove_separators s).
Proof.
  unfold remove_separators. rewrite u_blank.
  apply (re_sub_ind m_separators [32]
           (fun _ r => Forall (fun c => is_bar_colon c = false) r)).
  - done.
  - intros c t n _ IH. by constructor.
  - intros c t Hm IH. constructor; [|done]. by apply m_separators_skip with t.
Qed.

Lemma remove_separators_id (s : str) :
  Forall (fun c => is_bar_colon c = false) s -> remove_separators s = s.
Proof.
  intros Hs. apply re_sub_id. intros k.
  by apply m_separators_none, Forall_drop.
Qed.

Lemma remove_separators_idemp (s : str) :
  remove_separators (remove_separators s) = remove_separators s.
Proof. apply remove_separators_id, remove_separators_none. Qed.

(** *** Labels: after the separators are gone no label is followed by a
    colon, so the rule finds nothing. *)

Lemma m_alt_none {A} (alts : list str) (k : str -> option A) (s : str) :
  (∀ a, a ∈ alts -> k (drop (length a) s) = None) -> m_alt alts k s = None.
Proof.
  induction alts as [|a alts IH]; intros Hk; [done|].
  cbn [m_alt]. rewrite (Hk a) by apply list_elem_of_here.
  destruct (startswith a s); apply IH; intros b Hb; apply Hk;
    by apply list_elem_of_further.
Qed.

Lemma m_lit_none (c : Z) (s : str) :
  Forall (fun d => d ≠ c) s -> m_lit c s = None.
Proof.
  intros [|d t Hd _]; [done|]. simpl. by rewrite (proj2 (Z.eqb_neq d c)).
Qed.

Lemma m_label_value_none (s : str) :
  Forall (fun c => is_bar_colon c = false) s -> m_label_value s = None.
Proof.
  intros Hs. unfold m_label_value.
  rewrite m_alt_none; [done|]. intros a _.
  rewrite m_lit_none; [done|].
  apply Forall_drop. eapply Forall_impl; [exact Hs|].
  intros c Hc. by apply is_bar_colon_false in Hc as [_ ?].
Qed.

Lemma remove_label_values_id (s : str) :
  Forall (fun c => is_bar_colon c = false) s -> remove_label_values s = s.
Proof.
  intros Hs. apply re_sub_id. intros k.
  by apply m_label_value_none, Forall_drop.
Qed.

(** *** Navigation terms *)

Lemma contains_cons (t : str) (c : Z) (s : str) :
  contains t (c :: s) = startswith t (c :: s) || contains t s.
Proof. reflexivity. Qed.

Lemma contains_false_drop (t s : str) (k : nat) :
  contains t s = false -> startswith t (drop k s) = false.
Proof.
  revert k. induction s as [|c s IH]; intros k Hc.
  - rewrite drop_nil. destruct t; [done|reflexivity].
  - rewrite contains_cons in Hc. apply orb_false_iff in Hc as [H1 H2].
    destruct k as [|k]; [done|]. by apply IH.
Qed.

Lemma replace_id (old new s : str) :
  contains old s = false -> replace old new s = s.
Proof.
  intros Hc. apply re_sub_id. intros k.
  by rewrite (contains_false_drop old s k Hc).
Qed.

Lemma remove_terms_id (terms : list str) (s : str) :
  Forall (fun term => contains term s = false) terms ->
  fold_left (fun content term => replace term [] content) terms s = s.
Proof.
  induction 1 as [|term terms Hterm _ IH]; [done|].
  cbn [fold_left]. by rewrite (replace_id term [] s Hterm).
Qed.

Lemma startswith_app_l (t s w : str) :
  startswith t s = true -> startswith t (s ++ w) = true.
Proof.
  revert s. induction t as [|a t IH]; intros [|b s]; try done.
  cbn [startswith app]. intros [-> ?]%andb_true_iff. simpl. auto.
Qed.

Lemma contains_app_false_r (t w s : str) :
  contains t (w ++ s) = false -> contains t s = false.
Proof.
  induction w as [|c w IH]; [done|].
  cbn [app]. rewrite contains_cons. intros [_ ?]%orb_false_iff. auto.
Qed.

Lemma contains_app_false_l (t s w : str) :
  contains t (s ++ w) = false -> contains t s = false.
Proof.
  induction s as [|c s IH].
  - destruct t as [|a t]; [by destruct w|done].
  - cbn [app]. rewrite !contains_cons.
    intros [H1 H2]%orb_false_iff. rewrite (IH H2), orb_false_r.
    destruct (startswith t (c :: s)) eqn:E; [|done].
    pose proof (startswith_app_l t (c :: s) w E) as H3.
    cbn [app] in H3. congruence.
Qed.

(** *** Standalone dates *)

Lemma m_digits_app (n : nat) (s rest w : str) :
  m_digits n s = Some rest -> m_digits n (s ++ w) = Some (rest ++ w).
Proof.
  revert s. induction n as [|n IH]; intros s; cbn [m_digits].
  - by intros [= ->].
  - destruct s as [|c s]; [done|]. cbn [app].
    destruct (isdecimal c); [apply IH|done].
Qed.

Lemma m_lit_app (c : Z) (s rest w : str) :
  m_lit c s = Some rest -> m_lit c (s ++ w) = Some (rest ++ w).
Proof.
  destruct s as [|d s]; [done|]. cbn [m_lit app].
  destruct (d =? c); [by intros [= ->]|done].
Qed.

Lemma m_date_app (s rest w : str) :
  m_date s = Some rest -> m_date (s ++ w) = Some (rest ++ w).
Proof.
  unfold m_date.
  destruct (m_digits 4 s) as [s1|] eqn:E1; [|done].
  rewrite (m_digits_app _ _ _ w E1). cbn [mbind option_bind].
  destruct (m_lit 47 s1) as [s2|] eqn:E2; [|done].
  rewrite (m_lit_app _ _ _ w E2). cbn [mbind option_bind].
  destruct (m_digits 2 s2) as [s3|] eqn:E3; [|done].
  rewrite (m_digits_app _ _ _ w E3). cbn [mbind option_bind].
  destruct (m_lit 47 s3) as [s4|] eqn:E4; [|done].
  rewrite (m_lit_app _ _ _ w E4). cbn [mbind option_bind].
  apply m_digits_app.
Qed.

Lemma m_date_nonempty (rest : str) : m_date [] = Some rest -> False.
Proof. done. Qed.

Lemma span_all (p : Z -> bool) (w s : str) :
  Forall (fun c => p c = true) w -> span p (w ++ s) = (length w + span p s)%nat.
Proof.
  induction 1 as [|c w Hc _ IH]; [done|].
  cbn [app span length]. by rewrite Hc, IH.
Qed.

(** A trimmed text that is a date alone comes from a text that is a date
    alone. *)
Lemma is_date_only_strip (s : str) :
  is_date_only (strip s) = true -> is_date_only s = true.
Proof.
  destruct (strip_spec s) as (w1 & w2 & Hs & Hw1 & Hw2).
  pose proof (strip_head s) as Hhead.
  unfold is_date_only. rewrite Hhead, drop_0.
  destruct (m_date (strip s)) as [rest|] eqn:E; [|done]. intros Hrest.
  assert (strip s ≠ []) as Hne.
  { intros Hnil. rewrite Hnil in E. by apply m_date_nonempty in E. }
  rewrite Hs at 1 2.
  rewrite (span_all isspace w1 _ Hw1).
  rewrite (span_zero_app isspace (strip s) w2 Hne Hhead), Nat.add_0_r.
  rewrite drop_app_length.
  rewrite (m_date_app _ _ w2 E).
  rewrite forallb_app, Hrest. simpl.
  apply forallb_forall. intros c Hc.
  rewrite Forall_forall in Hw2. apply Hw2. by apply list_elem_of_In.
Qed.

(** *** Short content *)

Lemma reject_short_cases (s : str) :
  reject_short s = []
  ∨ (reject_short s = strip s ∧ (30 <= length (strip s))%nat).
Proof.
  unfold reject_short. cbv zeta.
  destruct (_ <? 30)%nat eqn:E; [by left|].
  right. split; [done|]. by apply Nat.ltb_ge.
Qed.

Lemma reject_short_idemp (s : str) :
  reject_short (reject_short s) = reject_short s.
Proof.
  destruct (reject_short_cases s) as [->|[-> Hlen]]; [done|].
  unfold reject_short. cbv zeta. rewrite strip_idemp.
  by rewrite (proj2 (Nat.ltb_ge _ _) Hlen).
Qed.

(** *** The whole of [clean_content] *)

(** On a text without backslash, bar, colon and navigation term only the
    whitespace rule, the date rule and the length rule act. *)
Lemma clean_content_plain (x : str) :
  x ≠ [] ->
  Forall (fun c => c ≠ 92) x ->
  Forall (fun c => is_bar_colon c = false) x ->
  Forall (fun term => contains term (collapse_whitespace x) = false) nav_terms ->
  clean_content x = reject_short (sub_date_only (collapse_whitespace x)).
Proof.
  intros Hne Hbs Hsep Hnav. unfold clean_content.
  destruct x as [|c x]; [done|]. cbn [is_empty]. cbv zeta.
  set (c1 := collapse_whitespace (c :: x)) in *.
  assert (Forall (fun c => c ≠ 92) c1) as Hbs1.
  { apply re_sub_Forall; [|done]. rewrite u_blank. by repeat constructor. }
  assert (Forall (fun c => is_bar_colon c = false) c1) as Hsep1.
  { apply re_sub_Forall; [|done]. rewrite u_blank. by repeat constructor. }
  rewrite (remove_backslashes_id c1 Hbs1).
  rewrite (remove_separators_id c1 Hsep1).
  rewrite (remove_label_values_id c1 Hsep1).
  unfold remove_nav_terms. by rewrite (remove_terms_id nav_terms c1 Hnav).
Qed.

(** A collapsed text of that kind, trimmed and long enough, is returned
    as it is. *)
Lemma clean_content_fixed (c1 : str) :
  collapsed c1 = true ->
  Forall (fun c => c ≠ 92) c1 ->
  Forall (fun c => is_bar_colon c = false) c1 ->
  Forall (fun term => contains term c1 = false) nav_terms ->
  is_date_only c1 = false ->
  (30 <= length (strip c1))%nat ->
  clean_content (strip c1) = strip c1.
Proof.
  intros Hcol Hbs Hsep Hnav Hdate Hlen.
  destruct (strip_spec c1) as (w1 & w2 & Hc1 & _ & _).
  set (r := strip c1) in *.
  assert (collapsed r = true) as Hcolr.
  { rewrite Hc1 in Hcol. by apply collapsed_app_r, collapsed_app_l in Hcol. }
  assert (collapse_whitespace r = r) as Hfix by by apply collapsed_fixed.
  rewrite clean_content_plain.
  - rewrite Hfix. unfold sub_date_only.
    destruct (is_date_only r) eqn:E.
    { apply is_date_only_strip in E. congruence. }
    unfold reject_short. cbv zeta. subst r. rewrite strip_idemp.
    by rewrite (proj2 (Nat.ltb_ge _ _) Hlen).
  - intros Hnil. rewrite Hnil in Hlen. simpl in Hlen. lia.
  - rewrite Hc1 in Hbs. by apply Forall_app in Hbs as [_ [? _]%Forall_app].
  - rewrite Hc1 in Hsep. by apply Forall_app in Hsep as [_ [? _]%Forall_app].
  - rewrite Hfix. eapply Forall_impl; [exact Hnav|].
    intros term Hterm. cbv beta in Hterm. rewrite Hc1 in Hterm.
    by apply contains_app_false_r, contains_app_false_l in Hterm.
Qed.

Lemma clean_content_idemp_plain (x : str) :
  Forall (fun c => c ≠ 92) x ->
  Forall (fun c => is_bar_colon c = false) x ->
  Forall (fun term => contains term (collapse_whitespace x) = false) nav_terms ->
  clean_content (clean_content x) = clean_content x.
Proof.
  intros Hbs Hsep Hnav.
  destruct x as [|c x]; [done|].
  rewrite (clean_content_plain (c :: x)) by done.
  set (c1 := collapse_whitespace (c :: x)) in *.
  unfold sub_date_only. destruct (is_date_only c1) eqn:Hdate; [done|].
  destruct (reject_short_cases c1) as [->|[-> Hlen]]; [done|].
  apply clean_content_fixed; try done.
  - apply collapse_whitespace_collapsed.
  - apply re_sub_Forall; [|done]. rewrite u_blank. by repeat constructor.
  - apply re_sub_Forall; [|done]. rewrite u_blank. by repeat constructor.
Qed.

Example clean_spaced_content : clean_content spaced_content = content_30.
Proof. vm_compute. reflexivity. Qed.

(** A backslash between two blanks: the first pass leaves the two blanks
    side by side, the second pass merges them. *)
Lemma clean_content_not_idempotent :
  clean_content (clean_content twice_cleaned) ≠ clean_content twice_cleaned.
Proof. vm_compute. discriminate. Qed.

(** The label rule and the term rule can leave behind what they remove. *)
Example remove_label_values_twice :
  remove_label_values (u "عضویتعضویت:1:2") = u "عضویت:2"
  ∧ remove_label_values (u "عضویت:2") = [].
Proof. split; vm_compute; reflexivity. Qed.

Example remove_nav_terms_twice :
  remove_nav_terms (u "مجمجلهله") = u "مجله"
  ∧ remove_nav_terms (u "مجله") = [].
Proof. split; vm_compute; reflexivity. Qed.
End CleaningFacts.

(** * Further properties *)

(** ** De-duplication, again *)

Section DedupMore.
Import ScraperV2.
Variable hash : str -> Z.

Lemma unique_posts_distinct (l : list PostData) :
  NoDup (content_hash hash <$> l) -> unique_posts hash l = l.
Proof.
  induction l as [|p l IH] using rev_ind; [done|].
  rewrite fmap_app. intros (Hl & Hp & _)%NoDup_app.
  rewrite unique_posts_snoc, (IH Hl). f_equal.
  rewrite bool_decide_eq_false_2; [done|].
  intros Hin. apply (Hp _ Hin). simpl. apply list_elem_of_here.
Qed.

(** X1.  De-duplication changes nothing where the fingerprints are
    already distinct, so de-duplicating twice gives what de-duplicating
    once gives, and it never lengthens the list. *)
Theorem dedup_idempotent (all_posts : list PostData) :
  (NoDup ((fun q => hash (take 100 (content q))) <$> all_posts) ->
     unique_posts hash all_posts = all_posts)
  ∧ unique_posts hash (unique_posts hash all_posts)
    = unique_posts hash all_posts
  ∧ (length (unique_posts hash all_posts) <= length all_posts)%nat.
Proof.
  split; [apply unique_posts_distinct|]. split.
  - apply unique_posts_distinct, unique_posts_NoDup.
  - apply sublist_length, unique_posts_sublist.
Qed.
End DedupMore.

Lemma dedup_idempotent_witness :
  ScraperV2.unique_posts ScraperV2.sample_hash (take 2 ScraperV2.sample_posts)
  = take 2 ScraperV2.sample_posts.
Proof.
  apply (proj1 (dedup_idempotent ScraperV2.sample_hash
                  (take 2 ScraperV2.sample_posts))).
  apply (bool_decide_unpack _). vm_compute. reflexivity.
Defined.

(** ** The text [ScraperV2.clean_content] returns *)

Section CleanShape.
Import ScraperV2.

Lemma collapse_whitespace_blank (s : str) :
  Forall (fun c => isspace c = true -> c = 32) (collapse_whitespace s).
Proof.
  unfold collapse_whitespace. rewrite u_blank.
  apply (re_sub_ind m_spaces [32]
           (fun _ r => Forall (fun c => isspace c = true -> c = 32) r)).
  - done.
  - intros c t n _ IH. constructor; [done|exact IH].
  - intros c t Hm IH. rewrite m_spaces_cons in Hm.
    destruct (isspace c) eqn:E; [by destruct Hm|].
    constructor; [|done]. intros ?. congruence.
Qed.

Lemma remove_nav_terms_Forall (Q : Z -> Prop) (s : str) :
  Forall Q s -> Forall Q (remove_nav_terms s).
Proof.
  unfold remove_nav_terms. generalize nav_terms. intros terms. revert s.
  induction terms as [|term terms IH]; intros s Hs; [done|].
  cbn [fold_left]. apply IH. by apply re_sub_Forall.
Qed.

Lemma strip_Forall (Q : Z -> Prop) (s : str) :
  Forall Q s -> Forall Q (strip s).
Proof.
  intros Hs. destruct (strip_spec s) as (w1 & w2 & E & _ & _).
  rewrite E in Hs. by apply Forall_app in Hs as [_ [? _]%Forall_app].
Qed.

Lemma reject_short_Forall (Q : Z -> Prop) (s : str) :
  Forall Q s -> Forall Q (reject_short s).
Proof.
  intros Hs. destruct (reject_short_cases s) as [->|[-> _]]; [done|].
  by apply strip_Forall.
Qed.

Lemma reject_short_stripped (s : str) :
  strip (reject_short s) = reject_short s.
Proof.
  destruct (reject_short_cases s) as [->|[-> _]]; [done|apply strip_idemp].
Qed.

(** What holds of the characters once the separators are removed still
    holds of the result: the later rules only remove text. *)
Lemma clean_tail_Forall (Q : Z -> Prop) (s : str) :
  Forall Q s ->
  Forall Q (reject_short (sub_date_only
             (remove_nav_terms (remove_label_values s)))).
Proof.
  intros Hs. apply reject_short_Forall.
  unfold sub_date_only. destruct (is_date_only _); [done|].
  apply remove_nav_terms_Forall. by apply re_sub_Forall.
Qed.

Lemma blank_Forall (Q : Z -> Prop) : Q 32 -> Forall Q (u " ").
Proof. intros H. rewrite u_blank. by repeat constructor. Qed.

Lemma clean_content_chars (x : str) :
  Forall (fun c => c ≠ 92 ∧ c ≠ 124 ∧ c ≠ 58 ∧ (isspace c = true -> c = 32))
    (clean_content x).
Proof.
  unfold clean_content. destruct (is_empty x); [done|]. cbv zeta.
  apply clean_tail_Forall.
  assert (Forall (fun c => isspace c = true -> c = 32)
            (remove_separators (remove_backslashes (collapse_whitespace x))))
    as Hblank.
  { apply re_sub_Forall; [by apply blank_Forall|].
    apply re_sub_Forall; [done|]. apply collapse_whitespace_blank. }
  assert (Forall (fun c => c ≠ 92)
            (remove_separators (remove_backslashes (collapse_whitespace x))))
    as Hbs.
  { apply re_sub_Forall; [by apply blank_Forall|].
    apply remove_backslashes_none. }
  pose proof (remove_separators_none
                (remove_backslashes (collapse_whitespace x))) as Hsep.
  rewrite Forall_forall in *. intros c Hc.
  specialize (Hsep c Hc). apply is_bar_colon_false in Hsep. naive_solver.
Qed.

Lemma clean_content_stripped (x : str) :
  strip (clean_content x) = clean_content x.
Proof.
  unfold clean_content. destruct (is_empty x); [done|].
  apply reject_short_stripped.
Qed.

(** X2.  The text returned by [clean_content] has no backslash, no bar
    and no colon, its only whitespace characters are blanks (no line
    break is left), it has no whitespace at either end, and it is empty or
    at least 30 characters long. *)
Theorem clean_content_shape (x : str) :
  Forall (fun c => c ≠ 92 ∧ c ≠ 124 ∧ c ≠ 58 ∧ (isspace c = true -> c = 32))
    (clean_content x)
  ∧ strip (clean_content x) = clean_content x
  ∧ (clean_content x = [] ∨ (30 <= length (clean_content x))%nat).
Proof.
  split; [apply clean_content_chars|].
  split; [apply clean_content_stripped|apply clean_content_min_length].
Qed.

(** X3.  The label rule of [clean_content] comes after the separator
    rule, which leaves no colon: it never finds a label followed by a
    colon, and returns its input. *)
Theorem label_rule_idle (s : str) :
  remove_label_values (remove_separators s) = remove_separators s.
Proof.
  apply re_sub_id. intros k.
  apply m_label_value_none, Forall_drop.
  apply remove_separators_none.
Qed.
End CleanShape.

(** ** Validation of extracted posts *)

Section ExtractedFacts.
Import ScraperV2.

Lemma m_alt_some {A} (alts : list str) (k : str -> option A) (s : str)
    (n : nat) (r : A) :
  m_alt alts k s = Some (n, r) ->
  ∃ a, a ∈ alts ∧ startswith a s = true ∧ k (drop (length a) s) = Some r.
Proof.
  induction alts as [|a alts IH]; [done|]. cbn [m_alt].
  destruct (startswith a s) eqn:Ha.
  - destruct (k (drop (length a) s)) as [r'|] eqn:Hk.
    + intros [= <- <-]. exists a. split; [apply list_elem_of_here|done].
    + intros (b & ? & ?)%IH. exists b. split; [by apply list_elem_of_further|done].
  - intros (b & ? & ?)%IH. exists b. split; [by apply list_elem_of_further|done].
Qed.

Lemma startswith_length (p s : str) :
  startswith p s = true -> (length p <= length s)%nat.
Proof.
  revert s. induction p as [|a p IH]; intros [|b s]; simpl; try done; [lia|].
  intros [_ ?%IH]%andb_true_iff. lia.
Qed.

Lemma m_digits_length (n : nat) (s rest : str) :
  m_digits n s = Some rest -> length s = (n + length rest)%nat.
Proof.
  revert s. induction n as [|n IH]; intros s; cbn [m_digits].
  - by intros [= ->].
  - destruct s as [|c s]; [done|]. destruct (isdecimal c); [|done].
    intros ?%IH. simpl. lia.
Qed.

Lemma m_lit_length (c : Z) (s rest : str) :
  m_lit c s = Some rest -> length s = S (length rest).
Proof.
  destruct s as [|d s]; [done|]. cbn [m_lit].
  destruct (d =? c); [by intros [= ->]|done].
Qed.

Lemma m_date_length (s rest : str) :
  m_date s = Some rest -> length s = (10 + length rest)%nat.
Proof.
  unfold m_date.
  destruct (m_digits 4 s) as [s1|] eqn:E1; [|done]. cbn [mbind option_bind].
  destruct (m_lit 47 s1) as [s2|] eqn:E2; [|done]. cbn [mbind option_bind].
  destruct (m_digits 2 s2) as [s3|] eqn:E3; [|done]. cbn [mbind option_bind].
  destruct (m_lit 47 s3) as [s4|] eqn:E4; [|done]. cbn [mbind option_bind].
  intros E5.
  apply m_digits_length in E1, E3, E5. apply m_lit_length in E2, E4. lia.
Qed.

Lemma forallb_isspace_length (s rest : str) :
  strip s = s -> (length rest < length s)%nat ->
  (∃ a, s = a ++ rest) -> forallb isspace rest = true -> rest = [].
Proof.
  intros Hs Hlen [a Ha] Hws.
  destruct rest as [|c rest]; [done|]. exfalso.
  assert (rstrip s = s) as Hr.
  { rewrite <- Hs at 1. unfold strip. rewrite rstrip_idemp. exact Hs. }
  destruct (rstrip_spec a) as (w & Hw & _).
  assert (rstrip s = rstrip a) as Hra.
  { rewrite Ha. unfold rstrip. rewrite reverse_app.
    f_equal. generalize (reverse a). intros t.
    assert (Forall (fun d => isspace d = true) (reverse (c :: rest))) as Hall.
    { apply Forall_reverse, Forall_forall. intros d Hd.
      rewrite forallb_forall in Hws. apply Hws. by apply list_elem_of_In. }
    induction Hall as [|d l Hd _ IH]; [done|]. cbn [app lstrip]. by rewrite Hd. }
  assert (length (rstrip a) <= length a)%nat as Hle.
  { rewrite Hw at 2. rewrite length_app. lia. }
  rewrite <- Hra, Hr, Ha, length_app in Hle. simpl in Hle. lia.
Qed.

Lemma m_date_suffix (s rest : str) :
  m_date s = Some rest -> ∃ a, s = a ++ rest.
Proof.
  assert (Hd : ∀ n t r, m_digits n t = Some r -> ∃ a, t = a ++ r).
  { induction n as [|n IH]; intros t r; cbn [m_digits].
    - intros [= ->]. by exists [].
    - destruct t as [|c t]; [done|]. destruct (isdecimal c); [|done].
      intros [a ->]%IH. by exists (c :: a). }
  assert (Hl : ∀ c t r, m_lit c t = Some r -> ∃ a, t = a ++ r).
  { intros c [|d t] r; [done|]. cbn [m_lit].
    destruct (d =? c); [|done]. intros [= ->]. by exists [d]. }
  unfold m_date.
  destruct (m_digits 4 s) as [s1|] eqn:E1; [|done]. cbn [mbind option_bind].
  destruct (m_lit 47 s1) as [s2|] eqn:E2; [|done]. cbn [mbind option_bind].
  destruct (m_digits 2 s2) as [s3|] eqn:E3; [|done]. cbn [mbind option_bind].
  destruct (m_lit 47 s3) as [s4|] eqn:E4; [|done]. cbn [mbind option_bind].
  intros E5.
  apply Hd in E1 as [a1 ->], E3 as [a3 ->], E5 as [a5 ->].
  apply Hl in E2 as [a2 ->], E4 as [a4 ->].
  exists (a1 ++ a2 ++ a3 ++ a4 ++ a5). by rewrite <- !app_assoc.
Qed.

(** No metadata pattern matches a cleaned text. *)
Lemma cleaned_not_metadata (x : str) :
  clean_content x ≠ [] ->
  existsb (fun pattern => pattern (strip (clean_content x))) metadata_patterns
  = false.
Proof.
  intros Hne.
  pose proof (clean_content_chars x) as Hchars.
  pose proof (clean_content_stripped x) as Hstrip.
  destruct (clean_content_min_length x) as [?|Hlen]; [done|].
  rewrite Hstrip. set (c := clean_content x) in *.
  assert (Forall (fun d => d ≠ 58) c) as Hcolon.
  { eapply Forall_impl; [exact Hchars|]. naive_solver. }
  unfold metadata_patterns. cbn [existsb].
  assert (pat_label_value c = false) as ->.
  { unfold pat_label_value. rewrite m_alt_none; [done|]. intros a _.
    rewrite m_lit_none; [done|]. by apply Forall_drop. }
  assert (pat_date c = false) as ->.
  { unfold pat_date. destruct (m_date c) as [rest|] eqn:E; [|done].
    apply not_true_iff_false. intros Hws.
    pose proof (m_date_length _ _ E) as Hl.
    assert (rest = []) as ->.
    { apply (forallb_isspace_length c); [done|lia| |done].
      by apply m_date_suffix. }
    simpl in Hl. lia. }
  assert (pat_separators c = false) as ->.
  { unfold pat_separators. destruct c as [|d c']; [done|].
    cbn [is_empty negb forallb andb].
    inversion Hchars as [|? ? (_ & Hbar & Hcol & _) _]; subst.
    assert (isspace d = false) as ->.
    { pose proof (strip_head (d :: c')) as Hh. rewrite Hstrip in Hh.
      simpl in Hh. by destruct (isspace d). }
    by rewrite (proj2 (is_bar_colon_false d)). }
  assert (pat_role c = false) as ->; [|done].
  unfold pat_role.
  destruct (m_alt _ _ c) as [[n []]|] eqn:E; [|done]. exfalso.
  apply m_alt_some in E as (a & Ha & Hstart & Hend).
  destruct (at_dollar (drop (length a) c)) eqn:Hd; [|done].
  assert (length (drop (length a) c) <= 1)%nat as Hrest.
  { destruct (drop (length a) c) as [|? [|? ?]]; simpl in *; first [lia|done]. }
  rewrite length_drop in Hrest.
  assert (length a <= 7)%nat.
  { apply list_elem_of_In in Ha. simpl in Ha.
    destruct Ha as [<-|[<-|[]]]; vm_compute; lia. }
  lia.
Qed.

(** X4.  For a post that [extract_post_data] returns, the checks of
    [is_valid_post] on emptiness, on length and on the metadata patterns
    never reject: the post is valid exactly when at most two of the four
    navigation terms occur in it, it has a Persian character, and it has
    between 5 and 200 words. *)
Theorem extracted_post_validity (block : Element) (pd : PostData) :
  extract_post_data block = Some pd ->
  is_valid_post (Some pd) = true
  ↔ (nav_ratio (content pd) <= 2)%nat
    ∧ Exists (fun c => 0x0600 <= c <= 0x06FF) (content pd)
    ∧ (5 <= length (split (content pd)) <= 200)%nat.
Proof.
  unfold extract_post_data. cbv zeta.
  match goal with
  | |- context [clean_content ?text] => set (x := text)
  end.
  destruct (is_empty (clean_content x)) eqn:Hne; [done|]. intros [= <-].
  assert (clean_content x ≠ []) as Hne' by (intros E; by rewrite E in Hne).
  unfold is_valid_post. cbn [content]. rewrite Hne.
  destruct (clean_content_min_length x) as [?|Hlen]; [done|].
  rewrite (proj2 (Nat.ltb_ge _ _) Hlen).
  rewrite (cleaned_not_metadata x Hne').
  rewrite <- has_persian_spec.
  destruct (2 <? _)%nat eqn:Hnav.
  - apply Nat.ltb_lt in Hnav. split; [done|]. lia.
  - apply Nat.ltb_ge in Hnav.
    rewrite !andb_true_iff, !Nat.leb_le. tauto.
Qed.

Lemma extracted_post_validity_witness :
  is_valid_post (Some (post_of content_30)) = true
  ↔ (nav_ratio (content (post_of content_30)) <= 2)%nat
    ∧ Exists (fun c => 0x0600 <= c <= 0x06FF) (content (post_of content_30))
    ∧ (5 <= length (split (content (post_of content_30))) <= 200)%nat.
Proof.
  apply (extracted_post_validity (block_of content_30)).
  vm_compute. reflexivity.
Defined.
End ExtractedFacts.

(** ** Cleaning twice ([ScraperV2.clean_content]) *)

Section IdempotenceFacts.
Import ScraperV2.

Lemma span_le_length (p : Z -> bool) (s : str) : (span p s <= length s)%nat.
Proof.
  induction s as [|c s IH]; [done|]. simpl. destruct (p c); simpl; lia.
Qed.

(** A substitution whose replacement has at most one character does not
    lengthen the text. *)
Lemma re_sub_length (m : str -> option nat) (repl s : str) :
  (length repl <= 1)%nat -> (length (re_sub m repl s) <= length s)%nat.
Proof.
  intros Hrepl.
  apply (re_sub_ind m repl (fun s r => (length r <= length s)%nat)).
  - done.
  - intros c t n _ IH. rewrite length_app. rewrite length_drop in IH.
    cbn [length]. lia.
  - intros c t _ IH. cbn [length]. lia.
Qed.

Lemma collapse_whitespace_shorter (s : str) :
  Forall (fun c => isspace c = true -> c = 32) s ->
  collapse_whitespace s = s
  ∨ (length (collapse_whitespace s) < length s)%nat.
Proof.
  unfold collapse_whitespace. rewrite u_blank.
  apply (re_sub_ind m_spaces [32]
           (fun s r => Forall (fun c => isspace c = true -> c = 32) s ->
                       r = s ∨ (length r < length s)%nat)).
  - by left.
  - intros c t n Hm IH Hs. rewrite m_spaces_cons in Hm.
    destruct (isspace c) eqn:Hc; [|done]. injection Hm as Hn.
    inversion Hs as [|? ? Hc32 Ht]; subst.
    pose proof (span_le_length isspace t) as Hle.
    pose proof (re_sub_length m_spaces [32] (drop (span isspace t) t)) as Hlen.
    rewrite length_drop in Hlen. cbn [length] in Hlen.
    destruct (span isspace t) as [|k] eqn:Hk.
    + rewrite drop_0 in *. rewrite (Hc32 Hc).
      destruct (IH Ht) as [->|Hlt]; [by left|].
      right. cbn [app length]. lia.
    + right. cbn [app length]. lia.
  - intros c t _ IH Hs. inversion Hs; subst.
    destruct (IH ltac:(done)) as [->|Hlt]; [by left|].
    right. cbn [length]. lia.
Qed.

Lemma replace_shorter (term s : str) :
  term ≠ [] ->
  (length (replace term [] s) <= length s)%nat
  ∧ (contains term s = true -> (length (replace term [] s) < length s)%nat).
Proof.
  intros Hterm. unfold replace.
  apply (re_sub_ind _ []
           (fun s r => (length r <= length s)%nat
                       ∧ (contains term s = true -> (length r < length s)%nat))).
  - split; [done|]. destruct term; [done|]. cbn. discriminate.
  - intros c t n _ [IH _]. rewrite length_drop in IH. cbn [app length].
    split; [lia|]. intros _. lia.
  - intros c t Hm [IH1 IH2]. cbn [length]. split; [lia|].
    intros Hc. cbn [contains] in Hc.
    destruct (startswith term (c :: t)) eqn:E.
    + destruct Hm as [Hm|Hm]; [done|].
      injection Hm as Hm. by destruct term.
    + cbn [orb] in Hc. specialize (IH2 Hc). lia.
Qed.

Lemma remove_terms_shorter (terms : list str) (s : str) :
  Forall (fun term => term ≠ []) terms ->
  (length (fold_left (fun content term => replace term [] content) terms s)
   <= length s)%nat
  ∧ (Exists (fun term => contains term s = true) terms ->
     (length (fold_left (fun content term => replace term [] content) terms s)
      < length s)%nat).
Proof.
  intros Hterms. revert s.
  induction Hterms as [|term terms Hterm _ IH]; intros s.
  - split; [done|]. by intros ?%Exists_nil.
  - cbn [fold_left].
    destruct (replace_shorter term s Hterm) as [Hle Hlt].
    destruct (IH (replace term [] s)) as [IHle IHlt].
    split; [lia|]. intros Hex.
    destruct (contains term s) eqn:E; [specialize (Hlt eq_refl); lia|].
    rewrite (replace_id term [] s E) in *.
    apply Exists_cons in Hex as [Hex|Hex]; [congruence|].
    by apply IHlt.
Qed.

Lemma nav_terms_nonempty : Forall (fun term => term ≠ []) nav_terms.
Proof.
  apply (bool_decide_unpack _). vm_compute. reflexivity.
Qed.

Lemma strip_length (s : str) : (length (strip s) <= length s)%nat.
Proof.
  destruct (strip_spec s) as (w1 & w2 & Hs & _ & _).
  rewrite Hs at 2. rewrite !length_app. lia.
Qed.

Lemma reject_short_length (s : str) :
  (length (reject_short (sub_date_only s)) <= length s)%nat.
Proof.
  unfold sub_date_only. destruct (is_date_only s).
  - destruct (reject_short_cases []) as [->|[-> _]]; cbn; lia.
  - destruct (reject_short_cases s) as [->|[-> _]]; [cbn; lia|].
    apply strip_length.
Qed.

Lemma stripped_long_not_date (c : str) :
  strip c = c -> (30 <= length c)%nat -> is_date_only c = false.
Proof.
  intros Hs Hlen. unfold is_date_only.
  pose proof (strip_head c) as Hhead. rewrite Hs in Hhead.
  rewrite Hhead, drop_0.
  destruct (m_date c) as [rest|] eqn:E; [|done].
  pose proof (m_date_length c rest E) as Hl.
  destruct (forallb isspace rest) eqn:Hws; [|done].
  rewrite (forallb_isspace_length c rest) in Hl; try done.
  - cbn [length] in Hl. lia.
  - lia.
  - by apply m_date_suffix.
Qed.

(** The second pass on a cleaned text: only the whitespace collapse and
    the navigation terms can still change it. *)
Lemma clean_content_second_pass (c : str) :
  c ≠ [] ->
  Forall (fun d => d ≠ 92 ∧ d ≠ 124 ∧ d ≠ 58 ∧ (isspace d = true -> d = 32)) c ->
  clean_content c
  = reject_short (sub_date_only (remove_nav_terms (collapse_whitespace c))).
Proof.
  intros Hne Hchars. unfold clean_content.
  destruct c as [|d c]; [done|]. cbn [is_empty]. cbv zeta.
  set (c1 := collapse_whitespace (d :: c)) in *.
  assert (Forall (fun c => c ≠ 92) c1) as Hbs1.
  { apply re_sub_Forall; [rewrite u_blank; by repeat constructor|].
    eapply Forall_impl; [exact Hchars|]. by intros a (? & ? & ? & ?). }
  assert (Forall (fun c => is_bar_colon c = false) c1) as Hsep1.
  { apply re_sub_Forall; [rewrite u_blank; by repeat constructor|].
    eapply Forall_impl; [exact Hchars|].
    intros a (? & ? & ? & ?). by apply is_bar_colon_false. }
  rewrite (remove_backslashes_id c1 Hbs1).
  rewrite (remove_separators_id c1 Hsep1).
  by rewrite (remove_label_values_id c1 Hsep1).
Qed.

Lemma clean_content_idempotent_iff (x : str) :
  clean_content (clean_content x) = clean_content x
  ↔ collapsed (clean_content x) = true
    ∧ Forall (fun term => contains term (clean_content x) = false) nav_terms.
Proof.
  pose proof (clean_content_chars x) as Hchars.
  pose proof (clean_content_stripped x) as Hstrip.
  destruct (clean_content_min_length x) as [Hnil|Hlen].
  { rewrite Hnil. split; [|done]. intros _. split; [done|].
    apply (bool_decide_unpack _). vm_compute. reflexivity. }
  set (c := clean_content x) in *.
  assert (c ≠ []) as Hne by (intros E; rewrite E in Hlen; cbn in Hlen; lia).
  split.
  - intros Hfix. rewrite clean_content_second_pass in Hfix by done.
    pose proof (reject_short_length
                  (remove_nav_terms (collapse_whitespace c))) as H1.
    rewrite Hfix in H1.
    destruct (remove_terms_shorter nav_terms (collapse_whitespace c)
                nav_terms_nonempty) as [H2 H3].
    fold (remove_nav_terms (collapse_whitespace c)) in H2, H3.
    assert (Forall (fun d => isspace d = true -> d = 32) c) as Hblank.
    { eapply Forall_impl; [exact Hchars|]. by intros a (? & ? & ? & ?). }
    destruct (collapse_whitespace_shorter c Hblank) as [Hcol|Hlt]; [|lia].
    rewrite Hcol in *. split.
    + rewrite <- Hcol. apply collapse_whitespace_collapsed.
    + apply Forall_forall. intros term Hin.
      destruct (contains term c) eqn:E; [|done]. exfalso.
      assert (Exists (fun term => contains term c = true) nav_terms) as Hex
        by (apply Exists_exists; by exists term).
      specialize (H3 Hex). lia.
  - intros [Hcol Hnav]. rewrite <- Hstrip.
    apply clean_content_fixed; rewrite ?Hstrip; try done.
    + eapply Forall_impl; [exact Hchars|]. by intros a (? & ? & ? & ?).
    + eapply Forall_impl; [exact Hchars|].
      intros a (? & ? & ? & ?). by apply is_bar_colon_false.
    + by apply stripped_long_not_date.
Qed.

(** C3, as the code has it.  Collapsing whitespace, removing backslashes,
    removing separator runs and rejecting short content are idempotent
    rules.  [clean_content] applied twice gives what it gives once
    exactly for the texts whose first result has no two blanks side by
    side and none of the navigation terms. *)
Theorem cleaning_idempotent_rules :
  (∀ s, collapse_whitespace (collapse_whitespace s) = collapse_whitespace s)
  ∧ (∀ s, remove_backslashes (remove_backslashes s) = remove_backslashes s)
  ∧ (∀ s, remove_separators (remove_separators s) = remove_separators s)
  ∧ (∀ s, reject_short (reject_short s) = reject_short s)
  ∧ (∀ x,
       clean_content (clean_content x) = clean_content x
       ↔ collapsed (clean_content x) = true
         ∧ Forall (fun term => contains term (clean_content x) = false)
             nav_terms).
Proof.
  split; [apply collapse_whitespace_idemp|].
  split; [apply remove_backslashes_idemp|].
  split; [apply remove_separators_idemp|].
  split; [apply reject_short_idemp|].
  intros x. apply clean_content_idempotent_iff.
Qed.

Lemma cleaning_idempotent_rules_witness :
  clean_content (clean_content spaced_content) = clean_content spaced_content.
Proof.
  apply (proj2 (proj2 (proj2 (proj2 cleaning_idempotent_rules)))).
  split.
  - vm_compute. reflexivity.
  - apply (bool_decide_unpack _). vm_compute. reflexivity.
Defined.

(** A navigation term put together by the removal of another one stays
    in the first result, and the second pass removes it. *)
Example clean_content_leaves_nav_term :
  clean_content (content_30 ++ u " مجمجلهله") = content_30 ++ u " مجله"
  ∧ clean_content (content_30 ++ u " مجله") = content_30.
Proof. split; vm_compute; reflexivity. Qed.
End IdempotenceFacts.

(** ** Splitting and joining *)

Section SplitFacts.
Variable sep : Z.

Lemma split_on_nonempty (s : str) : split_on sep s ≠ [].
Proof.
  destruct s as [|c s]; [done|]. simpl.
  destruct (c =? sep); [done|]. by destruct (split_on sep s).
Qed.

Lemma split_on_no_sep (s : str) :
  Forall (Forall (fun c => c ≠ sep)) (split_on sep s).
Proof.
  induction s as [|c s IH]; [by repeat constructor|]. simpl.
  destruct (c =? sep) eqn:E; [by constructor|].
  apply Z.eqb_neq in E.
  destruct (split_on sep s) as [|w ws]; [by repeat constructor|].
  inversion IH; subst. by repeat constructor.
Qed.

Lemma join_cons (w : str) (ws : list str) :
  ws ≠ [] -> join [sep] (w :: ws) = w ++ [sep] ++ join [sep] ws.
Proof. by destruct ws. Qed.

Lemma join_split_on (s : str) : join [sep] (split_on sep s) = s.
Proof.
  induction s as [|c s IH]; [done|]. cbn [split_on].
  destruct (c =? sep) eqn:E.
  - apply Z.eqb_eq in E as ->.
    rewrite join_cons by apply split_on_nonempty. by rewrite IH.
  - pose proof (split_on_nonempty s) as Hne.
    destruct (split_on sep s) as [|w ws]; [done|].
    destruct ws as [|w' ws]; [simpl in *; by rewrite IH|].
    rewrite <- IH, !join_cons by done. reflexivity.
Qed.

Lemma split_on_app (w rest : str) :
  Forall (fun c => c ≠ sep) w ->
  split_on sep (w ++ sep :: rest) = w :: split_on sep rest.
Proof.
  induction 1 as [|c w Hc _ IH]; cbn [app split_on].
  - by rewrite Z.eqb_refl.
  - by rewrite (proj2 (Z.eqb_neq c sep) Hc), IH.
Qed.

Lemma split_on_single (w : str) :
  Forall (fun c => c ≠ sep) w -> split_on sep w = [w].
Proof.
  induction 1 as [|c w Hc _ IH]; [done|]. cbn [split_on].
  by rewrite (proj2 (Z.eqb_neq c sep) Hc), IH.
Qed.

Lemma split_on_join (parts : list str) :
  parts ≠ [] -> Forall (Forall (fun c => c ≠ sep)) parts ->
  split_on sep (join [sep] parts) = parts.
Proof.
  induction parts as [|w ws IH]; [done|]. intros _ Hall.
  inversion Hall as [|? ? Hw Hws]; subst.
  destruct ws as [|w' ws]; [by apply split_on_single|].
  rewrite join_cons by done. cbn [app].
  rewrite split_on_app by done. f_equal. by apply IH.
Qed.
End SplitFacts.

(** ** Posts of [Scraper] *)

Section PostFacts.
Import Scraper.

Lemma strip_fmap_trimmed (o : option str) (t : str) :
  strip <$> o = Some t -> strip t = t.
Proof. destruct o; [|done]. intros [= <-]. apply strip_idemp. Qed.

(** X5.  A reply is dropped exactly when its message container is
    missing or holds only whitespace, and a main topic is never dropped.
    In a post that is returned the flag is the one that was asked for, the
    text fields have no whitespace at either end, and a reply has content
    that is not empty. *)
Theorem extract_post_data_kept (article : Article) (flag : bool) :
  (extract_post_data article flag = None
   ↔ flag = false
     ∧ match div_post_message article with
       | Some (text, _) => strip text = []
       | None => True
       end)
  ∧ ∀ post, extract_post_data article flag = Some post ->
      is_main_topic post = flag
      ∧ (flag = false -> ∃ c, content post = Some c ∧ c ≠ [])
      ∧ ∀ t, (author post = Some t ∨ content post = Some t
              ∨ quoted_content post = Some t ∨ likes post = Some t
              ∨ signature post = Some t ∨ author_join_date post = Some t
              ∨ author_post_count post = Some t) -> strip t = t.
Proof.
  split.
  - unfold extract_post_data. cbn [content].
    destruct (div_post_message article) as [[text html]|];
      cbn [fmap option_fmap option_map fst].
    + destruct (strip text) as [|c t] eqn:E; cbn [truthy orb].
      * destruct flag; [|by split]. split; [done|]. by intros [? _].
      * split; [done|]. by intros [_ ?].
    + cbn [truthy orb]. destruct flag; [|by split].
      split; [done|]. by intros [? _].
  - intros post Hpost. split; [by apply extract_post_data_flag in Hpost|].
    unfold extract_post_data in Hpost.
    destruct (_ || flag) eqn:Hkeep; [|done]. injection Hpost as <-.
    cbn [author content quoted_content likes signature author_join_date
         author_post_count] in *.
    split.
    + intros ->. rewrite orb_false_r in Hkeep.
      destruct (div_post_message article) as [[text html]|]; [|done].
      cbn [fmap option_fmap option_map fst] in *.
      destruct (strip text) as [|c t]; [done|]. by eexists.
    + intros t [H|[H|[H|[H|[H|[H|H]]]]]];
        try (by apply strip_fmap_trimmed in H).
      * destruct (div_post_message article) as [[text html]|]; [|done].
        injection H as <-. apply strip_idemp.
      * destruct (mjoin (div_quotation article)) as [[text r]|]; [|done].
        injection H as <-. apply strip_idemp.
Qed.

Lemma extract_posts_page_pages (n : Z) (soup : Page) :
  Forall (fun post => page post = Some n) (extract_posts_page n soup).
Proof.
  unfold extract_posts_page. apply Forall_app. split.
  - destruct (n =? 1); [|done]. destruct (find_topic soup); [|done].
    destruct (extract_post_data _ true); by repeat constructor.
  - induction (find_replies soup) as [|a arts IH]; [done|].
    cbn [omap list_omap]. case_bool_decide; [done|].
    destruct (extract_post_data a false);
      cbn [fmap option_fmap option_map]; [by constructor|done].
Qed.

Lemma extract_posts_from_pages (n : Z) (pages : list Page) :
  ∃ ns, page <$> extract_posts_from n pages = Some <$> ns
        ∧ Forall (fun k => n <= k < n + Z.of_nat (length pages)) ns
        ∧ Sorted Z.le ns.
Proof.
  revert n. induction pages as [|soup pages IH]; intros n.
  - exists []. split; [done|]. split; constructor.
  - destruct (IH (n + 1)) as (ns & Hns & Hrange & Hsorted).
    pose proof (extract_posts_page_pages n soup) as Hpage.
    cbn [extract_posts_from]. rewrite fmap_app, Hns.
    induction Hpage as [|post l Hpost _ IHl].
    + exists ns. split; [done|]. split; [|done].
      eapply Forall_impl; [exact Hrange|]. intros k Hk.
      cbn beta in *. cbn [length]. lia.
    + destruct IHl as (ms & Hms & Hr & Hs).
      exists (n :: ms). cbn [fmap list_fmap app]. rewrite Hpost.
      split; [by f_equal|]. split.
      * constructor; [cbn [length]; lia|done].
      * constructor; [done|]. destruct Hr; constructor. lia.
Qed.

(** X6.  Every post carries the number of the page it was found on,
    between 1 and the number of pages, and the page numbers never decrease
    along the list: the posts come page by page. *)
Theorem extract_posts_page_order (pages : list Page) :
  ∃ ns, page <$> extract_posts pages = Some <$> ns
        ∧ Forall (fun k => 1 <= k <= Z.of_nat (length pages)) ns
        ∧ Sorted Z.le ns.
Proof.
  destruct (extract_posts_from_pages 1 pages) as (ns & ? & Hr & ?).
  exists ns. split; [done|]. split; [|done].
  eapply Forall_impl; [exact Hr|]. intros k Hk. cbn beta in *. lia.
Qed.

Lemma find_replies_id (soup : Page) (a : Article) :
  a ∈ find_replies soup ->
  ∃ i, attr_id a = Some i ∧ is_Some (re_search m_post_id i) ∧ a ∈ articles soup.
Proof.
  unfold find_replies. intros Hin. apply list_elem_of_In in Hin.
  apply filter_In in Hin as [Hin Hid]. apply list_elem_of_In in Hin.
  destruct (attr_id a) as [i|]; [|done].
  exists i. split; [done|]. split; [|done]. by apply bool_decide_eq_true in Hid.
Qed.

Lemma re_search_nonempty (m : str -> option nat) (s : str) :
  m [] = None -> is_Some (re_search m s) -> s ≠ [].
Proof. intros Hm [t Ht] ->. simpl in Ht. by rewrite Hm in Ht. Qed.

Lemma reply_posts_of_page (n : Z) (soup : Page) (post : Post) :
  post ∈ extract_posts_page n soup -> is_main_topic post = false ->
  ∃ a i, a ∈ articles soup ∧ attr_id a = Some i ∧ id post = Some i
         ∧ is_Some (re_search m_post_id i)
         ∧ u "forum-native-ad" ∉ attr_class a.
Proof.
  unfold extract_posts_page. rewrite elem_of_app. intros [Hin|Hin] Hflag.
  - destruct (n =? 1); [|by apply elem_of_nil in Hin].
    destruct (find_topic soup); [|by apply elem_of_nil in Hin].
    destruct (extract_post_data a true) as [p|] eqn:E;
      [|by apply elem_of_nil in Hin].
    apply list_elem_of_singleton in Hin as ->.
    apply extract_post_data_flag in E. rewrite set_page_flag in Hflag.
    congruence.
  - apply list_elem_of_omap in Hin as (a & Ha & Hpost).
    case_bool_decide as Had; [done|].
    destruct (extract_post_data a false) as [p|] eqn:E; [|done].
    injection Hpost as <-.
    apply find_replies_id in Ha as (i & Hid & Hm & Ha).
    exists a, i. repeat split; try done.
    unfold extract_post_data in E. destruct (_ || false); [|done].
    injection E as <-. cbn [set_page id]. rewrite Hid.
    assert (i ≠ []) as Hne by by apply (re_search_nonempty m_post_id).
    by destruct i.
Qed.

Lemma extract_posts_from_elem (n : Z) (pages : list Page) (post : Post) :
  post ∈ extract_posts_from n pages ->
  ∃ k soup, soup ∈ pages ∧ post ∈ extract_posts_page k soup.
Proof.
  revert n. induction pages as [|soup pages IH]; intros n; cbn.
  - by intros ?%elem_of_nil.
  - rewrite elem_of_app. intros [Hin|Hin].
    + exists n, soup. split; [apply list_elem_of_here|done].
    + apply IH in Hin as (k & s & ? & ?). exists k, s.
      split; [by apply list_elem_of_further|done].
Qed.

(** X7.  Every reply in the result comes from an article of one of the
    pages whose id contains [post-] followed by a digit, keeps that id,
    and is not marked as an advertisement. *)
Theorem replies_have_post_ids (pages : list Page) (post : Post) :
  post ∈ extract_posts pages -> is_main_topic post = false ->
  ∃ soup a i, soup ∈ pages ∧ a ∈ articles soup
              ∧ attr_id a = Some i ∧ id post = Some i
              ∧ is_Some (re_search m_post_id i)
              ∧ u "forum-native-ad" ∉ attr_class a.
Proof.
  intros (k & soup & Hsoup & Hin)%extract_posts_from_elem Hflag.
  destruct (reply_posts_of_page k soup post Hin Hflag) as (a & i & ?).
  exists soup, a, i. naive_solver.
Qed.

(** X8.  The author and the date of the thread metadata are those of the
    main-topic post: both are read from the same article. *)
Theorem metadata_matches_main_topic (soup : Page) (rest : list Page)
    (post : Post) (posts : list Post) :
  extract_posts (soup :: rest) = post :: posts ->
  is_main_topic post = true ->
  md_author (extract_topic_metadata soup) = author post
  ∧ md_date (extract_topic_metadata soup) = date post.
Proof.
  unfold extract_posts. cbn [extract_posts_from].
  unfold extract_posts_page at 1. cbn [Z.eqb Pos.eqb].
  unfold extract_topic_metadata. cbn [md_author md_date].
  destruct (find_topic soup) as [topic|] eqn:Htopic.
  - destruct (extract_post_data_topic topic) as [p Hp]. rewrite Hp.
    cbn [app]. intros [= <- _] _.
    unfold extract_post_data in Hp. rewrite orb_true_r in Hp.
    injection Hp as <-. done.
  - cbn [app]. intros Heq Hflag.
    assert (post ∈ post :: posts) as Hin by apply list_elem_of_here.
    rewrite <- Heq in Hin. apply elem_of_app in Hin as [Hin|Hin].
    + pose proof (replies_not_main 1 (find_replies soup)) as Hall.
      rewrite Forall_forall in Hall. specialize (Hall _ Hin). congruence.
    + pose proof (later_pages_not_main (1 + 1) rest ltac:(lia)) as Hall.
      rewrite Forall_forall in Hall. specialize (Hall _ Hin). congruence.
Qed.
End PostFacts.

Section PostWitnesses.
Import Scraper.

Lemma extract_post_data_kept_witness :
  is_main_topic reply_post = false
  ∧ (∃ c, content reply_post = Some c ∧ c ≠ [])
  ∧ extract_post_data topic_article false = None.
Proof.
  pose proof (proj2 (extract_post_data_kept reply_article false)
                {| id := Some (u "post-1"); author := Some (u "sara");
                   author_profile := None; author_join_date := None;
                   author_post_count := None;
                   date := Some (u "7/4/2023 8:02:48 AM");
                   content := Some (u "ok");
                   content_html := Some (u "<div>ok</div>");
                   quoted_content := None; reply_to_id := None;
                   likes := None; signature := None;
                   is_main_topic := false; page := None |})
    as H.
  destruct H as (H1 & H2 & _); [vm_compute; reflexivity|].
  split; [exact H1|]. split; [exact (H2 eq_refl)|].
  apply (proj1 (extract_post_data_kept topic_article false)).
  split; reflexivity.
Defined.

Lemma replies_have_post_ids_witness :
  ∃ soup a i, soup ∈ [page_without_topic] ∧ a ∈ articles soup
              ∧ attr_id a = Some i ∧ id reply_post = Some i
              ∧ is_Some (re_search m_post_id i)
              ∧ u "forum-native-ad" ∉ attr_class a.
Proof.
  apply (replies_have_post_ids [page_without_topic] reply_post).
  - vm_compute. apply list_elem_of_here.
  - reflexivity.
Defined.

Lemma metadata_matches_main_topic_witness :
  md_author (extract_topic_metadata page_with_topic) = Some (u "mina")
  ∧ md_date (extract_topic_metadata page_with_topic) = None.
Proof.
  let v := eval vm_compute in (extract_posts [page_with_topic]) in
  match v with
  | ?p :: ?ps =>
    assert (extract_posts [page_with_topic] = p :: ps) as E
      by (vm_compute; reflexivity);
    destruct (metadata_matches_main_topic page_with_topic [] p ps E eq_refl)
      as [Ha Hd]
  end.
  split; [rewrite Ha|rewrite Hd]; vm_compute; reflexivity.
Defined.
End PostWitnesses.

(** ** Author names and author details *)

Section AuthorMore.
Import Scraper.

(** X9.  Formatting a formatted name changes nothing: the marks are
    added once or not at all, and the name is kept between them. *)
Theorem format_author_name_once (author r : str) :
  format_author_name author = Return r ->
  format_author_name r = Return r
  ∧ (r = author ∨ r = [0x2067] ++ author ++ [0x2069]).
Proof.
  unfold format_author_name at 1.
  destruct author as [|c rest]; cbn [is_empty].
  - intros [= <-]. by split; [|left].
  - cbn. destruct (is_persian c) eqn:E; intros [= <-].
    + split; [reflexivity|by right].
    + split; [|by left]. unfold format_author_name. cbn. by rewrite E.
Qed.

Lemma format_author_name_once_witness :
  format_author_name [8295; 1593; 1604; 1740; 8297]
  = Return [8295; 1593; 1604; 1740; 8297].
Proof.
  apply (proj1 (format_author_name_once [1593; 1604; 1740] _ eq_refl)).
Defined.

Lemma re_search_skip (m : str -> option nat) (pre post : str) :
  (∀ c t, isdecimal c = false -> m (c :: t) = None) ->
  Forall (fun c => isdecimal c = false) pre ->
  re_search m (pre ++ post) = re_search m post.
Proof.
  intros Hm. induction 1 as [|c pre Hc _ IH]; [done|].
  cbn [app re_search]. by rewrite (Hm c _ Hc).
Qed.

Lemma re_search_here (m : str -> option nat) (s : str) (n : nat) :
  m s = Some n -> re_search m s = Some (take n s).
Proof. intros Hm. destruct s; simpl; by rewrite Hm. Qed.

(** X10.  From a label without digits followed by a date, and from a
    label without digits followed by a number, [clean_author_info] returns
    the date and the number, whatever follows them. *)
Theorem clean_author_info_extracts (label1 date rest1 label2 number rest2 : str) :
  Forall (fun c => isdecimal c = false) label1 ->
  ScraperV2.m_date date = Some [] ->
  Forall (fun c => isdecimal c = false) label2 ->
  number ≠ [] ->
  Forall (fun c => isdecimal c = true) number ->
  span isdecimal rest2 = O ->
  clean_author_info (label1 ++ date ++ rest1) (label2 ++ number ++ rest2)
  = (date, number).
Proof.
  intros Hl1 Hdate Hl2 Hne Hnum Hrest.
  pose proof (m_date_length _ _ Hdate) as Hlen. simpl in Hlen.
  unfold clean_author_info. f_equal.
  - assert (is_empty (label1 ++ date ++ rest1) = false) as ->.
    { destruct label1; [|done]. destruct date; [done|done]. }
    rewrite re_search_skip; [|by intros c t Hc;
      unfold m_date_text, ScraperV2.m_date; cbn; rewrite Hc|done].
    rewrite (re_search_here _ _ 10).
    + by rewrite take_app_length'.
    + unfold m_date_text. by rewrite (m_date_app _ _ rest1 Hdate).
  - assert (is_empty (label2 ++ number ++ rest2) = false) as ->.
    { destruct label2; [|done]. by destruct number. }
    rewrite re_search_skip; [|by intros c t Hc;
      unfold m_number; cbn; rewrite Hc|done].
    rewrite (re_search_here _ _ (length number)).
    + by rewrite take_app_length.
    + unfold m_number. rewrite (span_all _ _ _ Hnum), Hrest, Nat.add_0_r.
      by destruct number.
Qed.

Lemma clean_author_info_extracts_witness :
  clean_author_info (u "عضویت: " ++ u "1401/06/16" ++ [])
                    (u "تعداد پست: " ++ u "674" ++ u " x")
  = (u "1401/06/16", u "674").
Proof.
  apply clean_author_info_extracts.
  - apply (bool_decide_unpack _). vm_compute. reflexivity.
  - vm_compute. reflexivity.
  - apply (bool_decide_unpack _). vm_compute. reflexivity.
  - vm_compute. discriminate.
  - apply (bool_decide_unpack _). vm_compute. reflexivity.
  - vm_compute. reflexivity.
Defined.

(** X11.  Whatever the URL, the topic id is a part of its path between
    two slashes or the word [unknown], so the file name built from it has
    no slash in it. *)
Theorem auto_filename_no_slash (url_path : str -> str) (isdigit : str -> bool)
    (url : str) :
  Forall (fun c => c ≠ 47) (extract_topic_id url_path isdigit url)
  ∧ Forall (fun c => c ≠ 47)
      (auto_filename (extract_topic_id url_path isdigit url)).
Proof.
  assert (Forall (fun c => c ≠ 47) (extract_topic_id url_path isdigit url)) as H.
  { unfold extract_topic_id.
    destruct (List.find _ _) as [part|] eqn:E.
    - apply find_some in E as [Hin _]. apply list_elem_of_In in Hin.
      pose proof (split_on_no_sep 47 (url_path url)) as Hall.
      rewrite Forall_forall in Hall. by apply Hall.
    - apply (bool_decide_unpack _). vm_compute. reflexivity. }
  split; [done|]. unfold auto_filename.
  apply Forall_app. split; [|apply Forall_app; split; [done|]];
    apply (bool_decide_unpack _); vm_compute; reflexivity.
Qed.
End AuthorMore.

(** ** Threads of [ScraperV2] *)

Section ThreadFacts.
Import ScraperV2.
Variable url_path : str -> str.
Variable unquote : str -> str.
Variable lower : str -> str.
Variable now : str.
Variable hash : str -> Z.
Variable session_get : nat -> str -> outcome Soup.

(** X12.  The path of the address decides: split at the slashes, it must
    have at least four parts with [topic] as the third, and then the
    fourth part is the thread id and the fifth, unquoted, the title
    ([untitled] when there is none); any other path raises [ValueError]. *)
Theorem get_thread_info_parts (url : str) (parts : list str) :
  url_path url = join [47] parts ->
  parts ≠ [] ->
  Forall (Forall (fun c => c ≠ 47)) parts ->
  get_thread_info url_path unquote url
  = match parts with
    | _ :: _ :: third :: id :: rest =>
      if bool_decide (third = u "topic") then
        Return (id, match rest with
                    | [] => u "untitled"
                    | title :: _ => unquote title
                    end)
      else Raise ValueError
    | _ => Raise ValueError
    end.
Proof.
  intros Hpath Hne Hparts. unfold get_thread_info.
  rewrite Hpath, split_on_join by done.
  destruct parts as [|p0 [|p1 [|third [|id rest]]]]; try reflexivity.
  cbn [length Nat.leb andb lookup list_lookup].
  destruct (bool_decide (third = u "topic")) eqn:E.
  - apply bool_decide_eq_true in E as ->.
    rewrite bool_decide_eq_true_2 by done.
    destruct rest as [|title rest]; reflexivity.
  - apply bool_decide_eq_false in E.
    rewrite bool_decide_eq_false_2; [done|]. by intros [= ?].
Qed.

Lemma scan_div_valid (div : Element) (pd : PostData) :
  scan_div lower div = Some pd ->
  is_valid_post (Some pd) = true
  ∧ extract_post_data div = Some pd
  ∧ (50 <= length (strip (elem_text div)))%nat
  ∧ Exists (fun c => 0x0600 <= c <= 0x06FF) (strip (elem_text div)).
Proof.
  unfold scan_div. cbv zeta.
  destruct (_ <? 50)%nat eqn:Hlen; [done|]. apply Nat.ltb_ge in Hlen.
  destruct (existsb _ ui_terms); [done|].
  destruct (3 <? _)%nat; [done|].
  destruct (has_persian _) eqn:Hper; [|done]. cbn [negb].
  destruct (extract_post_data div) as [post_data|]; [|done].
  destruct (is_valid_post (Some post_data)) eqn:Hvalid; [|done].
  intros [= <-]. by apply has_persian_spec in Hper.
Qed.

Lemma is_valid_post_facts (pd : PostData) :
  is_valid_post (Some pd) = true ->
  (30 <= length (content pd))%nat
  ∧ Exists (fun c => 0x0600 <= c <= 0x06FF) (content pd)
  ∧ (5 <= length (split (content pd)) <= 200)%nat
  ∧ (nav_ratio (content pd) <= 2)%nat.
Proof.
  unfold is_valid_post.
  destruct (is_empty _); [done|].
  destruct (_ <? 30)%nat eqn:E; [done|]. apply Nat.ltb_ge in E.
  destruct (existsb _ _); [done|].
  destruct (2 <? _)%nat eqn:Hnav; [done|]. apply Nat.ltb_ge in Hnav.
  rewrite !andb_true_iff, !Nat.leb_le, has_persian_spec. tauto.
Qed.

(** X13.  Every post that [extract_posts_from_page] returns is valid,
    so it has at least 30 characters, a Persian character, between 5 and
    200 words and at most two of the navigation terms, and it comes from a
    block of the page whose trimmed text has at least 50 characters; the
    posts come in the order of their blocks, at most one for each. *)
Theorem scanned_posts_valid (soup : Soup) :
  Forall (fun pd =>
            is_valid_post (Some pd) = true
            ∧ (30 <= length (content pd))%nat
            ∧ Exists (fun c => 0x0600 <= c <= 0x06FF) (content pd)
            ∧ (5 <= length (split (content pd)) <= 200)%nat
            ∧ (nav_ratio (content pd) <= 2)%nat
            ∧ ∃ div, div ∈ divs soup ∧ extract_post_data div = Some pd
                     ∧ (50 <= length (strip (elem_text div)))%nat)
    (extract_posts_from_page lower soup)
  ∧ (length (extract_posts_from_page lower soup) <= length (divs soup))%nat
  ∧ Some <$> extract_posts_from_page lower soup
    `sublist_of` extract_post_data <$> divs soup.
Proof.
  unfold extract_posts_from_page. split; [|split].
  - apply Forall_forall. intros pd (div & Hdiv & Hscan)%list_elem_of_omap.
    apply scan_div_valid in Hscan as (Hvalid & Hext & Hlen & _).
    destruct (is_valid_post_facts pd Hvalid) as (? & ? & ? & ?).
    repeat (split; [done|]). by exists div.
  - induction (divs soup) as [|div l IH]; [done|]. cbn [omap list_omap].
    destruct (scan_div lower div); simpl; lia.
  - induction (divs soup) as [|div l IH]; [done|].
    cbn [omap list_omap]. rewrite fmap_cons.
    destruct (scan_div lower div) as [pd|] eqn:E.
    + apply scan_div_valid in E as (_ & E & _).
      rewrite fmap_cons, E. by apply sublist_skip.
    + by apply sublist_cons.
Qed.

Lemma scrape_pages_valid (k : nat) (url : str) (nums : list Z)
    (all_posts : list PostData) :
  scrape_pages lower session_get k url nums = Return all_posts ->
  Forall (fun pd => is_valid_post (Some pd) = true) all_posts.
Proof.
  revert k all_posts. induction nums as [|n nums IH]; intros k all_posts.
  - by intros [= <-].
  - cbn [scrape_pages].
    destruct (fetch_page session_get k url n) as [soup|e]; [|done].
    cbn [mbind outcome_bind].
    destruct (scrape_pages lower session_get (S k) url nums) as [more|e] eqn:E;
      [|done].
    intros [= <-]. apply Forall_app. split; [|by eapply IH].
    apply Forall_forall. intros pd (div & _ & Hscan)%list_elem_of_omap.
    by apply scan_div_valid in Hscan as (? & _).
Qed.

Lemma decimal_value_range (c v : Z) :
  decimal_value c = Some v -> 0 <= v <= 9.
Proof.
  unfold decimal_value. induction nd_starts as [|lo starts IH]; [done|].
  cbn [decimal_in]. destruct (_ && _) eqn:E; [|exact IH].
  apply andb_true_iff in E as [?%Z.leb_le ?%Z.leb_le].
  intros [= <-]. lia.
Qed.

Lemma int_digits_nonneg (t : str) (n : Z) :
  int_digits t = Return n -> 0 <= n.
Proof.
  unfold int_digits. destruct (_ <? _)%nat; [done|]. intros [= <-].
  assert (H : ∀ acc, 0 <= acc ->
            0 <= fold_left (fun acc c => match decimal_value c with
                                         | Some v => acc * 10 + v
                                         | None => acc
                                         end) t acc).
  { induction t as [|c t IH]; intros acc Hacc; [done|]. cbn [fold_left].
    apply IH. destruct (decimal_value c) as [v|] eqn:E; [|done].
    apply decimal_value_range in E. lia. }
  by apply H.
Qed.

Lemma max_of_ge (n : Z) (ns : list Z) :
  n <= max_of n ns ∧ Forall (fun k => k <= max_of n ns) ns.
Proof.
  unfold max_of. revert n. induction ns as [|m ns IH]; intros n; [done|].
  cbn [fold_left]. destruct (IH (Z.max n m)) as [H1 H2].
  split; [lia|]. constructor; [lia|done].
Qed.

Lemma page_numbers_of_spec (links : list str) (ns : list Z) :
  page_numbers_of links = Return ns ->
  Forall (fun k => 0 <= k) ns
  ∧ ∀ href t, href ∈ links -> re_search m_page_param href = Some t ->
      ∃ k, int_digits (drop 5 t) = Return k ∧ k ∈ ns.
Proof.
  revert ns. induction links as [|href links IH]; intros ns.
  - intros [= <-]. split; [done|]. by intros ? ? ?%elem_of_nil.
  - cbn [page_numbers_of].
    destruct (re_search m_page_param href) as [t|] eqn:Ht.
    + destruct (int_digits (drop 5 t)) as [n|e] eqn:Hn; [|done].
      cbn [mbind outcome_bind].
      destruct (page_numbers_of links) as [ms|e]; [|done].
      intros [= <-]. destruct (IH ms eq_refl) as [IH1 IH2]. split.
      * constructor; [by eapply int_digits_nonneg|done].
      * intros h t' [->|Hin]%elem_of_cons Hs.
        -- rewrite Ht in Hs. injection Hs as <-.
           exists n. split; [done|apply list_elem_of_here].
        -- destruct (IH2 h t' Hin Hs) as (k & ? & ?).
           exists k. split; [done|by apply list_elem_of_further].
    + intros Hns. destruct (IH ns Hns) as [IH1 IH2]. split; [done|].
      intros h t' [->|Hin]%elem_of_cons Hs; [congruence|eauto].
Qed.

(** X14.  The number of pages is never negative, and it is at least the
    page number of every link of the page whose address has [page=]
    followed by digits. *)
Theorem get_total_pages_bounds (soup : Soup) (n : Z) :
  get_total_pages soup = Return n ->
  0 <= n
  ∧ ∀ href t, href ∈ a_hrefs soup ->
      re_search m_page_param href = Some t ->
      ∃ k, int_digits (drop 5 t) = Return k ∧ k <= n.
Proof.
  unfold get_total_pages. cbv zeta.
  set (links := List.filter _ (a_hrefs soup)).
  assert (Hlinks : ∀ href t, href ∈ a_hrefs soup ->
            re_search m_page_param href = Some t -> href ∈ links).
  { intros href t Hin Ht. apply list_elem_of_In, filter_In.
    split; [by apply list_elem_of_In|].
    apply bool_decide_eq_true. by rewrite Ht. }
  case_bool_decide as Hnil; cbn [negb].
  - destruct (re_find m_pages_text (soup_text soup)) as [digits|].
    + intros Hn. split; [by eapply int_digits_nonneg|].
      intros href t Hin Ht. specialize (Hlinks _ _ Hin Ht).
      rewrite Hnil in Hlinks. by apply elem_of_nil in Hlinks.
    + intros [= <-]. split; [lia|].
      intros href t Hin Ht. specialize (Hlinks _ _ Hin Ht).
      rewrite Hnil in Hlinks. by apply elem_of_nil in Hlinks.
  - destruct (page_numbers_of links) as [ns|e] eqn:E; [|done].
    cbn [mbind outcome_bind].
    destruct (page_numbers_of_spec links ns E) as [Hpos Hall].
    destruct ns as [|m ns].
    + intros [= <-]. split; [lia|].
      intros href t Hin Ht.
      destruct (Hall href t (Hlinks _ _ Hin Ht) Ht) as (k & _ & Hk).
      by apply elem_of_nil in Hk.
    + intros [= <-]. destruct (max_of_ge m ns) as [Hm Hns].
      inversion Hpos; subst. split; [lia|].
      intros href t Hin Ht.
      destruct (Hall href t (Hlinks _ _ Hin Ht) Ht) as (k & Hk & Hin').
      exists k. split; [done|].
      apply elem_of_cons in Hin' as [->|Hin']; [done|].
      rewrite Forall_forall in Hns. by apply Hns.
Qed.

(** X15.  When [scrape_thread] returns, every post is valid, no two
    posts have the same fingerprint, the count in the metadata is the
    number of posts, the metadata names the address and the thread that
    [get_thread_info] reads from it, and the number of pages is not
    negative.  When the address is refused, [scrape_thread] raises the
    same error, whatever the server would answer. *)
Theorem scrape_thread_result (url : str) :
  (∀ posts md,
     scrape_thread url_path unquote lower now hash session_get url
     = Return (posts, md) ->
     Forall (fun pd => is_valid_post (Some pd) = true) posts
     ∧ NoDup ((fun pd => hash (take 100 (content pd))) <$> posts)
     ∧ total_posts md = Z.of_nat (length posts)
     ∧ source_url md = url
     ∧ get_thread_info url_path unquote url
       = Return (thread_id md, thread_title md)
     ∧ 0 <= total_pages md)
  ∧ (∀ e, get_thread_info url_path unquote url = Raise e ->
       scrape_thread url_path unquote lower now hash session_get url
       = Raise e).
Proof.
  unfold scrape_thread. split.
  - intros posts md.
    destruct (get_thread_info url_path unquote url) as [[id title]|e]; [|done].
    cbn [mbind outcome_bind].
    destruct (fetch_page session_get 0 url 1) as [soup|e]; [|done].
    cbn [mbind outcome_bind].
    destruct (get_total_pages soup) as [n|e] eqn:Hn; [|done].
    cbn [mbind outcome_bind].
    destruct (scrape_pages lower session_get 1 url (seqZ 1 n))
      as [all_posts|e] eqn:Hall; [|done].
    cbn [mbind outcome_bind]. intros [= <- <-].
    cbn [total_posts source_url thread_id thread_title total_pages].
    split.
    { apply scrape_pages_valid in Hall. rewrite Forall_forall in *.
      intros pd Hpd. apply Hall.
      eapply elem_of_sublist; [exact Hpd|apply unique_posts_sublist]. }
    split; [apply unique_posts_NoDup|].
    repeat (split; [done|]).
    by apply get_total_pages_bounds in Hn as [? _].
  - by intros e ->.
Qed.
End ThreadFacts.

Section ThreadWitnesses.
Import ScraperV2.

Lemma get_thread_info_parts_witness :
  get_thread_info (fun url => url) (fun part => part)
    (u "/discussion/topic/123/title")
  = Return (u "123", u "title").
Proof.
  rewrite (get_thread_info_parts (fun url => url) (fun part => part)
             (u "/discussion/topic/123/title")
             [[]; u "discussion"; u "topic"; u "123"; u "title"]).
  - vm_compute. reflexivity.
  - vm_compute. reflexivity.
  - discriminate.
  - apply (bool_decide_unpack _). vm_compute. reflexivity.
Defined.

Lemma get_total_pages_bounds_witness :
  0 <= 7 ∧ ∃ k, int_digits (drop 5 (u "page=2")) = Return k ∧ k <= 7.
Proof.
  assert (get_total_pages sample_soup = Return 7) as E
    by (vm_compute; reflexivity).
  destruct (get_total_pages_bounds sample_soup 7 E) as [H1 H2].
  split; [exact H1|].
  apply (H2 (u "/discussion/topic/123/title?page=2")).
  - vm_compute. apply list_elem_of_here.
  - vm_compute. reflexivity.
Defined.

Lemma scrape_thread_result_witness :
  ∃ posts md,
    scrape_thread (fun url => url) (fun part => part) (fun text => text)
      (u "2024-01-01T00:00:00") sample_hash (fun _ _ => Return sample_soup)
      (u "/discussion/topic/123/title")
    = Return (posts, md)
    ∧ Forall (fun pd => is_valid_post (Some pd) = true) posts
    ∧ total_posts md = Z.of_nat (length posts)
    ∧ length posts = 1%nat.
Proof.
  let v := eval vm_compute in
    (scrape_thread (fun url => url) (fun part => part) (fun text => text)
       (u "2024-01-01T00:00:00") sample_hash (fun _ _ => Return sample_soup)
       (u "/discussion/topic/123/title")) in
  match v with
  | Return (?posts, ?md) =>
    assert (scrape_thread (fun url => url) (fun part => part)
              (fun text => text) (u "2024-01-01T00:00:00") sample_hash
              (fun _ _ => Return sample_soup)
              (u "/discussion/topic/123/title")
            = Return (posts, md)) as E by (vm_compute; reflexivity);
    exists posts, md;
    destruct (proj1 (scrape_thread_result (fun url => url)
                       (fun part => part) (fun text => text)
                       (u "2024-01-01T00:00:00") sample_hash
                       (fun _ _ => Return sample_soup)
                       (u "/discussion/topic/123/title")) posts md E)
      as (Hvalid & _ & Hcount & _)
  end.
  split; [exact E|]. split; [exact Hvalid|]. split; [exact Hcount|].
  reflexivity.
Defined.
End ThreadWitnesses.

(** ** File names and page addresses of [ScraperV2] *)

Section NameFacts.
Import ScraperV2.

Lemma u_underscore : u "_" = [95].
Proof. reflexivity. Qed.

Lemma is_unsafe_false (c : Z) :
  is_unsafe c = false ↔ c ∉ [60; 62; 58; 34; 47; 92; 124; 63; 42].
Proof. unfold is_unsafe. apply bool_decide_eq_false. Qed.

Lemma remove_unsafe_none (s : str) :
  Forall (fun c => is_unsafe c = false) (re_sub m_unsafe [] s).
Proof.
  apply (re_sub_ind m_unsafe []
           (fun _ r => Forall (fun c => is_unsafe c = false) r)).
  - done.
  - done.
  - intros c t Hm IH. constructor; [|done].
    cbn [m_unsafe] in Hm. by destruct (is_unsafe c), Hm.
Qed.

Lemma underscores_no_space (s : str) :
  Forall (fun c => is_unsafe c = false) s ->
  Forall (fun c => is_unsafe c = false ∧ isspace c = false)
    (re_sub m_spaces [95] s).
Proof.
  apply (re_sub_ind m_spaces [95]
           (fun s r => Forall (fun c => is_unsafe c = false) s ->
                       Forall (fun c => is_unsafe c = false
                                        ∧ isspace c = false) r)).
  - done.
  - intros c t n _ IH Hs. constructor; [done|].
    apply IH, Forall_drop. by inversion Hs.
  - intros c t Hm IH Hs. inversion Hs; subst.
    rewrite m_spaces_cons in Hm.
    destruct (isspace c) eqn:E; [by destruct Hm|].
    constructor; [done|]. by apply IH.
Qed.

(** X16.  The name chosen for the markdown file ends in [.md].  Before
    that comes either [thread_] and the thread id, or a title of at least
    three characters that has none of the characters
    [<], [>], [:], double quote, [/], backslash, [|], [?], [*] and no
    whitespace. *)
Theorem markdown_filename_safe (title id : option str) :
  ∃ stem,
    markdown_filename title id = stem ++ u ".md"
    ∧ (stem = u "thread_" ++ default (u "unknown") id
       ∨ ((3 <= length stem)%nat
          ∧ Forall (fun c => c ∉ [60; 62; 58; 34; 47; 92; 124; 63; 42]
                             ∧ isspace c = false) stem)).
Proof.
  unfold markdown_filename. cbv zeta. rewrite u_underscore.
  set (safe := re_sub m_spaces [95] _).
  destruct (is_empty safe || (length safe <? 3)%nat) eqn:E.
  - eexists. split; [reflexivity|by left].
  - exists safe. split; [reflexivity|]. right.
    apply orb_false_iff in E as [_ E%Nat.ltb_ge]. split; [done|].
    subst safe. eapply Forall_impl.
    + apply underscores_no_space, strip_Forall, remove_unsafe_none.
    + intros c [Hc ?]. split; [by apply is_unsafe_false|done].
Qed.

Lemma bytes_of_inj (s t : string) : bytes_of s = bytes_of t -> s = t.
Proof.
  revert t. induction s as [|a s IH]; intros [|b t]; try done.
  cbn [bytes_of]. intros [= Hab Hst]. f_equal; [|by apply IH].
  apply N2Z.inj in Hab.
  rewrite <- (ascii_N_embedding a), <- (ascii_N_embedding b). by f_equal.
Qed.

Lemma digits_of_inj (n m : Z) :
  0 <= n -> 0 <= m -> digits_of n = digits_of m -> n = m.
Proof.
  intros Hn Hm H. apply bytes_of_inj in H.
  assert (Hnil : ∀ k, N.to_uint k ≠ Decimal.Nil).
  { intros [|p]; [done|]. apply DecimalPos.Unsigned.to_uint_nonnil. }
  assert (N.to_uint (Z.to_N n) = N.to_uint (Z.to_N m)) as Hu.
  { pose proof (NilZero.usu _ (Hnil (Z.to_N n))) as H1.
    pose proof (NilZero.usu _ (Hnil (Z.to_N m))) as H2.
    rewrite H in H1. congruence. }
  apply DecimalN.Unsigned.to_uint_inj in Hu. lia.
Qed.

Lemma digits_of_nonempty (n : Z) : digits_of n ≠ [].
Proof.
  unfold digits_of. destruct (N.to_uint (Z.to_N n)) eqn:E; try done.
  all: cbn; done.
Qed.

(** X17.  For page numbers from 1 on, [fetch_page] asks for different
    addresses for different pages: the address of page 1 is the address of
    the thread itself, and a later page adds its own number. *)
Theorem page_address_distinct (url : str) (n m : Z) (address : str) :
  1 <= n -> 1 <= m ->
  page_address url n = Return address ->
  page_address url m = Return address ->
  n = m.
Proof.
  intros Hn Hm. unfold page_address.
  assert (Hstr : ∀ k, 1 <= k -> str_of_int k = digits_of k).
  { intros k Hk. unfold str_of_int. by rewrite (proj2 (Z.ltb_ge k 0)) by lia. }
  assert (Hne : ∀ (sep : str) k, url ++ sep ++ digits_of k ≠ url).
  { intros sep k H. rewrite <- (app_nil_r url) in H at 2.
    apply app_inv_head in H. apply app_eq_nil in H as [_ H].
    by apply digits_of_nonempty in H. }
  destruct (1 <? n) eqn:En, (1 <? m) eqn:Em;
    try apply Z.ltb_lt in En; try apply Z.ltb_lt in Em;
    try apply Z.ltb_ge in En; try apply Z.ltb_ge in Em.
  - destruct (_ <? _)%nat; [done|]. destruct (_ <? _)%nat; [done|].
    rewrite !Hstr by lia.
    destruct (contains (u "?") url); intros E1 E2;
      cbv [mret outcome_ret] in E1, E2.
    + assert (url ++ u "&page=" ++ digits_of n
              = url ++ u "&page=" ++ digits_of m) as H by congruence.
      do 2 apply app_inv_head in H. apply digits_of_inj; (lia || done).
    + assert (url ++ u "?page=" ++ digits_of n
              = url ++ u "?page=" ++ digits_of m) as H by congruence.
      do 2 apply app_inv_head in H. apply digits_of_inj; (lia || done).
  - destruct (_ <? _)%nat; [done|]. rewrite Hstr by lia.
    destruct (contains (u "?") url); intros E1 E2;
      cbv [mret outcome_ret] in E1, E2.
    + assert (url ++ u "&page=" ++ digits_of n = url) as H by congruence.
      by apply Hne in H.
    + assert (url ++ u "?page=" ++ digits_of n = url) as H by congruence.
      by apply Hne in H.
  - destruct (_ <? _)%nat; [done|]. rewrite Hstr by lia.
    destruct (contains (u "?") url); intros E1 E2;
      cbv [mret outcome_ret] in E1, E2.
    + assert (url ++ u "&page=" ++ digits_of m = url) as H by congruence.
      by apply Hne in H.
    + assert (url ++ u "?page=" ++ digits_of m = url) as H by congruence.
      by apply Hne in H.
  - intros _ _. lia.
Qed.

Lemma page_address_distinct_witness :
  page_address (u "/t") 2 = Return (u "/t?page=2") ∧ (2 : Z) = 2.
Proof.
  split; [reflexivity|].
  apply (page_address_distinct (u "/t") 2 2 (u "/t?page=2")); try lia.
  - reflexivity.
  - reflexivity.
Defined.
End NameFacts.

(** ** The org-mode text ([Scraper.format_org_mode]) *)

Section RenderFacts.
Import Scraper.
Variable strptime : str -> option datetime.
Variable int : str -> outcome Z.
Variable url_path : str -> str.
Variable isdigit : str -> bool.
Variable now : str.

Lemma format_author_name_returns (author : str) :
  ∃ r, format_author_name author = Return r.
Proof.
  destruct author as [|c t]; [by eexists|].
  unfold format_author_name. cbn [is_empty getitem lookup list_lookup].
  cbv [mbind outcome_bind]. destruct (is_persian c); by eexists.
Qed.

Lemma format_post_cases (post : Post) (heading_level : str) :
  match likes post with
  | Some (c :: t) =>
    if bool_decide (c :: t = u "0") then
      ∃ lines, _format_post strptime int post heading_level = Return lines
    else
      match int (c :: t) with
      | Return _ =>
        ∃ lines, _format_post strptime int post heading_level = Return lines
      | Raise e => _format_post strptime int post heading_level = Raise e
      end
  | _ => ∃ lines, _format_post strptime int post heading_level = Return lines
  end.
Proof.
  unfold _format_post.
  destruct (format_author_name_returns (default (u "Unknown") (author post)))
    as [r ->].
  destruct (clean_author_info _ _) as [join_date post_count].
  cbv [mbind outcome_bind mret outcome_ret].
  destruct (likes post) as [[|c t]|]; cbn [from_option Datatypes.id is_empty negb andb].
  - eexists; reflexivity.
  - destruct (decide (c :: t = u "0")) as [E|E].
    + rewrite !(bool_decide_eq_true_2 _ E). eexists; reflexivity.
    + rewrite !(bool_decide_eq_false_2 _ E). cbn [negb].
      destruct (int (c :: t)); [eexists; reflexivity|reflexivity].
  - rewrite bool_decide_eq_true_2 by done. eexists; reflexivity.
Qed.

Lemma format_post_returns (post : Post) (heading_level : str) :
  (∃ lines, _format_post strptime int post heading_level = Return lines)
  ↔ likes_convertible int post.
Proof.
  pose proof (format_post_cases post heading_level) as H.
  unfold likes_convertible.
  destruct (likes post) as [[|c t]|].
  - split; [by intros _ l [= <-]|done].
  - case_bool_decide as E.
    + split; [|done]. intros _ l [= <-]. by rewrite E.
    + destruct (int (c :: t)) as [n|e] eqn:Ei.
      * split; [|done]. intros _ l [= <-] _ _. by exists n.
      * rewrite H. split; [by intros [? ?]|].
        intros Hl. destruct (Hl (c :: t)) as [n Hn]; [done..|]. congruence.
  - split; [by intros _ l ?|done].
Qed.

Lemma format_post_raises (post : Post) (heading_level : str) (e : exn) :
  _format_post strptime int post heading_level = Raise e
  ↔ ∃ l, likes post = Some l ∧ l ≠ [] ∧ l ≠ u "0" ∧ int l = Raise e.
Proof.
  pose proof (format_post_cases post heading_level) as H.
  destruct (likes post) as [[|c t]|].
  - destruct H as [lines ->]. split; [done|]. by intros (l & [= <-] & ? & _).
  - case_bool_decide as E.
    + destruct H as [lines ->]. split; [done|].
      intros (l & [= <-] & _ & ? & _). done.
    + destruct (int (c :: t)) as [n|e'] eqn:Ei.
      * destruct H as [lines ->]. split; [done|].
        intros (l & [= <-] & _ & _ & ?). congruence.
      * rewrite H. split.
        -- intros [= <-]. by exists (c :: t).
        -- intros (l & [= <-] & _ & _ & ?). congruence.
  - destruct H as [lines ->]. split; [done|]. by intros (l & ? & _).
Qed.

Lemma format_posts_returns (posts : list Post) (heading_level : str) :
  (∃ lines, format_posts strptime int posts heading_level = Return lines)
  ↔ Forall (likes_convertible int) posts.
Proof.
  induction posts as [|post posts IH]; cbn [format_posts].
  - split; [done|]. intros _. by eexists.
  - rewrite Forall_cons, <- IH, <- (format_post_returns post heading_level).
    cbv [mbind outcome_bind mret outcome_ret].
    destruct (_format_post _ _ _ _) as [lines|e].
    + destruct (format_posts _ _ _ _) as [more|e].
      * split; intros _; [split|]; by eexists.
      * split; [by intros [? ?]|]. by intros [_ [? ?]].
    + split; [by intros [? ?]|]. by intros [[? ?] _].
Qed.

Lemma format_posts_raises (posts : list Post) (heading_level : str) (e : exn) :
  format_posts strptime int posts heading_level = Raise e ->
  ∃ post l, post ∈ posts ∧ likes post = Some l ∧ l ≠ [] ∧ l ≠ u "0"
            ∧ int l = Raise e.
Proof.
  induction posts as [|post posts IH]; cbn [format_posts]; [done|].
  cbv [mbind outcome_bind mret outcome_ret].
  destruct (_format_post _ _ _ _) as [lines|e'] eqn:E.
  - destruct (format_posts _ _ _ _) as [more|e'']; [done|].
    intros [= <-]. destruct IH as (p & l & ? & ?); [done|].
    exists p, l. split; [by apply list_elem_of_further|done].
  - intros [= <-]. apply format_post_raises in E as (l & ?).
    exists post, l. split; [apply list_elem_of_here|done].
Qed.

Lemma format_pages_returns (m : gmap Z (list Post)) (url : str)
    (page_nums : list Z) :
  (∃ lines, format_pages strptime int m url page_nums = Return lines)
  ↔ Forall (fun k => Forall (likes_convertible int) (default [] (m !! k)))
           page_nums.
Proof.
  induction page_nums as [|k ks IH]; cbn [format_pages].
  - split; [done|]. intros _. by eexists.
  - rewrite Forall_cons, <- IH, <- (format_posts_returns _ (u "***")).
    cbv [mbind outcome_bind mret outcome_ret].
    destruct (format_posts _ _ _ _) as [lines|e].
    + destruct (format_pages _ _ _ _ _) as [more|e].
      * split; intros _; [split|]; by eexists.
      * split; [by intros [? ?]|]. by intros [_ [? ?]].
    + split; [by intros [? ?]|]. by intros [[? ?] _].
Qed.

Lemma format_pages_raises (m : gmap Z (list Post)) (url : str)
    (page_nums : list Z) (e : exn) :
  format_pages strptime int m url page_nums = Raise e ->
  ∃ k post l, post ∈ default [] (m !! k) ∧ likes post = Some l ∧ l ≠ []
              ∧ l ≠ u "0" ∧ int l = Raise e.
Proof.
  induction page_nums as [|k ks IH]; cbn [format_pages]; [done|].
  cbv [mbind outcome_bind mret outcome_ret].
  destruct (format_posts _ _ _ _) as [lines|e'] eqn:E.
  - destruct (format_pages _ _ _ _ _) as [more|e'']; [done|].
    intros [= <-]. by apply IH.
  - intros [= <-]. apply format_posts_raises in E as (p & l & ? & ?).
    by exists k, p, l.
Qed.

Lemma group_by_page_snoc (posts : list Post) (post : Post) :
  group_by_page (posts ++ [post])
  = <[page_of post := default [] (group_by_page posts !! page_of post)
                      ++ [post]]> (group_by_page posts).
Proof. unfold group_by_page. by rewrite fold_left_app. Qed.

Lemma group_by_page_lookup (posts : list Post) (k : Z) :
  group_by_page posts !! k
  = match filter (fun post => page_of post = k) posts with
    | [] => None
    | l => Some l
    end.
Proof.
  induction posts as [|post posts IH] using rev_ind; [done|].
  rewrite group_by_page_snoc, filter_app.
  destruct (decide (page_of post = k)) as [<-|Hk].
  - rewrite lookup_insert_eq, IH, filter_cons_True by done.
    destruct (filter _ posts); reflexivity.
  - rewrite lookup_insert_ne, IH, filter_cons_False by done.
    by rewrite filter_nil, app_nil_r.
Qed.

Lemma group_by_page_default (posts : list Post) (k : Z) :
  default [] (group_by_page posts !! k)
  = filter (fun post => page_of post = k) posts.
Proof. rewrite group_by_page_lookup. by destruct (filter _ posts). Qed.

Lemma page_nums_spec (posts : list Post) (k : Z) :
  k ∈ sorted_keys (group_by_page posts)
  ↔ ∃ post, post ∈ posts ∧ page_of post = k.
Proof.
  unfold sorted_keys.
  rewrite merge_sort_Permutation, elem_of_elements, elem_of_dom.
  rewrite group_by_page_lookup. split.
  - intros [l Hl].
    destruct (filter _ posts) as [|post l'] eqn:E; [done|].
    assert (post ∈ filter (fun post => page_of post = k) posts) as Hin
      by (rewrite E; apply list_elem_of_here).
    apply list_elem_of_filter in Hin as [? ?]. by exists post.
  - intros (post & Hin & Hk).
    assert (post ∈ filter (fun post => page_of post = k) posts) as Hf
      by by apply list_elem_of_filter.
    destruct (filter _ posts); [by apply elem_of_nil in Hf|done].
Qed.

Lemma body_returns (posts : list Post) (url : str) (paginate : bool) :
  (∃ lines,
     (if paginate then
        format_pages strptime int (group_by_page posts) url
          (sorted_keys (group_by_page posts))
      else format_posts strptime int posts (u "**")) = Return lines)
  ↔ Forall (likes_convertible int) posts.
Proof.
  destruct paginate; [|apply format_posts_returns].
  rewrite format_pages_returns, !Forall_forall. split.
  - intros H post Hin. 
    specialize (H (page_of post)).
    rewrite group_by_page_default, Forall_forall in H.
    apply H; [apply page_nums_spec; by exists post|].
    by apply list_elem_of_filter.
  - intros H k _. rewrite group_by_page_default. apply Forall_forall.
    intros post [_ Hin]%list_elem_of_filter. by apply H.
Qed.

Lemma body_raises (posts : list Post) (url : str) (paginate : bool) (e : exn) :
  (if paginate then
     format_pages strptime int (group_by_page posts) url
       (sorted_keys (group_by_page posts))
   else format_posts strptime int posts (u "**")) = Raise e ->
  ∃ post l, post ∈ posts ∧ likes post = Some l ∧ l ≠ [] ∧ l ≠ u "0"
            ∧ int l = Raise e.
Proof.
  destruct paginate; [|apply format_posts_raises].
  intros (k & post & l & Hin & ?)%format_pages_raises.
  rewrite group_by_page_default in Hin.
  apply list_elem_of_filter in Hin as [_ Hin]. by exists post, l.
Qed.

(** X19.  With or without page headings, [format_org_mode] returns a
    text exactly when every post has a like count that can be
    converted, and an exception that it raises is the one that [int]
    raised on the like count of one of the posts. *)
Theorem format_org_mode_outcome (metadata : Metadata) (posts : list Post)
    (base_url : str) (paginate : bool) :
  let run := format_org_mode strptime int url_path isdigit now
               metadata posts base_url paginate in
  ((∃ text, run = Return text) ↔ Forall (likes_convertible int) posts)
  ∧ (∀ e, run = Raise e ->
          ∃ post l, post ∈ posts ∧ likes post = Some l ∧ l ≠ [] ∧ l ≠ u "0"
                    ∧ int l = Raise e).
Proof.
  cbv zeta. unfold format_org_mode.
  pose proof (body_returns posts base_url paginate) as Hr.
  pose proof (body_raises posts base_url paginate) as He.
  cbv [mbind outcome_bind mret outcome_ret].
  destruct (if paginate then _ else _) as [lines|e'].
  - split; [|done]. rewrite <- Hr. split; intros _; by eexists.
  - split.
    + rewrite <- Hr. split; by intros [? ?].
    + intros e [= <-]. by apply He.
Qed.

(** X18.  Rendering one post fails only in the conversion of its like
    count: [_format_post] returns its lines exactly when the like count
    is missing, empty, the text 0, or a text that [int] converts, and it
    raises an exception exactly when [int] raises that exception on a
    like count that is neither empty nor the text 0. *)
Theorem format_post_outcome (post : Post) (heading_level : str) :
  ((∃ lines, _format_post strptime int post heading_level = Return lines)
   ↔ likes_convertible int post)
  ∧ (∀ e, _format_post strptime int post heading_level = Raise e
          ↔ ∃ l, likes post = Some l ∧ l ≠ [] ∧ l ≠ u "0" ∧ int l = Raise e).
Proof.
  split.
  - apply format_post_returns.
  - intros e. apply format_post_raises.
Qed.

(** X20.  Once at least one page was fetched, [scrape_discussion] with
    the org-mode writer returns a text exactly when every extracted post
    has a like count that can be converted; an exception is then the one
    that [int] raised on the like count of an extracted post. *)
Theorem scrape_discussion_outcome (get_all_pages : str -> list Page)
    (url : str) (paginate : bool) :
  get_all_pages url ≠ [] ->
  ((∃ text,
      scrape_discussion get_all_pages
        (format_org_mode strptime int url_path isdigit now) url paginate
      = Return text)
   ↔ Forall (likes_convertible int) (extract_posts (get_all_pages url)))
  ∧ (∀ e,
       scrape_discussion get_all_pages
         (format_org_mode strptime int url_path isdigit now) url paginate
       = Raise e ->
       ∃ post l, post ∈ extract_posts (get_all_pages url)
                 ∧ likes post = Some l ∧ l ≠ [] ∧ l ≠ u "0"
                 ∧ int l = Raise e).
Proof.
  intros Hpages. unfold scrape_discussion.
  rewrite bool_decide_eq_false_2 by done.
  destruct (get_all_pages url) as [|soup rest]; [done|].
  cbn [getitem lookup list_lookup]. cbv [mbind outcome_bind].
  unfold format_org_mode.
  pose proof (body_returns (extract_posts (soup :: rest)) url paginate) as Hr.
  pose proof (body_raises (extract_posts (soup :: rest)) url paginate) as He.
  cbv [mbind outcome_bind mret outcome_ret].
  destruct (if paginate then _ else _) as [lines|e'].
  - split; [|done]. rewrite <- Hr. split; intros _; by eexists.
  - split.
    + rewrite <- Hr. split; by intros [? ?].
    + intros e [= <-]. by apply He.
Qed.

Lemma block_lines_elem (text line : str) :
  line ∈ block_lines text ->
  line ≠ [] ∧ strip line = line ∧ Forall (fun c => c ≠ 10) line.
Proof.
  unfold block_lines. intros (raw & Hraw & Hline)%list_elem_of_omap.
  cbv zeta in Hline. destruct (strip raw) as [|c t] eqn:E; [done|].
  injection Hline as <-. split; [done|]. split.
  - rewrite <- E. apply strip_idemp.
  - rewrite <- E. apply strip_Forall.
    pose proof (split_on_no_sep 10 text) as Hall.
    rewrite Forall_forall in Hall. by apply Hall.
Qed.

Lemma omap_trimmed (lines : list str) :
  Forall (fun line => line ≠ [] ∧ strip line = line) lines ->
  omap (fun line => if is_empty (strip line) then None else Some (strip line))
       lines
  = lines.
Proof.
  induction 1 as [|line lines [Hne Hs] _ IH]; [done|].
  cbn [omap list_omap]. rewrite Hs.
  destruct line; [done|]. cbn [is_empty]. by rewrite IH.
Qed.

(** X21.  The lines written for a content, quote or signature block are
    never empty, carry no white space at either end and hold no line
    break; splitting the written block again gives the same lines. *)
Theorem block_lines_trimmed (text : str) :
  Forall (fun line => line ≠ [] ∧ strip line = line
                      ∧ Forall (fun c => c ≠ 10) line) (block_lines text)
  ∧ block_lines (join [10] (block_lines text)) = block_lines text.
Proof.
  assert (Forall (fun line => line ≠ [] ∧ strip line = line
                              ∧ Forall (fun c => c ≠ 10) line)
                 (block_lines text)) as Hall.
  { apply Forall_forall. intros line. apply block_lines_elem. }
  split; [done|].
  destruct (block_lines text) as [|line lines] eqn:E; [reflexivity|].
  unfold block_lines at 1. rewrite split_on_join.
  - apply omap_trimmed. eapply Forall_impl; [exact Hall|]. by intros ? (? & ? & ?).
  - done.
  - eapply Forall_impl; [exact Hall|]. by intros ? (? & ? & ?).
Qed.

Lemma strictly_sorted (l : list Z) :
  StronglySorted Z.le l -> NoDup l -> StronglySorted Z.lt l.
Proof.
  induction 1 as [|x l _ IH Hx]; intros Hnd; [constructor|].
  apply NoDup_cons in Hnd as [Hnotin Hnd]. constructor; [by apply IH|].
  rewrite Forall_forall in *. intros y Hy.
  assert (x ≠ y) by (intros ->; done). specialize (Hx y Hy). lia.
Qed.

Lemma sorted_keys_sorted (posts : list Post) :
  StronglySorted Z.lt (sorted_keys (group_by_page posts)).
Proof.
  unfold sorted_keys. apply strictly_sorted.
  - apply StronglySorted_merge_sort; apply _.
  - rewrite merge_sort_Permutation. apply NoDup_elements.
Qed.


Lemma concat_empty_groups (posts : list Post) (keys : list Z) :
  Forall (fun k => filter (fun q => page_of q = k) posts = []) keys ->
  concat ((fun k => filter (fun q => page_of q = k) posts) <$> keys) = [].
Proof.
  induction 1 as [|k keys Hk _ IH]; [done|].
  rewrite fmap_cons. cbn [concat]. by rewrite Hk, IH.
Qed.

Lemma filter_none (posts : list Post) (k : Z) :
  Forall (fun q => page_of q ≠ k) posts ->
  filter (fun q => page_of q = k) posts = [].
Proof.
  induction 1 as [|q posts Hq _ IH]; [done|].
  by rewrite filter_cons_False.
Qed.

Lemma concat_groups_snoc (keys : list Z) (posts : list Post) (p : Post) :
  StronglySorted Z.lt keys ->
  page_of p ∈ keys ->
  Forall (fun q => page_of q <= page_of p) posts ->
  concat ((fun k => filter (fun q => page_of q = k) (posts ++ [p])) <$> keys)
  = concat ((fun k => filter (fun q => page_of q = k) posts) <$> keys) ++ [p].
Proof.
  intros Hsorted (l1 & l2 & ->)%list_elem_of_split Hle.
  apply StronglySorted_app in Hsorted as (Hlt & _ & Hs2).
  apply StronglySorted_cons in Hs2 as [Hgt _].
  rewrite !fmap_app, !fmap_cons, !concat_app. cbn [concat].
  assert ((fun k => filter (fun q => page_of q = k) (posts ++ [p])) <$> l1
          = (fun k => filter (fun q => page_of q = k) posts) <$> l1) as ->.
  { apply list_fmap_ext. intros i k Hk. 
    rewrite filter_app, filter_cons_False, filter_nil, app_nil_r; [done|].
    apply list_elem_of_lookup_2 in Hk.
    specialize (Hlt k (page_of p) Hk (list_elem_of_here _ _)). lia. }
  assert (∀ k q, k ∈ l2 -> q ∈ posts -> page_of q ≠ k) as Hne.
  { intros k q Hk Hq. rewrite Forall_forall in Hle. rewrite Forall_forall in Hgt.
    specialize (Hgt k Hk). specialize (Hle q Hq). cbn beta in *. lia. }
  assert (∀ k, k ∈ l2 -> page_of p ≠ k) as Hp.
  { intros k Hk. rewrite Forall_forall in Hgt. specialize (Hgt k Hk). lia. }
  rewrite (concat_empty_groups posts l2), (concat_empty_groups (posts ++ [p]) l2).
  - rewrite filter_app, filter_cons_True, filter_nil by done.
    by rewrite !app_nil_r, <- !app_assoc.
  - apply Forall_forall. intros k Hk. apply filter_none.
    apply Forall_app. split.
    + apply Forall_forall. intros q Hq. by apply Hne.
    + constructor; [by apply Hp|constructor].
  - apply Forall_forall. intros k Hk. apply filter_none.
    apply Forall_forall. intros q Hq. by apply Hne.
Qed.

Lemma concat_groups (keys : list Z) (posts : list Post) :
  StronglySorted Z.lt keys ->
  StronglySorted Z.le (page_of <$> posts) ->
  (∀ post, post ∈ posts -> page_of post ∈ keys) ->
  concat ((fun k => filter (fun q => page_of q = k) posts) <$> keys) = posts.
Proof.
  intros Hkeys. induction posts as [|p posts IH] using rev_ind; intros Hs Hin.
  - apply concat_empty_groups. by apply Forall_forall.
  - rewrite fmap_app in Hs. apply StronglySorted_app in Hs as (Hle & Hs1 & _).
    rewrite concat_groups_snoc, IH; [done|done|..|done| |].
    + intros post Hp. apply Hin, elem_of_app. by left.
    + apply Hin, elem_of_app. right. apply list_elem_of_here.
    + apply Forall_forall. intros q Hq. apply Hle.
      * by apply list_elem_of_fmap_2.
      * apply list_elem_of_here.
Qed.

(** X23.  For the posts that [extract_posts] returns, listing them page
    by page keeps them all, once each, in the order of extraction. *)
Theorem pagination_keeps_order (pages : list Page) :
  let posts_by_page := group_by_page (extract_posts pages) in
  concat ((fun page_num => default [] (posts_by_page !! page_num))
            <$> sorted_keys posts_by_page)
  = extract_posts pages.
Proof.
  cbv zeta.
  destruct (extract_posts_from_pages 1 pages) as (ns & Hns & _ & Hsorted).
  fold (extract_posts pages) in Hns.
  erewrite list_fmap_ext; [|intros i k _; apply group_by_page_default].
  apply concat_groups.
  - apply sorted_keys_sorted.
  - assert (page_of <$> extract_posts pages = ns) as ->.
    { unfold page_of.
      rewrite (list_fmap_compose page (default 1)), Hns, <- list_fmap_compose.
      apply list_fmap_id. }
    apply Sorted_StronglySorted; [apply _|done].
  - intros post Hpost. apply page_nums_spec. by exists post.
Qed.
End RenderFacts.

Lemma scrape_discussion_outcome_witness :
  [Scraper.page_with_topic] ≠ []
  ∧ ((∃ text,
        Scraper.scrape_discussion (fun _ => [Scraper.page_with_topic])
          (Scraper.format_org_mode Scraper.Strptime.strptime int_digits
             (fun url => url) (fun _ => false) [])
          [] true
        = Return text)
     ↔ Forall (Scraper.likes_convertible int_digits)
              (Scraper.extract_posts [Scraper.page_with_topic])).
Proof.
  split; [done|].
  apply (scrape_discussion_outcome Scraper.Strptime.strptime int_digits
           (fun url => url) (fun _ => false) []
           (fun _ => [Scraper.page_with_topic]) [] true).
  done.
Defined.

(** ** A like count that is not a number *)

Section FailureFacts.
Import Scraper.

(** C9, at a failing input.  Without any page [scrape_discussion] raises
    its own exception.  With a first page whose topic has the like count
    [1,234], the like count is extracted as it stands, [int] refuses it,
    and [scrape_discussion] raises [ValueError] instead of a text. *)
Theorem like_count_aborts_run (strptime : str -> option datetime)
    (url_path : str -> str) (isdigit : str -> bool) (now url : str)
    (paginate : bool) :
  scrape_discussion (fun _ => [])
    (format_org_mode strptime int_of_str url_path isdigit now) url paginate
  = Raise (Exception "Could not fetch any pages")
  ∧ likes <$> extract_posts [liked_page] = [Some (u "1,234")]
  ∧ int_of_str (u "1,234") = Raise ValueError
  ∧ scrape_discussion (fun _ => [liked_page])
      (format_org_mode strptime int_of_str url_path isdigit now) url paginate
    = Raise ValueError.
Proof.
  split; [reflexivity|]. split; [vm_compute; reflexivity|].
  split; [vm_compute; reflexivity|].
  unfold scrape_discussion. rewrite bool_decide_eq_false_2 by done.
  cbn [getitem lookup list_lookup]. cbv [mbind outcome_bind].
  unfold format_org_mode.
  pose proof (body_returns strptime int_of_str (extract_posts [liked_page])
                url paginate) as Hr.
  pose proof (body_raises strptime int_of_str (extract_posts [liked_page])
                url paginate) as He.
  assert (likes <$> extract_posts [liked_page] = [Some (u "1,234")]) as Hlikes
    by (vm_compute; reflexivity).
  assert (int_of_str (u "1,234") = Raise ValueError) as Hint
    by (vm_compute; reflexivity).
  cbv [mbind outcome_bind mret outcome_ret].
  destruct (if paginate then _ else _) as [lines|e].
  - exfalso.
    assert (Forall (likes_convertible int_of_str) (extract_posts [liked_page]))
      as Hall by (apply Hr; by eexists).
    destruct (extract_posts [liked_page]) as [|post [|? ?]]; try done.
    injection Hlikes as Hl. apply Forall_cons in Hall as [Hpost _].
    destruct (Hpost (u "1,234") Hl) as [n Hn].
    + vm_compute. discriminate.
    + vm_compute. discriminate.
    + congruence.
  - destruct (He e eq_refl) as (post & l & Hin & Hl & _ & _ & Hraise).
    assert (likes post ∈ likes <$> extract_posts [liked_page]) as Hin'
      by by apply list_elem_of_fmap_2.
    rewrite Hlikes in Hin'. apply list_elem_of_singleton in Hin'.
    rewrite Hl in Hin'. injection Hin' as ->. congruence.
Qed.
End FailureFacts.

(** ** Streaming output ([Scraper.format_org_mode_streaming]) *)

Section StreamFacts.
Import Scraper.
Variable strptime : str -> option datetime.
Variable int : str -> outcome Z.
Variable url_path : str -> str.
Variable isdigit : str -> bool.
Variable now : str.

Lemma write_lines_app (l1 l2 : list str) (w : OrgWriter) :
  write_lines (l1 ++ l2) w = write_lines l2 (write_lines l1 w).
Proof. apply fold_left_app. Qed.

Lemma write_lines_cons (line : str) (lines : list str) (w : OrgWriter) :
  write_lines (line :: lines) w = write_lines lines (writeln line w).
Proof. reflexivity. Qed.

Lemma write_lines_if (c : bool) (lines : list str) (w : OrgWriter) :
  write_lines (if c then lines else []) w = when c (write_lines lines) w.
Proof. by destruct c. Qed.

Lemma write_lines_property (label : str) (value : option str) (w : OrgWriter) :
  write_lines (property_line label value) w
  = when (truthy value) (writeln (label ++ default [] value)) w.
Proof. unfold property_line. by destruct (truthy value). Qed.

Lemma writeln_block_lines (text : str) (w : OrgWriter) :
  writeln_block text w = write_lines (block_lines text) w.
Proof.
  unfold writeln_block, block_lines. revert w.
  induction (split_on 10 text) as [|line lines IH]; intros w; [done|].
  cbn [fold_left omap list_omap]. rewrite IH. cbv zeta.
  by destruct (is_empty (strip line)).
Qed.

Lemma when_cong (c : bool) (f g : OrgWriter -> OrgWriter) (w w' : OrgWriter) :
  (∀ x, f x = g x) -> w = w' -> when c f w = when c g w'.
Proof. intros Hfg <-. unfold when. by destruct c. Qed.

Lemma format_post_streaming_lines (post : Post) (w : OrgWriter)
    (heading_level : str) :
  _format_post_streaming strptime int post w heading_level
  = match _format_post strptime int post heading_level with
    | Return lines => (write_lines lines w, None)
    | Raise e => (w, Some e)
    end.
Proof.
  unfold _format_post_streaming, _format_post. cbv zeta.
  destruct (format_author_name (default (u "Unknown") (author post)))
    as [author_formatted|e]; [|reflexivity].
  destruct (clean_author_info _ _) as [join_date post_count].
  cbv [mbind outcome_bind mret outcome_ret].
  destruct (if negb (is_empty (default (u "0") (likes post))) && _ then _ else _)
    as [likes_str|e]; [|reflexivity].
  f_equal.
  rewrite !write_lines_app, !write_lines_property, !write_lines_if.
  repeat (apply when_cong;
          [intros x;
           rewrite ?write_lines_app, ?write_lines_cons, <- ?writeln_block_lines;
           reflexivity|]).
  destruct (page post) as [n|]; [|reflexivity].
  destruct (n =? 0); reflexivity.
Qed.

Lemma stream_posts_lines (posts : list Post) (w : OrgWriter)
    (heading_level : str) :
  ∃ lines,
    stream_posts strptime int posts w heading_level
    = (write_lines lines w,
       raised (format_posts strptime int posts heading_level))
    ∧ ∀ all, format_posts strptime int posts heading_level = Return all ->
             lines = all.
Proof.
  revert w. induction posts as [|post posts IH]; intros w.
  - exists []. split; [done|]. by intros all [= <-].
  - cbn [stream_posts format_posts]. rewrite format_post_streaming_lines.
    cbv [mbind outcome_bind mret outcome_ret].
    destruct (_format_post strptime int post heading_level) as [ls|e].
    + destruct (IH (write_lines ls w)) as (more & -> & Hmore).
      exists (ls ++ more). rewrite write_lines_app.
      destruct (format_posts strptime int posts heading_level) as [more'|e].
      * split; [done|]. intros all [= <-]. by rewrite (Hmore more').
      * done.
    + by exists [].
Qed.

Lemma stream_pages_lines (m : gmap Z (list Post)) (url : str)
    (page_nums : list Z) (w : OrgWriter) :
  ∃ lines,
    stream_pages strptime int m url page_nums w
    = (write_lines lines w,
       raised (format_pages strptime int m url page_nums))
    ∧ ∀ all, format_pages strptime int m url page_nums = Return all ->
             lines = all.
Proof.
  revert w. induction page_nums as [|k ks IH]; intros w.
  - exists []. split; [done|]. by intros all [= <-].
  - cbn [stream_pages format_pages]. cbv zeta.
    destruct (stream_posts_lines (default [] (m !! k))
                (writeln (page_heading (page_url url k) k) w) (u "***"))
      as (ls & -> & Hls).
    cbv [mbind outcome_bind mret outcome_ret].
    destruct (format_posts strptime int (default [] (m !! k)) (u "***"))
      as [ls'|e]; cbn [raised].
    + rewrite (Hls ls') by done.
      destruct (IH (write_lines ls'
                      (writeln (page_heading (page_url url k) k) w)))
        as (more & -> & Hmore).
      exists ([page_heading (page_url url k) k] ++ ls' ++ more).
      rewrite !write_lines_app.
      destruct (format_pages strptime int m url ks) as [more'|e].
      * split; [done|]. intros all [= <-]. by rewrite (Hmore more').
      * done.
    + by exists (page_heading (page_url url k) k :: ls).
Qed.

Lemma stream_body_lines (posts : list Post) (url : str) (paginate : bool)
    (w : OrgWriter) :
  ∃ lines,
    (if paginate then
       stream_pages strptime int (group_by_page posts) url
         (sorted_keys (group_by_page posts)) w
     else stream_posts strptime int posts w (u "**"))
    = (write_lines lines w,
       raised (if paginate then
                 format_pages strptime int (group_by_page posts) url
                   (sorted_keys (group_by_page posts))
               else format_posts strptime int posts (u "**")))
    ∧ ∀ all,
        (if paginate then
           format_pages strptime int (group_by_page posts) url
             (sorted_keys (group_by_page posts))
         else format_posts strptime int posts (u "**")) = Return all ->
        lines = all.
Proof.
  destruct paginate; [apply stream_pages_lines|apply stream_posts_lines].
Qed.

Lemma writeln_lines (x : str) (lines : list str) (w : OrgWriter) :
  writeln x (write_lines lines w) = write_lines (lines ++ [x]) w.
Proof. by rewrite write_lines_app. Qed.

Lemma when_lines (c : bool) (x : str) (lines : list str) (w : OrgWriter) :
  when c (writeln x) (write_lines lines w)
  = write_lines (lines ++ (if c then [x] else [])) w.
Proof. rewrite write_lines_app. by destruct c. Qed.

Lemma lines_lines (l1 l2 : list str) (w : OrgWriter) :
  write_lines l2 (write_lines l1 w) = write_lines (l1 ++ l2) w.
Proof. by rewrite write_lines_app. Qed.

Lemma format_org_mode_streaming_lines (metadata : Metadata)
    (posts : list Post) (base_url : str) (w : OrgWriter) (paginate : bool) :
  let title := default (u "Ninisite Post") (md_title metadata) in
  let topic_id := extract_topic_id url_path isdigit base_url in
  ∃ lines,
    format_org_mode_streaming strptime int url_path isdigit now
      metadata posts base_url w paginate
    = (write_lines ((u "* " ++ title) :: lines)
         (set_auto_filename topic_id
            (write_lines [u "#+TITLE: " ++ title; []] w)),
       raised (format_org_mode strptime int url_path isdigit now
                 metadata posts base_url paginate))
    ∧ ∀ text,
        format_org_mode strptime int url_path isdigit now
          metadata posts base_url paginate = Return text ->
        text = join [10] ((u "#+TITLE: " ++ title) :: []
                            :: (u "* " ++ title) :: lines).
Proof.
  cbv zeta. unfold format_org_mode_streaming, format_org_mode. cbv zeta.
  match goal with
  | |- context [stream_posts _ _ _ ?W _] =>
    destruct (stream_body_lines posts base_url paginate W)
      as (body & -> & Hbody)
  end.
  change (writeln [] (writeln (u "#+TITLE: " ++ default (u "Ninisite Post")
                                 (md_title metadata)) w))
    with (write_lines [u "#+TITLE: " ++ default (u "Ninisite Post")
                         (md_title metadata); []] w).
  set (w0 := set_auto_filename _ _).
  change (writeln (u "* " ++ default (u "Ninisite Post") (md_title metadata)) w0)
    with (write_lines [u "* " ++ default (u "Ninisite Post")
                         (md_title metadata)] w0).
  unfold property_line.
  assert (∀ (o : option (list str)) W,
            match o with
            | Some (c :: cs) =>
              writeln (u ":CATEGORIES: " ++ join (u " > ") (c :: cs)) W
            | _ => W
            end
            = write_lines match o with
                          | Some (c :: cs) =>
                            [u ":CATEGORIES: " ++ join (u " > ") (c :: cs)]
                          | _ => []
                          end W) as Hcat.
  { by intros [[|c cs]|] W. }
  rewrite Hcat.
  unfold when. 
  repeat match goal with
  | |- context [if ?c then writeln ?x (write_lines ?l ?W) else write_lines ?l ?W] =>
    change (if c then writeln x (write_lines l W) else write_lines l W)
      with (when c (writeln x) (write_lines l W));
    rewrite (when_lines c x l W)
  | |- context [writeln ?x (write_lines ?l ?W)] =>
    rewrite (writeln_lines x l W)
  | |- context [write_lines ?l2 (write_lines ?l1 ?W)] =>
    rewrite (lines_lines l1 l2 W)
  end.
  cbv [mbind outcome_bind mret outcome_ret].
  destruct paginate; cbv beta iota in Hbody |- *;
    [destruct (format_pages strptime int _ _ _) as [all|e]
    |destruct (format_posts strptime int posts _) as [all|e]];
    cbn [raised]; rewrite <- !app_assoc; cbn [app];
    try (eexists; split; [reflexivity|done]).
  - rewrite (Hbody all eq_refl).
    eexists. split; [reflexivity|]. intros text [= <-]. reflexivity.
  - rewrite (Hbody all eq_refl).
    eexists. split; [reflexivity|]. intros text [= <-]. reflexivity.
Qed.

Lemma write_lines_open (h : handle) (lines : list str) (w : OrgWriter) :
  file_handle w = Some h ->
  write_lines lines w
  = {| output_file := output_file w; file_handle := Some h;
       written := written w ++ concat ((fun line => line ++ [10]) <$> lines) |}.
Proof.
  revert w. induction lines as [|line lines IH]; intros w Hw.
  - destruct w as [o f t]. cbn in *. by rewrite app_nil_r, Hw.
  - rewrite write_lines_cons, IH.
    + unfold writeln, write. rewrite Hw. cbn [output_file written].
      rewrite fmap_cons. cbn [concat]. by rewrite !app_assoc.
    + unfold writeln, write. by rewrite Hw.
Qed.

Lemma write_lines_closed (lines : list str) (w : OrgWriter) :
  file_handle w = None -> write_lines lines w = w.
Proof.
  intros Hw. induction lines as [|line lines IH]; [done|].
  rewrite write_lines_cons. unfold writeln, write. by rewrite Hw.
Qed.

Lemma join_lines (lines : list str) :
  lines ≠ [] ->
  join [10] lines ++ [10] = concat ((fun line => line ++ [10]) <$> lines).
Proof.
  induction lines as [|line lines IH]; [done|]. intros _.
  rewrite fmap_cons. cbn [concat].
  destruct lines as [|line' lines]; [by rewrite app_nil_r|].
  rewrite join_cons by done. rewrite <- IH by done. by rewrite <- !app_assoc.
Qed.

(** X24.  Through a writer that already has its output (standard output
    or a named file), a streaming run that succeeds leaves the writer's
    file name and handle as they were and appends exactly the text that
    [format_org_mode] returns, followed by one line break. *)
Theorem streaming_writes_text (metadata : Metadata) (posts : list Post)
    (base_url : str) (w : OrgWriter) (paginate : bool) (h : handle)
    (text : str) :
  file_handle w = Some h ->
  format_org_mode strptime int url_path isdigit now
    metadata posts base_url paginate = Return text ->
  format_org_mode_streaming strptime int url_path isdigit now
    metadata posts base_url w paginate
  = ({| output_file := output_file w; file_handle := Some h;
        written := written w ++ text ++ [10] |}, None).
Proof.
  intros Hw Htext.
  destruct (format_org_mode_streaming_lines metadata posts base_url w paginate)
    as (lines & -> & Hlines).
  rewrite (Hlines text Htext), Htext. cbn [raised]. f_equal.
  rewrite join_lines by done.
  assert (file_handle (write_lines
            [u "#+TITLE: " ++ default (u "Ninisite Post") (md_title metadata);
             []] w) = Some h) as Hw'
    by (by rewrite (write_lines_open h)).
  unfold set_auto_filename. rewrite Hw'.
  rewrite lines_lines. by apply write_lines_open.
Qed.

(** X25.  Through a writer that has no output yet, the title line and
    the empty line after it are written before the file is opened and
    are lost: a streaming run that succeeds opens the file named after
    the topic id, and the file holds the text of [format_org_mode]
    without its first two lines, followed by one line break. *)
Theorem auto_named_file_lacks_title (metadata : Metadata) (posts : list Post)
    (base_url : str) (w : OrgWriter) (paginate : bool) (text : str) :
  file_handle w = None ->
  format_org_mode strptime int url_path isdigit now
    metadata posts base_url paginate = Return text ->
  ∃ body,
    text ++ [10]
    = u "#+TITLE: " ++ default (u "Ninisite Post") (md_title metadata)
        ++ [10; 10] ++ body
    ∧ format_org_mode_streaming strptime int url_path isdigit now
        metadata posts base_url w paginate
      = ({| output_file :=
              Some (auto_filename (extract_topic_id url_path isdigit base_url));
            file_handle :=
              Some (File (auto_filename
                           (extract_topic_id url_path isdigit base_url)));
            written := body |}, None).
Proof.
  intros Hw Htext.
  destruct (format_org_mode_streaming_lines metadata posts base_url w paginate)
    as (lines & -> & Hlines).
  rewrite (Hlines text Htext), Htext. cbn [raised].
  rewrite (write_lines_closed _ w) by done.
  unfold set_auto_filename. rewrite Hw.
  eexists. split; [|f_equal; by apply (write_lines_open (File _))].
  rewrite join_lines by done. rewrite !fmap_cons. cbn [concat written].
  by rewrite <- !app_assoc.
Qed.

(** X26.  The streaming run raises exactly the exception that the
    non-streaming run raises, and none when that one returns a text.
    Without any page the writer is left untouched; with at least one
    page the writer has an output with text in it when the run ends,
    also when the run ends with an exception. *)
Theorem scrape_discussion_streaming_outcome
    (get_all_pages : str -> list Page) (url : str) (w : OrgWriter)
    (paginate : bool) :
  snd (scrape_discussion_streaming get_all_pages
         (format_org_mode_streaming strptime int url_path isdigit now)
         url w paginate)
  = raised (scrape_discussion get_all_pages
              (format_org_mode strptime int url_path isdigit now)
              url paginate)
  ∧ match get_all_pages url with
    | [] =>
      scrape_discussion_streaming get_all_pages
        (format_org_mode_streaming strptime int url_path isdigit now)
        url w paginate
      = (w, Some (Exception "Could not fetch any pages"))
    | _ :: _ =>
      let writer :=
        fst (scrape_discussion_streaming get_all_pages
               (format_org_mode_streaming strptime int url_path isdigit now)
               url w paginate) in
      is_Some (file_handle writer) ∧ written writer ≠ []
    end.
Proof.
  unfold scrape_discussion_streaming, scrape_discussion.
  destruct (get_all_pages url) as [|soup rest] eqn:Hpages; [done|].
  rewrite !bool_decide_eq_false_2 by done.
  cbn [getitem lookup list_lookup]. cbv [mbind outcome_bind]. cbv zeta.
  destruct (format_org_mode_streaming_lines (extract_topic_metadata soup)
              (extract_posts (soup :: rest)) url w paginate)
    as (lines & -> & _).
  cbn [fst snd]. split; [done|].
  assert (∃ h, file_handle
                 (set_auto_filename (extract_topic_id url_path isdigit url)
                    (write_lines
                       [u "#+TITLE: " ++ default (u "Ninisite Post")
                          (md_title (extract_topic_metadata soup)); []] w))
               = Some h) as [h Hh].
  { unfold set_auto_filename.
    destruct (file_handle (write_lines _ w)) as [h|] eqn:E; [|by eexists].
    exists h. by rewrite E. }
  rewrite (write_lines_open h) by done. cbn [file_handle written].
  split; [by eexists|].
  rewrite fmap_cons. cbn [concat]. intros Hnil.
  apply app_eq_nil in Hnil as [_ Hnil].
  apply app_eq_nil in Hnil as [Hnil _].
  apply app_eq_nil in Hnil as [_ Hnil]. discriminate Hnil.
Qed.
End StreamFacts.

Lemma streaming_writes_text_witness :
  Scraper.file_handle (Scraper.new_OrgWriter (Some (u "-")))
  = Some Scraper.Stdout
  ∧ Scraper.format_org_mode Scraper.Strptime.strptime int_digits
      (fun url => url) (fun _ => false) []
      Scraper.sample_metadata [Scraper.reply_post] (u "/t") true
    = Return Scraper.sample_text
  ∧ Scraper.format_org_mode_streaming Scraper.Strptime.strptime int_digits
      (fun url => url) (fun _ => false) []
      Scraper.sample_metadata [Scraper.reply_post] (u "/t")
      (Scraper.new_OrgWriter (Some (u "-"))) true
    = ({| Scraper.output_file :=
            Scraper.output_file (Scraper.new_OrgWriter (Some (u "-")));
          Scraper.file_handle := Some Scraper.Stdout;
          Scraper.written :=
            Scraper.written (Scraper.new_OrgWriter (Some (u "-")))
              ++ Scraper.sample_text ++ [10] |}, None).
Proof.
  split; [vm_compute; reflexivity|]. split; [vm_compute; reflexivity|].
  apply (streaming_writes_text Scraper.Strptime.strptime int_digits
           (fun url => url) (fun _ => false) []
           Scraper.sample_metadata [Scraper.reply_post] (u "/t")
           (Scraper.new_OrgWriter (Some (u "-"))) true Scraper.Stdout
           Scraper.sample_text);
    vm_compute; reflexivity.
Defined.

Lemma auto_named_file_lacks_title_witness :
  Scraper.file_handle (Scraper.new_OrgWriter None) = None
  ∧ Scraper.format_org_mode Scraper.Strptime.strptime int_digits
      (fun url => url) (fun _ => false) []
      Scraper.sample_metadata [Scraper.reply_post] (u "/t") true
    = Return Scraper.sample_text
  ∧ ∃ body,
      Scraper.sample_text ++ [10]
      = u "#+TITLE: "
          ++ default (u "Ninisite Post")
               (Scraper.md_title Scraper.sample_metadata)
          ++ [10; 10] ++ body
      ∧ Scraper.format_org_mode_streaming Scraper.Strptime.strptime int_digits
          (fun url => url) (fun _ => false) []
          Scraper.sample_metadata [Scraper.reply_post] (u "/t")
          (Scraper.new_OrgWriter None) true
        = ({| Scraper.output_file :=
                Some (Scraper.auto_filename
                        (Scraper.extract_topic_id (fun url => url)
                           (fun _ => false) (u "/t")));
              Scraper.file_handle :=
                Some (Scraper.File
                        (Scraper.auto_filename
                           (Scraper.extract_topic_id (fun url => url)
                              (fun _ => false) (u "/t"))));
              Scraper.written := body |}, None).
Proof.
  split; [vm_compute; reflexivity|]. split; [vm_compute; reflexivity|].
  apply (auto_named_file_lacks_title Scraper.Strptime.strptime int_digits
           (fun url => url) (fun _ => false) []
           Scraper.sample_metadata [Scraper.reply_post] (u "/t")
           (Scraper.new_OrgWriter None) true Scraper.sample_text);
    vm_compute; reflexivity.
Defined.

(** ** Fetching the pages ([Scraper.get_all_pages]) *)

Section FetchFacts.
Import Scraper.
Variable fetch_page : nat -> str -> option Document.
Variable int : str -> outcome Z.
Variable isdigit : str -> bool.
Variable urljoin : str -> str -> str.

Lemma getitem_raises {A} (l : list A) (i : nat) (e : exn) :
  getitem l i = Raise e -> e = IndexError.
Proof. unfold getitem. destruct (l !! i); congruence. Qed.

Lemma link_page_outcome (max_page : Z) (link : Link) :
  match link_page int isdigit max_page link with
  | Return n => max_page <= n
  | Raise e => link_fails int isdigit link e
  end.
Proof.
  unfold link_page, link_fails. cbv zeta.
  assert (∀ m, max_page <= m ->
            match (if isdigit (strip (link_text link))
                   then n ← int (strip (link_text link)); mret (Z.max m n)
                   else mret m) with
            | Return n => max_page <= n
            | Raise e =>
              (isdigit (strip (link_text link)) = true
               ∧ int (strip (link_text link)) = Raise e)
              ∨ (∃ number, int number = Raise e ∧ e ≠ ValueError
                           ∧ e ≠ IndexError)
            end) as Htext.
  { intros m Hm. destruct (isdigit (strip (link_text link))); [|done].
    cbv [mbind outcome_bind mret outcome_ret].
    destruct (int (strip (link_text link))) as [n|e]; [lia|by left]. }
  destruct (contains (u "page=") (default [] (link_href link))).
  - cbv [mbind outcome_bind mret outcome_ret raise].
    destruct (getitem (split_str _ _) 1) as [part|e1] eqn:E1.
    + destruct (getitem (split_on 38 part) 0) as [number|e2] eqn:E2.
      * destruct (int number) as [n|e] eqn:E.
        -- apply Htext. lia.
        -- destruct e; [lia|lia|]. right. by exists number.
      * apply getitem_raises in E2 as ->. lia.
    + apply getitem_raises in E1 as ->. lia.
  - cbv [mbind outcome_bind mret outcome_ret]. by apply Htext.
Qed.

Lemma scan_links_outcome (max_page : Z) (links : list Link) :
  match scan_links int isdigit max_page links with
  | Return n => max_page <= n
  | Raise e => ∃ link, link ∈ links ∧ link_fails int isdigit link e
  end.
Proof.
  revert max_page. induction links as [|link links IH]; intros max_page.
  - cbn [scan_links]. cbv [mret outcome_ret]. lia.
  - cbn [scan_links]. cbv [mbind outcome_bind].
    pose proof (link_page_outcome max_page link) as Hlink.
    destruct (link_page int isdigit max_page link) as [m|e].
    + specialize (IH m).
      destruct (scan_links int isdigit m links) as [n|e]; [lia|].
      destruct IH as (l & ? & ?). exists l.
      split; [by apply list_elem_of_further|done].
    + exists link. split; [apply list_elem_of_here|done].
Qed.

(** X27.  [detect_total_pages] never counts fewer than one page, and it
    raises an exception only from a link of the pagination list of the
    fetched page: an address whose number cannot be read is skipped, but
    a link text that [isdigit] accepts and [int] rejects ends the call
    with the exception of [int]. *)
Theorem detect_total_pages_outcome (k : nat) (base_url : str) :
  match detect_total_pages fetch_page int isdigit k base_url with
  | Return n => 1 <= n
  | Raise e =>
    ∃ soup links link,
      fetch_page k base_url = Some soup
      ∧ soup_pagination soup = Some links
      ∧ link ∈ links
      ∧ link_fails int isdigit link e
  end.
Proof.
  unfold detect_total_pages.
  destruct (fetch_page k base_url) as [soup|]; [|cbv; discriminate].
  destruct (soup_pagination soup) as [links|] eqn:E; [|cbv; discriminate].
  pose proof (scan_links_outcome 1 links) as H.
  destruct (scan_links int isdigit 1 links) as [n|e]; [done|].
  destruct H as (link & ? & ?). by exists soup, links, link.
Qed.

Lemma fetch_loop_more_fuel (fuel fuel' k : nat) (base_url : str)
    (current_url : option str) (pages result : list Page) :
  fetch_loop fetch_page urljoin fuel k base_url current_url pages
  = Some result ->
  (fuel <= fuel')%nat ->
  fetch_loop fetch_page urljoin fuel' k base_url current_url pages
  = Some result.
Proof.
  revert fuel' k current_url pages.
  induction fuel as [|fuel IH]; intros fuel' k current_url pages Hrun Hle.
  - destruct fuel'; cbn [fetch_loop] in *;
      destruct (truthy current_url); done.
  - destruct fuel' as [|fuel']; [lia|]. cbn [fetch_loop] in *.
    destruct (truthy current_url); [|done].
    destruct (fetch_page k (default [] current_url)) as [soup|]; [|done].
    apply IH; [done|lia].
Qed.

Lemma fetch_loop_pages (fuel k : nat) (base_url : str)
    (current_url : option str) (pages result : list Page) :
  fetch_loop fetch_page urljoin fuel k base_url current_url pages
  = Some result ->
  ∃ more,
    result = pages ++ more
    ∧ (length more <= fuel)%nat
    ∧ (more = [] ↔ truthy current_url = false
                   ∨ fetch_page k (default [] current_url) = None)
    ∧ ∀ i page, more !! i = Some page ->
                ∃ url soup, fetch_page (k + i)%nat url = Some soup
                            ∧ soup_page soup = page.
Proof.
  revert k current_url pages.
  induction fuel as [|fuel IH]; intros k current_url pages Hrun;
    cbn [fetch_loop] in Hrun.
  - destruct (truthy current_url); [done|]. injection Hrun as <-.
    exists []. rewrite app_nil_r. split; [done|]. split; [done|].
    split; [by split; [left|]|]. by intros i page.
  - destruct (truthy current_url); cycle 1.
    { injection Hrun as <-. exists []. rewrite app_nil_r.
      split; [done|]. split; [cbn; lia|].
      split; [by split; [left|]|]. by intros i page. }
    destruct (fetch_page k (default [] current_url)) as [soup|] eqn:E.
    + apply IH in Hrun as (more & -> & Hlen & _ & Hfetched).
      exists (soup_page soup :: more). rewrite <- app_assoc.
      split; [done|]. split; [cbn [length]; lia|]. split.
      * split; [done|]. by intros [?|?].
      * intros [|i] page Hi.
        -- injection Hi as <-. exists (default [] current_url), soup.
           by rewrite Nat.add_0_r.
        -- destruct (Hfetched i page Hi) as (url & soup' & Hf & ?).
           exists url, soup'. split; [|done].
           by replace (k + S i)%nat with (S k + i)%nat by lia.
    + injection Hrun as <-. exists []. rewrite app_nil_r.
      split; [done|]. split; [cbn; lia|].
      split; [by split; [right|]|]. by intros i page.
Qed.

(** X28.  When [get_all_pages] returns, more rounds of the loop change
    nothing, there are at most as many pages as rounds, every page is
    the answer to a request, the [i]-th to the request after the [i]-th
    (the first request is the one that counts the pages), and no page
    is returned exactly when the address is empty or the first request
    of the loop fails. *)
Theorem get_all_pages_returns (fuel : nat) (base_url : str)
    (pages : list Page) :
  get_all_pages fetch_page int isdigit urljoin fuel base_url
  = Some (Return pages) ->
  (∀ fuel', (fuel <= fuel')%nat ->
            get_all_pages fetch_page int isdigit urljoin fuel' base_url
            = Some (Return pages))
  ∧ (length pages <= fuel)%nat
  ∧ (pages = [] ↔ base_url = [] ∨ fetch_page 1 base_url = None)
  ∧ ∀ i page, pages !! i = Some page ->
              ∃ url soup, fetch_page (S i) url = Some soup
                          ∧ soup_page soup = page.
Proof.
  unfold get_all_pages.
  destruct (detect_total_pages fetch_page int isdigit 0 base_url)
    as [total_pages|e]; [|done].
  destruct (fetch_loop fetch_page urljoin fuel 1 base_url (Some base_url) [])
    as [result|] eqn:Hrun; [|done].
  cbn. intros [= ->].
  split.
  { intros fuel' Hle.
    by rewrite (fetch_loop_more_fuel fuel fuel' _ _ _ _ pages Hrun Hle). }
  apply fetch_loop_pages in Hrun as (more & -> & Hlen & Hnil & Hfetched).
  cbn [app]. split; [done|]. split; [|done].
  rewrite Hnil. cbn [truthy default from_option Datatypes.id].
  destruct base_url as [|c s].
  - split; intros _; by left.
  - split; intros [?|?]; first [done|by right].
Qed.

Lemma fetch_loop_forever (P : str -> Prop) (base_url : str) :
  (∀ k url, P url ->
            url ≠ []
            ∧ ∃ soup next, fetch_page k url = Some soup
                           ∧ next_url urljoin base_url soup = Some next
                           ∧ P next) ->
  ∀ fuel k url pages,
    P url ->
    fetch_loop fetch_page urljoin fuel k base_url (Some url) pages = None.
Proof.
  intros Hstep. induction fuel as [|fuel IH]; intros k url pages Hurl;
    destruct (Hstep k url Hurl) as (Hne & soup & next & Hf & Hn & Hnext);
    cbn [fetch_loop truthy]; destruct url as [|c url]; try done.
  cbn [default from_option Datatypes.id]. rewrite Hf, Hn. by apply IH.
Qed.

(** X29.  The loop has no bound and does not notice an address that
    it has seen: when the addresses reached from the first one always
    answer with a page whose next-page link leads to such an address
    again, [get_all_pages] does not return, whatever the number of
    rounds. *)
Theorem get_all_pages_never_ends (P : str -> Prop) (base_url : str) (n : Z) :
  detect_total_pages fetch_page int isdigit 0 base_url = Return n ->
  P base_url ->
  (∀ k url, P url ->
            url ≠ []
            ∧ ∃ soup next, fetch_page k url = Some soup
                           ∧ next_url urljoin base_url soup = Some next
                           ∧ P next) ->
  ∀ fuel, get_all_pages fetch_page int isdigit urljoin fuel base_url = None.
Proof.
  intros Hdetect Hbase Hstep fuel. unfold get_all_pages. rewrite Hdetect.
  by rewrite (fetch_loop_forever P base_url Hstep fuel 1 base_url []).
Qed.
End FetchFacts.

Lemma get_all_pages_returns_witness :
  Scraper.get_all_pages Scraper.single_page_site int_digits (fun _ => false)
    (fun _ href => href) 1 (u "/t")
  = Some (Return [Scraper.page_with_topic])
  ∧ Scraper.get_all_pages Scraper.single_page_site int_digits
      (fun _ => false) (fun _ href => href) 3 (u "/t")
    = Some (Return [Scraper.page_with_topic]).
Proof.
  split; [vm_compute; reflexivity|].
  refine (proj1 (get_all_pages_returns Scraper.single_page_site int_digits
                   (fun _ => false) (fun _ href => href) 1 (u "/t")
                   [Scraper.page_with_topic] _) 3%nat _).
  - vm_compute; reflexivity.
  - lia.
Defined.

Lemma get_all_pages_never_ends_witness :
  Scraper.detect_total_pages Scraper.looping_site int_digits (fun _ => false)
    0 (u "/t") = Return 1
  ∧ Scraper.get_all_pages Scraper.looping_site int_digits (fun _ => false)
      (fun _ href => href) 5 (u "/t")
    = None.
Proof.
  split; [vm_compute; reflexivity|].
  refine (get_all_pages_never_ends Scraper.looping_site int_digits
            (fun _ => false) (fun _ href => href)
            (fun url => url = u "/t") (u "/t") 1 _ _ _ 5%nat).
  - vm_compute; reflexivity.
  - reflexivity.
  - intros k url ->. split; [vm_compute; discriminate|].
    exists Scraper.looping_document, (u "/t").
    split; [reflexivity|]. split; [vm_compute; reflexivity|reflexivity].
Defined.
